(** * RealOrRandom: the synthetic OHLC generator of [src/random_ohlc.py]

    A shallow embedding of class [RandomOHLC] and of its caller
    [random_case] ([src/app.py]).

    Conventions of the model.
    - A Python float that holds a price is an exact rational ([Q]); the
      values a division can produce besides a number (not-a-number, the two
      infinities) are the extra constructors of [float64].  Arithmetic on
      rationals is exact where the machine rounds to the nearest double: a
      value computed here can differ from the machine's in its last decimal
      kept; rounding being monotone, an order [x <= y] that holds here
      between two values computed the same way holds on the machine.
    - A timestamp is the number of seconds since the [start_date] default of
      [__create_dataframe], 2000-01-01 00:00:00, a Saturday.
    - A DataFrame is the list of its rows in index order; every row carries its
      timestamp, so a [reset_index] or a [set_index] that succeeds moves
      nothing here.  The plotting calls ([create_figure(...).show]) are not
      modelled.
    - [np.random] is an explicit [RandomState] threaded through every
      function that draws from it; a Python exception is a [Raise] result. *)

From Stdlib Require Import ZArith QArith Qround Qabs List Bool String Lia Lqa.
Import ListNotations.

Local Open Scope Z_scope.

(** ** Numbers *)

Definition Qltb (x y : Q) : bool := negb (Qle_bool y x).

(** [a > b] on two columns, row by row. *)
Definition Qgtb (x y : Q) : bool := Qltb y x.

Definition qmin (x y : Q) : Q := if Qle_bool x y then x else y.
Definition qmax (x y : Q) : Q := if Qle_bool x y then y else x.

(** Round to the nearest integer, ties to the even one ([np.rint]). *)
Definition rint (q : Q) : Z :=
  let f := Qfloor q in
  match Qcompare (q - inject_Z f) (1 # 2) with
  | Lt => f
  | Gt => f + 1
  | Eq => if Z.even f then f else f + 1
  end.

(** [x.round(decimals=d)] and [round(x, d)] on a column. *)
Definition round_decimals (d : nat) (q : Q) : Q :=
  Qmake (rint (q * inject_Z (10 ^ Z.of_nat d))) (Z.to_pos (10 ^ Z.of_nat d)).

(** ** Data model *)

Record candle (A : Type) : Type := Candle
  { date : Z; open : A; high : A; low : A; close : A }.

Arguments Candle {A} _ _ _ _ _.
Arguments date {A} _.
Arguments open {A} _.
Arguments high {A} _.
Arguments low {A} _.
Arguments close {A} _.

Definition DataFrame (A : Type) : Type := list (candle A).

(** Column assignment [df.low = column] and friends: row [i] receives entry
    [i] of the column. *)
Fixpoint set_low {A} (df : DataFrame A) (col : list A) : DataFrame A :=
  match df, col with
  | c :: df', v :: col' =>
      Candle (date c) (open c) (high c) v (close c) :: set_low df' col'
  | _, _ => []
  end.

Fixpoint set_high {A} (df : DataFrame A) (col : list A) : DataFrame A :=
  match df, col with
  | c :: df', v :: col' =>
      Candle (date c) (open c) v (low c) (close c) :: set_high df' col'
  | _, _ => []
  end.

Fixpoint set_open {A} (df : DataFrame A) (col : list A) : DataFrame A :=
  match df, col with
  | c :: df', v :: col' =>
      Candle (date c) v (high c) (low c) (close c) :: set_open df' col'
  | _, _ => []
  end.

(** Two columns combined row by row. *)
Fixpoint map2 {A B C} (f : A -> B -> C) (l : list A) (l' : list B) : list C :=
  match l, l' with
  | a :: l, b :: l' => f a b :: map2 f l l'
  | _, _ => []
  end.

(** ** Exceptions *)

Inductive exn : Type :=
  ValueError | IndexError | KeyError | TypeError | AttributeError.

Inductive result (A : Type) : Type :=
| Ok (a : A)
| Raise (e : exn).

Arguments Ok {A} _.
Arguments Raise {A} _.

(** ** Floats *)

Inductive float64 : Type :=
| Fin (q : Q)
| PInf
| NInf
| NaN.

Definition is_nan (x : float64) : bool :=
  match x with NaN => true | _ => false end.

Definition notnan (x : float64) : bool := negb (is_nan x).

(** [x <= y] and [x < y] as the hardware decides them: false as soon as one
    side is not a number. *)
Definition fle (x y : float64) : bool :=
  match x, y with
  | NaN, _ | _, NaN => false
  | NInf, _ | _, PInf => true
  | Fin a, Fin b => Qle_bool a b
  | _, _ => false
  end.

Definition flt (x y : float64) : bool :=
  match x, y with
  | NaN, _ | _, NaN => false
  | _, _ => negb (fle y x)
  end.

Definition fmax2 (x y : float64) : float64 := if fle x y then y else x.
Definition fmin2 (x y : float64) : float64 := if fle x y then x else y.

Definition fneg (x : float64) : float64 :=
  match x with
  | Fin q => Fin (- q)
  | PInf => NInf
  | NInf => PInf
  | NaN => NaN
  end.

Definition fadd (x y : float64) : float64 :=
  match x, y with
  | NaN, _ | _, NaN => NaN
  | Fin a, Fin b => Fin (a + b)
  | PInf, NInf | NInf, PInf => NaN
  | PInf, _ | _, PInf => PInf
  | NInf, _ | _, NInf => NInf
  end.

Definition fsub (x y : float64) : float64 := fadd x (fneg y).

Definition fsign (x : float64) : comparison :=
  match x with
  | Fin q => Qcompare q 0
  | PInf => Gt
  | NInf => Lt
  | NaN => Eq
  end.

Definition sign_mul (a b : comparison) : comparison :=
  match a, b with
  | Eq, _ | _, Eq => Eq
  | Gt, s | s, Gt => s
  | Lt, Lt => Gt
  end.

(** The infinity of a sign; no sign (zero times infinity, zero by zero)
    is not a number. *)
Definition inf_of_sign (s : comparison) : float64 :=
  match s with
  | Gt => PInf
  | Lt => NInf
  | Eq => NaN
  end.

Definition fmul (x y : float64) : float64 :=
  match x, y with
  | NaN, _ | _, NaN => NaN
  | Fin a, Fin b => Fin (a * b)
  | _, _ => inf_of_sign (sign_mul (fsign x) (fsign y))
  end.

(** Division; the zero of the model is the positive zero. *)
Definition fdiv (x y : float64) : float64 :=
  match x, y with
  | NaN, _ | _, NaN => NaN
  | Fin a, Fin b =>
      if Qeq_bool b 0 then inf_of_sign (Qcompare a 0) else Fin (a / b)
  | Fin _, _ => Fin 0
  | _, Fin b => if Qltb b 0 then fneg x else x
  | _, _ => NaN
  end.

Definition fround (d : nat) (x : float64) : float64 :=
  match x with
  | Fin q => Fin (round_decimals d q)
  | _ => x
  end.

(** [np.max(column)] of a frame column: pandas skips what is missing, and an
    empty column has no maximum. *)
Definition column_max (col : list Q) : float64 :=
  match col with
  | [] => NaN
  | v :: vs => Fin (fold_left qmax vs v)
  end.

Definition column_min (col : list Q) : float64 :=
  match col with
  | [] => NaN
  | v :: vs => Fin (fold_left qmin vs v)
  end.

(** ** The OHLC corrector *)

(** What fills a positional parameter of a numpy call: nothing ([None], the
    default) or a column. *)
Inductive pyarg : Type :=
| PyNone
| PySeries (col : list Q).

(** [np.min(a, axis, out)] and [np.max(a, axis, out)] for a column [a] of a
    frame.  numpy hands the call to the column's own method,
    [a.min(axis=axis, out=out)], and pandas takes no [out]: anything but
    [None] there is a [ValueError], raised before the axis is looked at.  A
    column is no axis either (it cannot be looked up: a [TypeError]).  With
    both left out, the call is [np.min(a)]. *)
Definition series_min (a : list Q) (axis out : pyarg) : result float64 :=
  match out with
  | PySeries _ => Raise ValueError
  | PyNone =>
      match axis with
      | PySeries _ => Raise TypeError
      | PyNone => Ok (column_min a)
      end
  end.

Definition series_max (a : list Q) (axis out : pyarg) : result float64 :=
  match out with
  | PySeries _ => Raise ValueError
  | PyNone =>
      match axis with
      | PySeries _ => Raise TypeError
      | PyNone => Ok (column_max a)
      end
  end.

(** [np.where(cond, x, y)] for a scalar [x] and a column [y]: [x] on the
    rows where [cond] holds, the cell of [y] on the others.  (The scalar of
    these calls is a number as soon as the frame has a row.) *)
Definition np_where (cond : list bool) (x : float64) (y : list Q) : list Q :=
  map2 (fun (b : bool) v => if b then match x with Fin q => q | _ => v end
                            else v) cond y.

Definition low_error (c : candle Q) : bool :=
  Qgtb (low c) (open c) || Qgtb (low c) (high c) || Qgtb (low c) (close c).

Definition high_error (c : candle Q) : bool :=
  Qltb (high c) (open c) || Qltb (high c) (low c) || Qltb (high c) (close c).

(** [__correct_lowcolumn_error].  The arguments of [np.where] are evaluated
    before it is called: the mask, then
    [np.min(df["open"], df["high"], df["close"])], where the [high] column
    sits in the place of [axis] and the [close] column in the place of
    [out]. *)
Definition correct_lowcolumn_error (df : DataFrame Q) : result (list Q) :=
  let cond := map low_error df in
  match series_min (map open df) (PySeries (map high df))
                   (PySeries (map close df)) with
  | Raise e => Raise e
  | Ok m => Ok (np_where cond m (map low df))
  end.

(** [__correct_highcolumn_error], with
    [np.max(df["open"], df["low"], df["close"])]. *)
Definition correct_highcolumn_error (df : DataFrame Q) : result (list Q) :=
  let cond := map high_error df in
  match series_max (map open df) (PySeries (map low df))
                   (PySeries (map close df)) with
  | Raise e => Raise e
  | Ok m => Ok (np_where cond m (map high df))
  end.

(** The two assignments of [__connect_open_close_candles]:
    [df.low = correct_low(df)] and then [df.high = correct_high(df)], the
    second reading the lows the first has written. *)
Definition correct_ohlc (df : DataFrame Q) : result (DataFrame Q) :=
  match correct_lowcolumn_error df with
  | Raise e => Raise e
  | Ok lows =>
      let df1 := set_low df lows in
      match correct_highcolumn_error df1 with
      | Raise e => Raise e
      | Ok highs => Ok (set_high df1 highs)
      end
  end.

(** ** The candle connector *)

(** [column.shift(1).fillna(0)]: every value moves one row down, the first
    row receives the fill value, the last value drops out. *)
Definition shift1_fill0 (col : list Q) : list Q :=
  match col with
  | [] => []
  | _ :: _ => 0%Q :: removelast col
  end.

(** [df.at[0, "open"] = v] on a frame with at least one row. *)
Definition set_open_at0 (df : DataFrame Q) (v : Q) : DataFrame Q :=
  match df with
  | [] => []
  | c :: df' => Candle (date c) v (high c) (low c) (close c) :: df'
  end.

(** The first three statements of [__connect_open_close_candles]: the frame
    they leave in [self.__df_1min]. *)
Definition connect_opens (start_price : Q) (df : DataFrame Q) : DataFrame Q :=
  let prev_close := shift1_fill0 (map close df) in
  let df1 := set_open df prev_close in
  set_open_at0 df1 start_price.

(** [__connect_open_close_candles], on a frame with at least one row: the
    opens are connected, the lows and the highs corrected, and the corrector
    is run once more for the check that prints whether it changed anything.
    (The two charts of the daily candles are not modelled.) *)
Definition connect_open_close_candles (start_price : Q) (df : DataFrame Q)
  : result (DataFrame Q) :=
  let df2 := connect_opens start_price df in
  match correct_ohlc df2 with
  | Raise e => Raise e
  | Ok df3 =>
      match correct_lowcolumn_error df3 with
      | Raise e => Raise e
      | Ok new_low =>
          match correct_highcolumn_error df3 with
          | Raise e => Raise e
          | Ok new_high => Ok df3
          end
      end
  end.

(** ** The random source *)

Inductive distribution : Type := normal | laplace | logistic.

(** The state of [np.random]: what the next draws will be, and how many
    have been made.  [bits] feeds the integer draws, [unif] the uniform ones,
    [variate d] the standard (location 0, scale 1) variates of law [d]. *)
Record RandomState : Type := mkRandomState
  { bits : nat -> Z;
    unif : nat -> Q;
    variate : distribution -> nat -> Q;
    drawn : nat }.

Definition advance (n : nat) (rs : RandomState) : RandomState :=
  mkRandomState (bits rs) (unif rs) (variate rs) (drawn rs + n).

(** A computation that may draw random numbers and may raise. *)
Definition M (A : Type) : Type := RandomState -> result (A * RandomState).

Definition ret {A} (a : A) : M A := fun rs => Ok (a, rs).

Definition raise {A} (e : exn) : M A := fun _ => Raise e.

Definition bind {A B} (m : M A) (k : A -> M B) : M B :=
  fun rs => match m rs with
            | Ok (a, rs') => k a rs'
            | Raise e => Raise e
            end.

Notation "x <- m ;; k" := (bind m (fun x => k))
  (at level 61, m at next level, right associativity).

Fixpoint mapM {A B} (f : A -> M B) (l : list A) : M (list B) :=
  match l with
  | [] => ret []
  | a :: l' => b <- f a ;; bs <- mapM f l' ;; ret (b :: bs)
  end.

Fixpoint foldM {A B} (f : B -> A -> M B) (l : list A) (b : B) : M B :=
  match l with
  | [] => ret b
  | a :: l' => b' <- f b a ;; foldM f l' b'
  end.

(** [np.random.randint(low, high)]: an integer of [[low, high)]; an empty
    range is a [ValueError]. *)
Definition randint (lo hi : Z) : M Z :=
  fun rs => if hi <=? lo then Raise ValueError
            else Ok (lo + bits rs (drawn rs) mod (hi - lo), advance 1 rs).

(** [np.random.randint(low, high=high, size=n)]. *)
Definition randint_size (lo hi : Z) (n : nat) : M (list Z) :=
  if hi <=? lo then raise ValueError
  else mapM (fun _ => randint lo hi) (repeat tt n).

Definition Qfrac (q : Q) : Q := q - inject_Z (Qfloor q).

(** [np.random.uniform(a, b)]: [a + (b - a) * u] for a [u] of [[0, 1)]. *)
Definition uniform (a b : Q) : M Q :=
  fun rs => Ok ((a + (b - a) * Qfrac (unif rs (drawn rs)))%Q, advance 1 rs).

(** [np.random.normal], [np.random.laplace] and [np.random.logistic] called
    as [f(scale=s, size=n)]: [n] variates of location 0, each a standard
    variate times the scale.  A negative scale or size is a [ValueError]. *)
Definition sample (d : distribution) (scale : Q) (size : Z) : M (list Q) :=
  fun rs =>
    if Qltb scale 0 || (size <? 0) then Raise ValueError
    else
      let n := Z.to_nat size in
      Ok (map (fun i => (scale * variate rs d (drawn rs + i))%Q) (seq 0 n),
          advance n rs).

(** ** Timestamps and frequencies *)

(** A frequency string, parsed: a fixed number of seconds, a number of
    whole days, the week (ending on Sunday) or the month (ending on its last
    day).  One day, ["1D"], is the fixed number of its seconds to pandas;
    several days are not: their bins are made of dates. *)
Inductive offset : Type :=
| Tick (seconds : Z)
| Days (n : Z)
| Week
| MonthEnd.

Definition parse_freq (s : string) : option offset :=
  if String.eqb s "1S" then Some (Tick 1)
  else if String.eqb s "1min" then Some (Tick 60)
  else if String.eqb s "5min" then Some (Tick 300)
  else if String.eqb s "15min" then Some (Tick 900)
  else if String.eqb s "30min" then Some (Tick 1800)
  else if String.eqb s "1H" then Some (Tick 3600)
  else if String.eqb s "2H" then Some (Tick 7200)
  else if String.eqb s "4H" then Some (Tick 14400)
  else if String.eqb s "1D" then Some (Tick 86400)
  else if String.eqb s "3D" then Some (Days 3)
  else if String.eqb s "1W" then Some Week
  else if String.eqb s "1M" then Some MonthEnd
  else None.

Definition day : Z := 86400.

(** The calendar from 2000-01-01 on (day number 0). *)
Definition is_leap (y : Z) : bool :=
  ((y mod 4 =? 0) && negb (y mod 100 =? 0)) || (y mod 400 =? 0).

Definition days_in_month (y m : Z) : Z :=
  if m =? 2 then (if is_leap y then 29 else 28)
  else if (m =? 4) || (m =? 6) || (m =? 9) || (m =? 11) then 30
  else 31.

(** Day number of the last day of the month that holds day [d], searching
    from month [m] of year [y], whose first day has number [first]. *)
Fixpoint month_end_from (fuel : nat) (y m first d : Z) : Z :=
  let last := first + days_in_month y m - 1 in
  match fuel with
  | O => last
  | S fuel' =>
      if d <=? last then last
      else if m =? 12 then month_end_from fuel' (y + 1) 1 (last + 1) d
           else month_end_from fuel' y (m + 1) (last + 1) d
  end.

Definition month_end (d : Z) : Z := month_end_from (Z.to_nat d) 2000 1 0 d.

(** Day number of the first Sunday on or after day [d]: day 0 is a Saturday,
    so the Sundays are the days [1, 8, 15, ...]. *)
Definition week_end (d : Z) : Z := d + (1 - d) mod 7.

Definition ceil_to (w x : Z) : Z := - ((- x) / w) * w.
Definition floor_to (w x : Z) : Z := x / w * w.

(** Midnight of the day of [t]. *)
Definition normalize_ts (t : Z) : Z := floor_to day t.

(** [pd.date_range(start="2000-01-01", periods=n, freq=...)]: the first [n]
    timestamps of the frequency from the start date on. *)
Definition next_stamp (off : offset) (t : Z) : Z :=
  match off with
  | Tick w => t + w
  | Days n => t + n * day
  | Week => t + 7 * day
  | MonthEnd => month_end (t / day + 1) * day
  end.

Definition first_stamp (off : offset) : Z :=
  match off with
  | Tick _ | Days _ => 0
  | Week => week_end 0 * day
  | MonthEnd => month_end 0 * day
  end.

Fixpoint stamps_from (off : offset) (t : Z) (n : nat) : list Z :=
  match n with
  | O => []
  | S n' => t :: stamps_from off (next_stamp off t) n'
  end.

Definition date_range (periods : Z) (off : offset) : list Z :=
  stamps_from off (first_stamp off) (Z.to_nat periods).

(** Midnight of the day of the first row: where the bins of a fixed-width
    frequency are anchored. *)
Definition anchor_of (stamps : list Z) : Z :=
  match stamps with
  | [] => 0
  | t :: _ => normalize_ts t
  end.

(** The bin of a timestamp under [resample(freq)] with the defaults of a
    fixed-width frequency: closed and labelled on the left. *)
Definition bin_label_left (w anchor t : Z) : Z :=
  anchor + floor_to w (t - anchor).

(** The bin of a timestamp under
    [resample(timeframe, label="right", closed="right")]: the label is the
    right edge, the first edge at or after the timestamp.  For several days,
    the week and the month the edges are whole days and a bin closes with
    the last instant of its last day: a timestamp falls with its date.  (For
    several days this is the binning of a frame whose first row is at
    midnight, as the daily frame of this program is.) *)
Definition bin_label_right (off : offset) (anchor t : Z) : Z :=
  match off with
  | Tick w => anchor + ceil_to w (t - anchor)
  | Days n => anchor + ceil_to (n * day) (normalize_ts t - anchor)
  | Week => week_end (t / day) * day
  | MonthEnd => month_end (t / day) * day
  end.

(** Rows in index order, split into maximal runs of one bin label; a run is
    its first row and the rows after it.  This is the grouping of pandas on
    a frame whose rows are in time order and leave no bin empty between two
    bins with rows (pandas sorts the rows of another frame first, and gives
    an empty bin a row of its own). *)
Fixpoint group_bins {X} (lab : X -> Z) (l : list X)
  : list (Z * (X * list X)) :=
  match l with
  | [] => []
  | x :: l' =>
      match group_bins lab l' with
      | (b, (y, g)) :: bins =>
          if lab x =? b then (b, (x, y :: g)) :: bins
          else (lab x, (x, [])) :: (b, (y, g)) :: bins
      | [] => [(lab x, (x, []))]
      end
  end.

(** ** The random walk: [__generate_random_df] *)

(** The dict [self.__distribution_functions]. *)
Definition distribution_functions : list (Z * distribution) :=
  [(1, normal); (2, laplace); (3, logistic)].

(** [dict.get(key)]: [None] for a key that is not there. *)
Fixpoint dict_get {V} (key : Z) (d : list (Z * V)) : option V :=
  match d with
  | [] => None
  | (k, v) :: d' => if k =? key then Some v else dict_get key d'
  end.

(** The distribution one call of [__generate_random_df] draws its steps
    from. *)
Definition choose_distribution : M (option distribution) :=
  key <- randint 1 (Z.of_nat (List.length distribution_functions)) ;;
  ret (dict_get key distribution_functions).

Fixpoint cumsum_from (acc : Q) (l : list Q) : list Q :=
  match l with
  | [] => []
  | x :: l' => (acc + x)%Q :: cumsum_from (acc + x)%Q l'
  end.

Definition cumsum (l : list Q) : list Q :=
  match l with
  | [] => []
  | x :: l' => x :: cumsum_from x l'
  end.

(** [__create_dataframe]: the [date] and [price] columns. *)
Definition create_dataframe (num_bars : Z) (off : offset) (prices : list Q)
  : list (Z * Q) :=
  combine (date_range num_bars off) prices.

(** One candle out of the ticks of a bin: first, max, min, last. *)
Definition ohlc_of_bin (bin : Z * ((Z * Q) * list (Z * Q))) : candle Q :=
  let '(label, (x, g)) := bin in
  let ps := map snd g in
  Candle label (snd x) (fold_left qmax ps (snd x))
         (fold_left qmin ps (snd x)) (last ps (snd x)).

(** [df.price.resample("1min").ohlc()]. *)
Definition resample_1min_ohlc (ticks : list (Z * Q)) : DataFrame Q :=
  let anchor := anchor_of (map fst ticks) in
  map ohlc_of_bin (group_bins (fun x => bin_label_left 60 anchor (fst x)) ticks).

Definition generate_random_df_ (num_bars : Z) (frequency : string)
    (start_price volatility : Q) : M (DataFrame Q) :=
  dist_func <- choose_distribution ;;
  match dist_func with
  | None => raise TypeError
  | Some d =>
      steps <- sample d volatility num_bars ;;
      match steps with
      | [] => raise IndexError
      | _ :: steps' =>
          let steps := 0%Q :: steps' in
          let prices := map (fun s => (start_price + s)%Q) (cumsum steps) in
          let prices := map (fun p => Qabs (round_decimals 6 p)) prices in
          match parse_freq frequency with
          | None => raise ValueError
          | Some off =>
              ret (resample_1min_ohlc (create_dataframe num_bars off prices))
          end
      end
  end.

(** ** The object *)

(** The configuration a [RandomOHLC] is built with.  Its frame
    [self.__df_1min] and its dict [self.__resampled_data] are passed from
    method to method instead. *)
Record RandomOHLC : Type := mkRandomOHLC
  { total_days : Z;
    start_price : Q;
    volatility : Q }.

(** Modelled from the spec: [constants/constants.py] is not among the
    sources; the base series of [total_days] days has [total_days * 1440]
    one-minute candles, a day of 1440 minutes, 24 hours, 86400 seconds. *)
Definition MINUTES_IN_1DAY : Z := 1440.
Definition HOURS_IN_1DAY : Z := 24.
Definition SECONDS_IN_1DAY : Z := 86400.

(** ** The volatility injector: [__create_volatile_periods] *)

(** [mask * array]: the entry where the mask holds, 0 elsewhere. *)
Definition mask_mul (m : bool) (x : Z) : Z := if m then x else 0.

(** Rows [starti] to [endi], both included, of the four price columns
    receive the rows of [new_df]: [df.loc[starti:endi, column] = values].
    As many values as rows are needed. *)
Definition loc_assign (starti endi : Z) (new_df df : DataFrame Q)
  : result (DataFrame Q) :=
  let before := firstn (Z.to_nat starti) df in
  let rest := skipn (Z.to_nat starti) df in
  let selected := firstn (Z.to_nat (endi - starti + 1)) rest in
  let after := skipn (Z.to_nat (endi - starti + 1)) rest in
  if Nat.eqb (List.length selected) (List.length new_df) then
    Ok (before
        ++ map2 (fun c n => Candle (date c) (open n) (high n) (low n) (close n))
                selected new_df
        ++ after)
  else Raise ValueError.

Definition lift {A} (r : result A) : M A :=
  fun rs => match r with
            | Ok a => Ok (a, rs)
            | Raise e => Raise e
            end.

Section VolatilePeriods.

(** The three constants of [constants/constants.py] the injector reads;
    that file is not among the sources. *)
Variables VOLATILE_PROB VOLATILE_PERIOD_MIN VOLATILE_PERIOD_MAX : Z.

(** The body of the loop over the selected ranges. *)
Definition volatile_splice (self : RandomOHLC) (df : DataFrame Q)
    (range : Z * Z) : M (DataFrame Q) :=
  let '(starti, endi) := range in
  u <- uniform (101 # 100) (102 # 100) ;;
  new_df <- generate_random_df_ (endi - starti + 1) "1min"
              (start_price self) (volatility self * u)%Q ;;
  lift (loc_assign starti endi new_df df).

(** The ranges the injector selects, as [zip(start_indices, end_indices)]
    has them. *)
Definition volatile_ranges (n : nat) : M (list (Z * Z)) :=
  let length := Z.of_nat n in
  random_chance <- randint 1 100 ;;
  let start_indices := map Z.of_nat (seq 0 n) in
  draws <- randint_size 1 VOLATILE_PROB n ;;
  let mask := map (fun r => r <? random_chance) draws in
  periods <- randint_size VOLATILE_PERIOD_MIN VOLATILE_PERIOD_MAX n ;;
  let array_masked := map2 mask_mul mask periods in
  let mask :=
    map2 andb mask
         (map (fun s => s <? length) (map2 Z.add start_indices array_masked)) in
  let start_indices :=
    map2 mask_mul mask (map2 Z.add start_indices array_masked) in
  periods' <- randint_size VOLATILE_PERIOD_MIN VOLATILE_PERIOD_MAX n ;;
  let end_indices := map2 Z.add start_indices (map2 mask_mul mask periods') in
  let start_indices := filter (fun s => 0 <? s) start_indices in
  let end_indices := filter (fun e => 0 <? e) end_indices in
  let end_indices :=
    map (fun e => if length - 1 <? e then length - 1 else e) end_indices in
  ret (combine start_indices end_indices).

Definition create_volatile_periods (self : RandomOHLC) (df : DataFrame Q)
  : M (DataFrame Q) :=
  ranges <- volatile_ranges (List.length df) ;;
  foldM (volatile_splice self) ranges df.

(** [create_realistic_ohlc]: inject, then connect.  The connector has made
    the dates the index of the frame (its [set_index("date")]), so the
    [set_index("date")] that ends this method finds no such column among
    those of the frame: a [KeyError]. *)
Definition create_realistic_ohlc (self : RandomOHLC) (df : DataFrame Q)
  : M (DataFrame Q) :=
  df' <- create_volatile_periods self df ;;
  connected <- lift (connect_open_close_candles (start_price self) df') ;;
  raise KeyError.

End VolatilePeriods.

(** ** The normalizer *)

(** [np.max([a, b, c, d])] of a list of floats: not a number as soon as one
    of them is. *)
Definition np_max (l : list float64) : float64 :=
  if existsb is_nan l then NaN
  else match l with
       | [] => NaN
       | v :: vs => fold_left fmax2 vs v
       end.

Definition np_min (l : list float64) : float64 :=
  if existsb is_nan l then NaN
  else match l with
       | [] => NaN
       | v :: vs => fold_left fmin2 vs v
       end.

Definition frame_max (df : DataFrame Q) : float64 :=
  np_max [column_max (map open df); column_max (map high df);
          column_max (map low df); column_max (map close df)].

Definition frame_min (df : DataFrame Q) : float64 :=
  np_min [column_min (map open df); column_min (map high df);
          column_min (map low df); column_min (map close df)].

(** One cell: [round((v - _min) / (_max - _min) * random_multiplier, 4)],
    the quotient, the product and the rounding being exact. *)
Definition normalize_cell (_min _max : float64) (random_multiplier : Z) (v : Q)
  : float64 :=
  fround 4 (fmul (fdiv (fsub (Fin v) _min) (fsub _max _min))
                 (Fin (inject_Z random_multiplier))).

Definition normalize_with (random_multiplier : Z) (df : DataFrame Q)
  : DataFrame float64 :=
  let _max := frame_max df in
  let _min := frame_min df in
  map (fun c => Candle (date c)
                  (normalize_cell _min _max random_multiplier (open c))
                  (normalize_cell _min _max random_multiplier (high c))
                  (normalize_cell _min _max random_multiplier (low c))
                  (normalize_cell _min _max random_multiplier (close c))) df.

Definition normalize_ohlc_data (df : DataFrame Q) : M (DataFrame float64) :=
  random_multiplier <- randint 9 999 ;;
  ret (normalize_with random_multiplier df).

(** ** The resampler *)

(** The aggregations of [agg_dict], which pass over cells that are not a
    number: ["first"], ["max"], ["min"], ["last"]. *)
Definition agg_first (col : list float64) : float64 :=
  hd NaN (filter notnan col).

Definition agg_last (col : list float64) : float64 :=
  last (filter notnan col) NaN.

Definition agg_max (col : list float64) : float64 :=
  match filter notnan col with
  | [] => NaN
  | v :: vs => fold_left fmax2 vs v
  end.

Definition agg_min (col : list float64) : float64 :=
  match filter notnan col with
  | [] => NaN
  | v :: vs => fold_left fmin2 vs v
  end.

(** The rows of a bin, in order. *)
Definition bin_rows {X} (bin : Z * (X * list X)) : list X :=
  fst (snd bin) :: snd (snd bin).

Definition aggregate_bin (bin : Z * (candle float64 * list (candle float64)))
  : candle float64 :=
  let rows := bin_rows bin in
  Candle (fst bin)
         (agg_first (map open rows)) (agg_max (map high rows))
         (agg_min (map low rows)) (agg_last (map close rows)).

(** The bins [__downsample_ohlc_data] cuts a frame into. *)
Definition downsample_bins (off : offset) (df : DataFrame float64)
  : list (Z * (candle float64 * list (candle float64))) :=
  let anchor := anchor_of (map date df) in
  group_bins (fun c => bin_label_right off anchor (date c)) df.

(** [__downsample_ohlc_data]:
    [df.resample(timeframe, label="right", closed="right").aggregate(agg_dict)],
    on a frame whose rows are in time order and leave no bin empty. *)
Definition downsample_ohlc_data (timeframe : string) (df : DataFrame float64)
  : result (DataFrame float64) :=
  match parse_freq timeframe with
  | None => Raise ValueError
  | Some off => Ok (map aggregate_bin (downsample_bins off df))
  end.

(** [__create_bars_table]; [//] is the floor division. *)
Definition create_bars_table (self : RandomOHLC) : list (string * Z) :=
  [ ("5min", total_days self * MINUTES_IN_1DAY / 5);
    ("15min", total_days self * MINUTES_IN_1DAY / 15);
    ("30min", total_days self * MINUTES_IN_1DAY / 30);
    ("1H", total_days self * HOURS_IN_1DAY);
    ("2H", total_days self * HOURS_IN_1DAY / 2);
    ("4H", total_days self * HOURS_IN_1DAY / 4);
    ("1D", total_days self);
    ("3D", total_days self / 3);
    ("1W", total_days self / 7);
    ("1M", total_days self / 30) ]%string.

(** The dict [self.__resampled_data]: a frame, or [None], under every
    timeframe, in insertion order. *)
Definition frames : Type := list (string * option (DataFrame float64)).

Definition empty_resampled_data : frames :=
  [ ("1min", None); ("5min", None); ("15min", None); ("30min", None);
    ("1H", None); ("2H", None); ("4H", None); ("1D", None); ("3D", None);
    ("1W", None); ("1M", None) ]%string.

Fixpoint lookup {V} (key : string) (d : list (string * V)) : option V :=
  match d with
  | [] => None
  | (k, v) :: d' => if String.eqb k key then Some v else lookup key d'
  end.

(** [d[key] = v]: in place under a key that is there, at the end otherwise. *)
Fixpoint store {V} (key : string) (v : V) (d : list (string * V))
  : list (string * V) :=
  match d with
  | [] => [(key, v)]
  | (k, v') :: d' =>
      if String.eqb k key then (k, v) :: d' else (k, v') :: store key v d'
  end.

(** The loop of [resample_timeframes] over the keys of the bars table. *)
Fixpoint resample_loop (timeframes : list string) (prev_timeframe : string)
    (data : frames) : result frames :=
  match timeframes with
  | [] => Ok data
  | timeframe :: rest =>
      match lookup prev_timeframe data with
      | None => Raise KeyError
      | Some None => Raise AttributeError
      | Some (Some df) =>
          match downsample_ohlc_data timeframe df with
          | Raise e => Raise e
          | Ok df' => resample_loop rest timeframe (store timeframe (Some df') data)
          end
      end
  end.

Definition resample_timeframes (self : RandomOHLC) (df_1min : DataFrame float64)
    (resampled_data : frames) : result frames :=
  let data := store "1min" (Some df_1min) resampled_data in
  let bars_table := create_bars_table self in
  resample_loop (map fst bars_table) "1min" data.

(** ** The pipeline: [random_case] of [app.py] *)

Section Pipeline.

Variables VOLATILE_PROB VOLATILE_PERIOD_MIN VOLATILE_PERIOD_MAX : Z.

(** The four calls [random_case] makes on the object it has built:
    [generate_random_df(num_bars, frequency, start_price, volatility)],
    [create_realistic_ohlc()], [normalize_ohlc_data()] and
    [resample_timeframes()]; the value is the dict
    [random_ohlc.resampled_data]. *)
Definition generate (random_ohlc : RandomOHLC) (num_bars : Z)
    (frequency : string) (start_price volatility : Q) : M frames :=
  df <- generate_random_df_ num_bars frequency start_price volatility ;;
  df <- create_realistic_ohlc VOLATILE_PROB VOLATILE_PERIOD_MIN
          VOLATILE_PERIOD_MAX random_ohlc df ;;
  df <- normalize_ohlc_data df ;;
  lift (resample_timeframes random_ohlc df empty_resampled_data).

(** [random_case], up to the dict it returns first. *)
Definition random_case (num_days : Z) : M frames :=
  v <- uniform 1 2 ;;
  let random_ohlc := mkRandomOHLC num_days 100000 v in
  generate random_ohlc (total_days random_ohlc * SECONDS_IN_1DAY) "1S"
           (start_price random_ohlc) (volatility random_ohlc).

End Pipeline.

(** ** Vocabulary of the properties *)

(** A row whose low (high) is in order with its three other cells. *)
Definition low_ok (c : candle Q) : Prop :=
  (low c <= open c /\ low c <= high c /\ low c <= close c)%Q.

Definition high_ok (c : candle Q) : Prop :=
  (open c <= high c /\ low c <= high c /\ close c <= high c)%Q.

(** No two neighbours of the list share a label. *)
Fixpoint neighbours_differ {X} (lab : X -> Z) (l : list X) : Prop :=
  match l with
  | x :: ((y :: _) as l') => lab x <> lab y /\ neighbours_differ lab l'
  | _ => True
  end.

(** The candle of a bin of one tick. *)
Definition flat_candle (x : Z * Q) : candle Q :=
  Candle (fst x) (snd x) (snd x) (snd x) (snd x).


(** The value [normalize_ohlc_data] computes for a cell [v] when the frame
    has minimum [mn] and maximum [mx] and the multiplier drawn is [m]. *)
Definition scaled (mn mx : Q) (m : Z) (v : Q) : Q :=
  round_decimals 4 ((v - mn) / (mx - mn) * inject_Z m).


(** A candle all of whose prices are numbers. *)
Definition no_nan (c : candle float64) : Prop :=
  is_nan (open c) = false /\ is_nan (high c) = false
  /\ is_nan (low c) = false /\ is_nan (close c) = false.

(** Timestamps that never decrease, and timestamps that always increase. *)
Fixpoint nondecreasing (l : list Z) : Prop :=
  match l with
  | x :: ((y :: _) as l') => x <= y /\ nondecreasing l'
  | _ => True
  end.

Fixpoint increasing (l : list Z) : Prop :=
  match l with
  | x :: ((y :: _) as l') => x < y /\ increasing l'
  | _ => True
  end.

(** Timestamps in time order, no two neighbours more than [g] seconds
    apart. *)
Fixpoint steps_within (g : Z) (l : list Z) : Prop :=
  match l with
  | x :: ((y :: _) as l') => x <= y <= x + g /\ steps_within g l'
  | _ => True
  end.

(** The shortest a bin of the frequency can be, in seconds. *)
Definition narrowest_bin (off : offset) : Z :=
  match off with
  | Tick w => w
  | Days n => n * day
  | Week => 7 * day
  | MonthEnd => 28 * day
  end.

(** The frames on which the resampler is modelled: rows in time order from
    the start date on, no two neighbours further apart than the narrowest
    bin of the frequency (so that no bin between two rows is empty) and, for
    bins of several days, a first row at midnight. *)
Definition gap_free (off : offset) (stamps : list Z) : Prop :=
  steps_within (narrowest_bin off) stamps
  /\ Forall (fun t => 0 <= t) stamps
  /\ match off with
     | Days _ => anchor_of stamps = hd 0 stamps
     | _ => True
     end.






(** The longest a bin of the frequency can be, in seconds. *)
Definition bin_width (off : offset) : Z :=
  match off with
  | Tick w => w
  | Days n => n * day
  | Week => 7 * day
  | MonthEnd => 31 * day
  end.

(** A frame resampled at a parsed frequency. *)
Definition downsampled (off : offset) (df : DataFrame float64)
  : DataFrame float64 :=
  map aggregate_bin (downsample_bins off df).

(** The dict [resample_timeframes] fills, written out. *)
Definition resampled_family (df_1min : DataFrame float64) : frames :=
  let df_5min := downsampled (Tick 300) df_1min in
  let df_15min := downsampled (Tick 900) df_5min in
  let df_30min := downsampled (Tick 1800) df_15min in
  let df_1H := downsampled (Tick 3600) df_30min in
  let df_2H := downsampled (Tick 7200) df_1H in
  let df_4H := downsampled (Tick 14400) df_2H in
  let df_1D := downsampled (Tick 86400) df_4H in
  let df_3D := downsampled (Days 3) df_1D in
  let df_1W := downsampled Week df_3D in
  let df_1M := downsampled MonthEnd df_1W in
  [ ("1min", Some df_1min); ("5min", Some df_5min); ("15min", Some df_15min);
    ("30min", Some df_30min); ("1H", Some df_1H); ("2H", Some df_2H);
    ("4H", Some df_4H); ("1D", Some df_1D); ("3D", Some df_3D);
    ("1W", Some df_1W); ("1M", Some df_1M) ]%string.



(** The four comparisons behind [ohlc_ordered]. *)
Definition ordered4 (c : candle float64) : Prop :=
  fle (low c) (open c) = true /\ fle (low c) (close c) = true
  /\ fle (open c) (high c) = true /\ fle (close c) (high c) = true.

(** A start and an end index of the injector, before the zeros are dropped:
    both zero, or a start inside the frame with its end after it. *)
Definition index_pair (n s e : Z) : Prop :=
  (s = 0 /\ e = 0) \/ (0 < s < n /\ s < e).

(** A list with every run of equal neighbours reduced to one entry. *)
Fixpoint dedup_adjacent (l : list Z) : list Z :=
  match l with
  | [] => []
  | x :: l' =>
      match dedup_adjacent l' with
      | y :: r => if x =? y then y :: r else x :: y :: r
      | [] => [x]
      end
  end.

(** ** The halves: [create_half_dataframes] of [app.py] *)

(** [timeframe not in exclusions]. *)
Definition excluded (timeframe : string) (exclusions : list string) : bool :=
  existsb (String.eqb timeframe) exclusions.

(** The dict comprehension
    [{timeframe: df.iloc[: len(df) // 2] for timeframe, df in
      dataframes.items() if timeframe not in exclusions}]: the first half of
    the rows of every frame whose timeframe is not excluded, in the order of
    the dict.  An entry that is still [None] has no [iloc], which is looked
    up before [len(df)] is. *)
Fixpoint create_half_dataframes (dataframes : frames)
    (exclusions : list string) : result (list (string * DataFrame float64)) :=
  match dataframes with
  | [] => Ok []
  | (timeframe, df) :: rest =>
      if excluded timeframe exclusions
      then create_half_dataframes rest exclusions
      else
        match df with
        | None => Raise AttributeError
        | Some df =>
            match create_half_dataframes rest exclusions with
            | Raise e => Raise e
            | Ok halves =>
                Ok ((timeframe, firstn (List.length df / 2)%nat df) :: halves)
            end
        end
  end.

(** ** Vocabulary of the further properties *)

(** The four prices of a candle. *)
Definition cells {A} (c : candle A) : list A :=
  [open c; high c; low c; close c].

(** A candle whose four prices are one price. *)
Definition is_flat {A} (c : candle A) : Prop :=
  high c = open c /\ low c = open c /\ close c = open c.

(** What the injector may do to a row: keep it, or write a flat candle under
    its timestamp. *)
Definition kept_or_flat (c c' : candle Q) : Prop :=
  date c' = date c /\ (c' = c \/ is_flat c').

(** A start and an end index of the injector, before the zeros are dropped,
    with the bounds of the two periods drawn: both zero, or a start at least
    one shortest period into the frame and an end one period after it. *)
Definition period_pair (n vmin vmax s e : Z) : Prop :=
  (s = 0 /\ e = 0) \/ (vmin <= s < n /\ vmin <= e - s < vmax).

(** The eleven timeframes of the dict, in its order. *)
Definition timeframes : list string :=
  [ "1min"; "5min"; "15min"; "30min"; "1H"; "2H"; "4H"; "1D"; "3D"; "1W";
    "1M" ]%string.

(** A timestamp that is a bin edge of the frequency, the bins being
    anchored at its own midnight. *)
Definition is_edge (off : offset) (t : Z) : Prop :=
  bin_label_right off (normalize_ts t) t = t.

(** * The prediction game: [streamlit_app.py] *)

(** [GameState]. *)
Inductive GameState : Type := START | INITIAL | SHOW_RESULT | FINISHED.

(** The keys of [st.session_state] the game reads and writes, but for
    [uuid], a fresh label no decision depends on.  [score] is the dict
    [{"right": _, "wrong": _}]; a guess is
    [(total_attempts, user_choice, future_price)]. *)
Record SessionState : Type := mkSessionState
  { score_right : Z;
    score_wrong : Z;
    game_state : GameState;
    data : option (DataFrame float64);
    future_price : option float64;
    choices : option (list float64);
    user_choice : option float64;
    difficulty : string;
    guesses : list (Z * float64 * option float64) }.

(** What [initialize_session_state] leaves of a session that had no key. *)
Definition initialize_session_state : SessionState :=
  mkSessionState 0 0 START None None None None "Easy" [].

(** [x == y] on floats: false as soon as one side is not a number. *)
Definition feq (x y : float64) : bool := fle x y && fle y x.

(** [submit_callback]: the outcome and the session it leaves.  Without a
    choice nothing changes.  When there is no future price the guess counts
    as wrong, and the message that would show the right answer cannot be
    formatted: the state is left as it is at that point. *)
Definition submit_callback (s : SessionState) : result unit * SessionState :=
  match user_choice s with
  | None => (Ok tt, s)
  | Some choice =>
      let total_attempts := score_right s + score_wrong s + 1 in
      let guesses := guesses s ++ [(total_attempts, choice, future_price s)] in
      match future_price s with
      | Some price =>
          let '(n_right, n_wrong) :=
            if feq choice price then (score_right s + 1, score_wrong s)
            else (score_right s, score_wrong s + 1) in
          let total_attempts := n_right + n_wrong in
          (Ok tt,
           mkSessionState n_right n_wrong
             (if total_attempts >=? 5 then FINISHED else SHOW_RESULT)
             (data s) (future_price s) (choices s) (user_choice s)
             (difficulty s) guesses)
      | None =>
          (Raise TypeError,
           mkSessionState (score_right s) (score_wrong s + 1) (game_state s)
             (data s) (future_price s) (choices s) (user_choice s)
             (difficulty s) guesses)
      end
  end.

(** [series.clip(lower=...)]: what is not a number stays so. *)
Definition clip_lower (lower : Q) (x : float64) : float64 :=
  match x with
  | NaN => NaN
  | _ => if flt x (Fin lower) then Fin lower else x
  end.

(** [sorted] on floats, by [<]: each element goes before the first one it is
    less than, so equal elements keep their order.  (On numbers this is the
    one stable sort; with a cell that is not a number the order Python
    leaves depends on its algorithm.) *)
Fixpoint insert_sorted (x : float64) (l : list float64) : list float64 :=
  match l with
  | [] => [x]
  | y :: l' => if flt x y then x :: y :: l' else y :: insert_sorted x l'
  end.

Definition sorted (l : list float64) : list float64 :=
  fold_left (fun acc x => insert_sorted x acc) l [].

(** [series.iloc[i]] for an index that is not negative. *)
Definition iloc {A} (l : list A) (i : Z) : result A :=
  match nth_error l (Z.to_nat i) with
  | Some a => Ok a
  | None => Raise IndexError
  end.

Section Round.

(** [RandomOHLC(total_days, start_price, name, volatility, drift)], its
    [create_ohlc(num_bars, frequency)] and the frame [_df] it leaves: the
    [random_ohlc] module this file imports is not among the sources. *)
Variable create_ohlc :
  forall (total_days : Z) (start_price volatility drift : Q) (num_bars : Z)
         (frequency : string), M (DataFrame float64).

(** [generate_ohlc_data]: every price rounded to two decimals, then kept at
    1.0 or above. *)
Definition generate_ohlc_data (num_days : Z) : M (DataFrame float64) :=
  let start_price := 10000%Q in
  volatility <- uniform 1 3 ;;
  drift <- uniform 1 3 ;;
  df <- create_ohlc num_days start_price volatility drift num_days "1D" ;;
  let cell := fun x => clip_lower 1 (fround 2 x) in
  ret (map (fun c => Candle (date c) (cell (open c)) (cell (high c))
                       (cell (low c)) (cell (close c))) df).

(** [prepare_new_round]. *)
Definition prepare_new_round (s : SessionState) : M SessionState :=
  df <- generate_ohlc_data 150 ;;
  let display_days := 90 in
  let last_displayed_day := display_days - 1 in
  let future_day_index :=
    if String.eqb (difficulty s) "Easy" then last_displayed_day + 1
    else if String.eqb (difficulty s) "Medium" then last_displayed_day + 7
    else last_displayed_day + 30 in
  price <- lift (iloc (map close df) future_day_index) ;;
  others <- mapM (fun _ : unit =>
                    u <- uniform (- (1 # 10)) (1 # 10) ;;
                    ret (fround 2 (fmul price (Fin (1 + u)))))
                 (repeat tt 3) ;;
  ret (mkSessionState (score_right s) (score_wrong s) (game_state s)
         (Some (firstn (Z.to_nat display_days) df)) (Some price)
         (Some (sorted (price :: others))) None (difficulty s) (guesses s)).

End Round.

(** ** Vocabulary of the game *)

(** A guess that was the future price. *)
Definition is_right (g : Z * float64 * option float64) : bool :=
  match snd g with
  | Some price => feq (snd (fst g)) price
  | None => false
  end.

(** The score and the list of guesses tell the same story: the guesses are
    numbered from 1 on, the right ones are as many as [score["right"]] and
    the others as many as [score["wrong"]]. *)
Definition score_matches_guesses (s : SessionState) : Prop :=
  map (fun g => fst (fst g)) (guesses s)
  = map Z.of_nat (seq 1 (List.length (guesses s)))
  /\ score_right s = Z.of_nat (List.length (filter is_right (guesses s)))
  /\ score_wrong s
     = Z.of_nat (List.length (filter (fun g => negb (is_right g)) (guesses s))).

(** Floats in ascending order. *)
Fixpoint ascending (l : list float64) : Prop :=
  match l with
  | x :: ((y :: _) as l') => fle x y = true /\ ascending l'
  | _ => True
  end.

(** * Properties *)

(** ** Order on the rationals, as booleans *)


Lemma Qltb_ge (x y : Q) : Qltb x y = false <-> (y <= x)%Q.
Proof.
  unfold Qltb. rewrite negb_false_iff. apply Qle_bool_iff.
Qed.

Lemma Qle_bool_false (x y : Q) : Qle_bool x y = false <-> (y < x)%Q.
Proof.
  split; intro H.
  - apply Qnot_le_lt. intro L. apply Qle_bool_iff in L. congruence.
  - destruct (Qle_bool x y) eqn:E; [|reflexivity].
    apply Qle_bool_iff in E. apply Qle_not_lt in E. contradiction.
Qed.

(** Decide every comparison in sight, then close the case by arithmetic. *)
Ltac qcases :=
  repeat match goal with
    | |- context [Qle_bool ?a ?b] =>
        let E := fresh "E" in
        destruct (Qle_bool a b) eqn:E;
        [apply Qle_bool_iff in E | apply Qle_bool_false in E]
    | H : context [Qle_bool ?a ?b] |- _ =>
        let E := fresh "E" in
        destruct (Qle_bool a b) eqn:E;
        [apply Qle_bool_iff in E | apply Qle_bool_false in E]
    end.

Lemma qmin_le_l (a b : Q) : (qmin a b <= a)%Q.
Proof. unfold qmin. qcases; lra. Qed.

Lemma qmin_le_r (a b : Q) : (qmin a b <= b)%Q.
Proof. unfold qmin. qcases; lra. Qed.

Lemma qmax_ge_l (a b : Q) : (a <= qmax a b)%Q.
Proof. unfold qmax. qcases; lra. Qed.

Lemma qmax_ge_r (a b : Q) : (b <= qmax a b)%Q.
Proof. unfold qmax. qcases; lra. Qed.

(** ** C2, C3: the corrector *)

Lemma low_error_false (c : candle Q) : low_error c = false <-> low_ok c.
Proof.
  unfold low_error, Qgtb, low_ok. rewrite !orb_false_iff, !Qltb_ge. tauto.
Qed.

Lemma high_error_false (c : candle Q) : high_error c = false <-> high_ok c.
Proof.
  unfold high_error, high_ok. rewrite !orb_false_iff, !Qltb_ge. tauto.
Qed.

(** A column in the place of [out] is refused, whatever the other
    arguments. *)
Lemma series_min_out (a : list Q) (axis : pyarg) (col : list Q) :
  series_min a axis (PySeries col) = Raise ValueError.
Proof. destruct axis; reflexivity. Qed.

Lemma series_max_out (a : list Q) (axis : pyarg) (col : list Q) :
  series_max a axis (PySeries col) = Raise ValueError.
Proof. destruct axis; reflexivity. Qed.

Lemma correct_lowcolumn_error_raises (df : DataFrame Q) :
  correct_lowcolumn_error df = Raise ValueError.
Proof.
  unfold correct_lowcolumn_error. cbv zeta. now rewrite series_min_out.
Qed.

Lemma correct_highcolumn_error_raises (df : DataFrame Q) :
  correct_highcolumn_error df = Raise ValueError.
Proof.
  unfold correct_highcolumn_error. cbv zeta. now rewrite series_max_out.
Qed.

(** C2, at the code.  [__correct_lowcolumn_error] and
    [__correct_highcolumn_error] return no column at all: on every frame,
    in order or not, empty or not, each raises a [ValueError], from
    [np.min(df["open"], df["high"], df["close"])] (from [np.max(...)]), which
    passes the [close] column as [out].  The minimum of the row that the
    comment of the source announces ("assign the minimum value") is never
    computed. *)
Theorem corrector_calls_raise (df : DataFrame Q) :
  correct_lowcolumn_error df = Raise ValueError
  /\ correct_highcolumn_error df = Raise ValueError
  /\ (forall col, correct_lowcolumn_error df <> Ok col)
  /\ (forall col, correct_highcolumn_error df <> Ok col).
Proof.
  pose proof (correct_lowcolumn_error_raises df) as Hl.
  pose proof (correct_highcolumn_error_raises df) as Hh.
  split; [exact Hl|]. split; [exact Hh|].
  split; intros col H; [rewrite Hl in H | rewrite Hh in H]; discriminate H.
Qed.

Lemma correct_ohlc_raises (df : DataFrame Q) :
  correct_ohlc df = Raise ValueError.
Proof. unfold correct_ohlc. now rewrite correct_lowcolumn_error_raises. Qed.

(** C3, at the code.  The pass of the corrector (the low column, then the
    high column) never completes: on every frame it raises a [ValueError] at
    its first call, so no frame is corrected once, and none a second time;
    the check of the source that runs the corrector again on its own output
    is never reached. *)
Theorem corrector_pass_never_completes (df : DataFrame Q) :
  correct_ohlc df = Raise ValueError
  /\ (forall df', correct_ohlc df <> Ok df')
  /\ match correct_ohlc df with
     | Ok df' => correct_ohlc df'
     | Raise e => Raise e
     end = Raise ValueError.
Proof.
  pose proof (correct_ohlc_raises df) as H.
  split; [exact H|]. split.
  - intros df' E. rewrite H in E. discriminate E.
  - now rewrite H.
Qed.

(** ** C4: the connector *)






Lemma connect_open_close_candles_raises (sp : Q) (df : DataFrame Q) :
  connect_open_close_candles sp df = Raise ValueError.
Proof.
  unfold connect_open_close_candles. cbv zeta. now rewrite correct_ohlc_raises.
Qed.



(** ** C8: the choice of the distribution *)

Lemma randint_range (lo hi : Z) (rs : RandomState) :
  lo < hi ->
  exists k, randint lo hi rs = Ok (k, advance 1 rs) /\ lo <= k < hi.
Proof.
  intro H. unfold randint.
  destruct (Z.leb_spec hi lo); [lia|].
  eexists; split; [reflexivity|].
  pose proof (Z.mod_pos_bound (bits rs (drawn rs)) (hi - lo)). lia.
Qed.

Lemma choose_distribution_keys (rs : RandomState) :
  exists d, choose_distribution rs = Ok (Some d, advance 1 rs)
            /\ (d = normal \/ d = laplace).
Proof.
  unfold choose_distribution, bind.
  change (Z.of_nat (List.length distribution_functions)) with 3.
  destruct (randint_range 1 3 rs) as (k & -> & Hk); [lia|].
  assert (Hk' : k = 1 \/ k = 2) by lia.
  destruct Hk' as [-> | ->]; eexists; (split; [reflexivity|]); auto.
Qed.

(** C8, as the code has it.  [np.random.randint(1, len(dict))] excludes its
    upper bound, so the key drawn is 1 or 2: whatever the state of the random
    source, the distribution chosen is the normal or the Laplace one, each
    for some state, and never the logistic one, which sits under key 3. *)
Theorem logistic_never_chosen :
  (forall rs, exists d,
      choose_distribution rs = Ok (Some d, advance 1 rs)
      /\ (d = normal \/ d = laplace))
  /\ (exists rs, choose_distribution rs = Ok (Some normal, advance 1 rs))
  /\ (exists rs, choose_distribution rs = Ok (Some laplace, advance 1 rs))
  /\ dict_get 3 distribution_functions = Some logistic.
Proof.
  split; [|split; [|split]].
  - apply choose_distribution_keys.
  - exists (mkRandomState (fun _ => 0) (fun _ => 0%Q) (fun _ _ => 0%Q) 0).
    reflexivity.
  - exists (mkRandomState (fun _ => 1) (fun _ => 0%Q) (fun _ _ => 0%Q) 0).
    reflexivity.
  - reflexivity.
Qed.

(** ** C10: where a volatile period starts *)

Lemma rint_proper (x y : Q) : (x == y)%Q -> rint x = rint y.
Proof.
  intro H. unfold rint.
  assert (Hf : Qfloor x = Qfloor y) by now rewrite H.
  rewrite Hf.
  assert (Hc : ((x - inject_Z (Qfloor y)) ?= (1 # 2))%Q
               = ((y - inject_Z (Qfloor y)) ?= (1 # 2))%Q)
    by now rewrite H.
  now rewrite Hc.
Qed.

Lemma round_decimals_proper (d : nat) (x y : Q) :
  (x == y)%Q -> round_decimals d x = round_decimals d y.
Proof.
  intro H. unfold round_decimals. f_equal. apply rint_proper. now rewrite H.
Qed.

Lemma group_bins_singletons {X} (lab : X -> Z) (l : list X) :
  neighbours_differ lab l ->
  group_bins lab l = map (fun x => (lab x, (x, []))) l.
Proof.
  induction l as [|x l IH]; [reflexivity|].
  intro H. cbn [group_bins].
  destruct l as [|y l].
  - reflexivity.
  - destruct H as [Hxy H]. rewrite (IH H). cbn [map].
    destruct (Z.eqb_spec (lab x) (lab y)); [contradiction | reflexivity].
Qed.

Lemma stamps_from_length off t n : List.length (stamps_from off t n) = n.
Proof. revert t. induction n; intro t; simpl; [reflexivity | now rewrite IHn]. Qed.

Lemma minute_ticks_differ (t : Z) (n : nat) (prices : list Q) :
  t mod 60 = 0 ->
  neighbours_differ (fun x : Z * Q => bin_label_left 60 0 (fst x))
    (combine (stamps_from (Tick 60) t n) prices)
  /\ map (fun x : Z * Q => bin_label_left 60 0 (fst x))
       (combine (stamps_from (Tick 60) t n) prices)
     = map fst (combine (stamps_from (Tick 60) t n) prices).
Proof.
  revert t prices. induction n as [|n IH]; intros t prices Ht; [now split|].
  destruct prices as [|p prices]; [now split|].
  assert (Ht' : (t + 60) mod 60 = 0).
  { rewrite <- Z.add_mod_idemp_l, Ht by lia. reflexivity. }
  destruct (IH (t + 60) prices Ht') as [IH1 IH2].
  assert (Hlab : bin_label_left 60 0 t = t).
  { unfold bin_label_left, floor_to. rewrite Z.sub_0_r.
    pose proof (Z.div_mod t 60). lia. }
  split.
  - cbn [stamps_from combine next_stamp].
    destruct n as [|n]; [exact I|]. destruct prices as [|q prices]; [exact I|].
    cbn [stamps_from combine neighbours_differ fst next_stamp] in *.
    split; [|exact IH1].
    rewrite Hlab. unfold bin_label_left, floor_to. rewrite Z.sub_0_r.
    pose proof (Z.div_mod (t + 60) 60). lia.
  - cbn [stamps_from combine map fst next_stamp]. rewrite Hlab. f_equal.
    exact IH2.
Qed.

Lemma singleton_bins_flat (lab : Z * Q -> Z) (l : list (Z * Q)) :
  map lab l = map fst l ->
  map (fun x => ohlc_of_bin (lab x, (x, []))) l = map flat_candle l.
Proof.
  induction l as [|x l IH]; [reflexivity|].
  cbn [map]. intro Hl. injection Hl as Hx Hl.
  rewrite (IH Hl). f_equal. unfold ohlc_of_bin, flat_candle. simpl.
  now rewrite Hx.
Qed.

Lemma resample_minute_ticks (n : nat) (prices : list Q) :
  resample_1min_ohlc (combine (stamps_from (Tick 60) 0 n) prices)
  = map flat_candle (combine (stamps_from (Tick 60) 0 n) prices).
Proof.
  unfold resample_1min_ohlc.
  assert (Ha : anchor_of (map fst (combine (stamps_from (Tick 60) 0 n) prices)) = 0).
  { destruct n; [reflexivity|]. destruct prices; reflexivity. }
  rewrite Ha.
  destruct (minute_ticks_differ 0 n prices eq_refl) as [Hd Hl].
  rewrite (group_bins_singletons _ _ Hd), map_map.
  now apply singleton_bins_flat.
Qed.

Lemma sample_ok (d : distribution) (scale : Q) (size : Z) (rs : RandomState) :
  (0 <= scale)%Q -> 0 <= size ->
  exists steps, sample d scale size rs = Ok (steps, advance (Z.to_nat size) rs)
                /\ List.length steps = Z.to_nat size.
Proof.
  intros Hs Hn. unfold sample.
  replace (Qltb scale 0) with false by (symmetry; now apply Qltb_ge).
  destruct (Z.ltb_spec size 0); [lia|]. simpl.
  eexists; split; [reflexivity|]. now rewrite length_map, length_seq.
Qed.

Lemma cumsum_from_length acc l :
  List.length (cumsum_from acc l) = List.length l.
Proof. revert acc; induction l; intro; simpl; [reflexivity | now rewrite IHl]. Qed.

(** What [__generate_random_df] returns for ticks one minute apart: one flat
    candle per tick, the first one at the rounded, absolute start price. *)
Lemma generate_minute_frame (num_bars : Z) (sp vol : Q) (rs : RandomState) :
  1 <= num_bars -> (0 <= vol)%Q ->
  exists prices rs',
    generate_random_df_ num_bars "1min" sp vol rs
    = Ok (map flat_candle
            (combine (stamps_from (Tick 60) 0 (Z.to_nat num_bars))
                     (Qabs (round_decimals 6 sp) :: prices)), rs')
    /\ S (List.length prices) = Z.to_nat num_bars.
Proof.
  intros Hn Hv. unfold generate_random_df_, bind.
  destruct (choose_distribution_keys rs) as (d & -> & _).
  destruct (sample_ok d vol num_bars (advance 1 rs) Hv) as (steps & -> & Hlen);
    [lia|].
  destruct steps as [|s steps]; [simpl in Hlen; lia|].
  change (parse_freq "1min") with (Some (Tick 60)).
  unfold ret, create_dataframe, date_range. cbn [first_stamp].
  cbn [cumsum map].
  eexists; eexists; split.
  - rewrite resample_minute_ticks.
    rewrite (round_decimals_proper 6 (sp + 0) sp) by ring.
    reflexivity.
  - rewrite !length_map, cumsum_from_length. simpl in Hlen. exact Hlen.
Qed.

Lemma map2_length {A B C} (f : A -> B -> C) (l : list A) (l' : list B) :
  List.length (map2 f l l') = Nat.min (List.length l) (List.length l').
Proof.
  revert l'. induction l as [|a l IH]; intros [|b l']; simpl; try reflexivity.
  now rewrite IH.
Qed.

(** A splice of a range that lies in the frame succeeds: the rows of the
    range receive the prices of a fresh walk of flat one-minute candles, the
    first of them at the rounded, absolute start price. *)
Lemma volatile_splice_returns
    (self : RandomOHLC) (df : DataFrame Q) (starti endi : Z)
    (rs : RandomState) :
  (0 <= volatility self)%Q ->
  0 <= starti <= endi -> endi < Z.of_nat (List.length df) ->
  exists prices rs',
    let n := Z.to_nat (endi - starti + 1) in
    let s := Z.to_nat starti in
    let new_df :=
      map flat_candle
          (combine (stamps_from (Tick 60) 0 n)
                   (Qabs (round_decimals 6 (start_price self)) :: prices)) in
    volatile_splice self df (starti, endi) rs
    = Ok (firstn s df
          ++ map2 (fun c n => Candle (date c) (open n) (high n) (low n) (close n))
                  (firstn n (skipn s df)) new_df
          ++ skipn n (skipn s df), rs')
    /\ List.length (firstn n (skipn s df)) = n
    /\ List.length new_df = n
    /\ List.length (firstn s df) = s.
Proof.
  intros Hv Hse Hend. unfold volatile_splice, bind, uniform.
  set (u := (_ + _ * Qfrac _)%Q).
  assert (Hu : (0 <= volatility self * u)%Q).
  { apply Qmult_le_0_compat; [exact Hv|]. unfold u, Qfrac.
    pose proof (Qfloor_le (unif rs (drawn rs))). lra. }
  destruct (generate_minute_frame (endi - starti + 1) (start_price self)
              (volatility self * u)%Q (advance 1 rs)) as (ps & rs' & -> & Hlen);
    [lia | exact Hu |].
  exists ps, rs'. cbv zeta.
  set (n := Z.to_nat (endi - starti + 1)) in *.
  set (s := Z.to_nat starti).
  set (new_df := map flat_candle _).
  assert (Hnew : List.length new_df = n).
  { unfold new_df. rewrite length_map, length_combine, stamps_from_length.
    cbn [List.length]. lia. }
  assert (Hsel : List.length (firstn n (skipn s df)) = n).
  { rewrite length_firstn, length_skipn. unfold n, s. lia. }
  assert (Hs : List.length (firstn s df) = s).
  { rewrite length_firstn. unfold s. lia. }
  repeat split; try assumption.
  unfold lift, loc_assign. fold n s new_df.
  now rewrite Hsel, Hnew, Nat.eqb_refl.
Qed.

(** C10. Every range the injector splices is regenerated from the run's
    configured start price: whatever frame [df] is being overwritten, the
    splice of a range [starti..endi] that lies in the frame succeeds and
    leaves at row [starti] a candle whose open, high, low and close all equal
    [|round(start_price, 6)|], the first tick of the new walk (its first
    step is forced to zero). *)
Theorem volatile_period_starts_at_start_price
    (self : RandomOHLC) (df : DataFrame Q) (starti endi : Z)
    (rs : RandomState) :
  (0 <= volatility self)%Q ->
  0 <= starti <= endi -> endi < Z.of_nat (List.length df) ->
  exists df' rs' c,
    volatile_splice self df (starti, endi) rs = Ok (df', rs')
    /\ List.length df' = List.length df
    /\ nth_error df' (Z.to_nat starti) = Some c
    /\ open c = Qabs (round_decimals 6 (start_price self))
    /\ high c = Qabs (round_decimals 6 (start_price self))
    /\ low c = Qabs (round_decimals 6 (start_price self))
    /\ close c = Qabs (round_decimals 6 (start_price self)).
Proof.
  intros Hv Hse Hend.
  destruct (volatile_splice_returns self df starti endi rs Hv Hse Hend)
    as (ps & rs' & Hret).
  cbv zeta in Hret. destruct Hret as (Hret & Hsel & Hnew & Hs).
  rewrite Hret. clear Hret.
  set (p := Qabs (round_decimals 6 (start_price self))) in *.
  set (n := Z.to_nat (endi - starti + 1)) in *.
  set (s := Z.to_nat starti) in *.
  set (new_df := map flat_candle _) in *.
  assert (Hlen : List.length
                   (firstn s df
                    ++ map2 (fun c n => Candle (date c) (open n) (high n)
                                               (low n) (close n))
                            (firstn n (skipn s df)) new_df
                    ++ skipn n (skipn s df))
                 = List.length df).
  { rewrite !length_app, map2_length, Hsel, Hnew, Hs, !length_skipn.
    unfold n, s. lia. }
  destruct (firstn n (skipn s df)) as [|c0 sel] eqn:Esel.
  { simpl in Hsel. unfold n in Hsel. lia. }
  assert (Enew : exists rest, new_df = flat_candle (0, p) :: rest).
  { unfold new_df. destruct n as [|n'] eqn:En; [unfold n in En; lia|].
    cbn [stamps_from combine map]. eexists; reflexivity. }
  destruct Enew as (rest & Enew). rewrite Enew in *.
  eexists; eexists; eexists; split; [reflexivity|].
  split; [exact Hlen|]. split.
  - cbn [map2]. rewrite nth_error_app2 by lia. rewrite Hs, Nat.sub_diag.
    reflexivity.
  - simpl. auto.
Qed.

Lemma volatile_period_starts_at_start_price_witness :
  exists df' rs' c,
    volatile_splice (mkRandomOHLC 1 100000 1)
      [Candle 0 7 7 7 7; Candle 60 8 8 8 8; Candle 120 9 9 9 9]%Q (1, 2)
      (mkRandomState (fun _ => 0) (fun _ => 0%Q) (fun _ _ => 1%Q) 0)
    = Ok (df', rs')
    /\ List.length df' = 3%nat
    /\ nth_error df' 1 = Some c
    /\ open c = Qabs (round_decimals 6 100000)
    /\ high c = Qabs (round_decimals 6 100000)
    /\ low c = Qabs (round_decimals 6 100000)
    /\ close c = Qabs (round_decimals 6 100000).
Proof.
  apply (volatile_period_starts_at_start_price (mkRandomOHLC 1 100000 1)
           [Candle 0 7 7 7 7; Candle 60 8 8 8 8; Candle 120 9 9 9 9]%Q 1 2).
  - simpl. lra.
  - lia.
  - simpl. lia.
Defined.

(** ** Rounding *)

Lemma rint_cases (x : Q) : rint x = Qfloor x \/ rint x = Qfloor x + 1.
Proof.
  unfold rint. destruct (Qcompare _ _); [destruct (Z.even _)| |]; auto.
Qed.

Lemma rint_ge_floor (x : Q) : Qfloor x <= rint x.
Proof. destruct (rint_cases x) as [-> | ->]; lia. Qed.

Lemma rint_up_frac (x : Q) :
  rint x = Qfloor x + 1 -> (1 # 2 <= x - inject_Z (Qfloor x))%Q.
Proof.
  unfold rint.
  destruct (Qcompare_spec (x - inject_Z (Qfloor x)) (1 # 2)) as [E|E|E].
  - intros _. rewrite E. apply Qle_refl.
  - lia.
  - intros _. now apply Qlt_le_weak.
Qed.

Lemma rint_lower (a : Z) (x : Q) : (inject_Z a <= x)%Q -> a <= rint x.
Proof.
  intro H. apply Qfloor_resp_le in H. rewrite Qfloor_Z in H.
  pose proof (rint_ge_floor x). lia.
Qed.

Lemma rint_upper (b : Z) (x : Q) : (x <= inject_Z b)%Q -> rint x <= b.
Proof.
  intro H. pose proof H as Hf. apply Qfloor_resp_le in Hf.
  rewrite Qfloor_Z in Hf.
  destruct (rint_cases x) as [-> | E]; [exact Hf|].
  rewrite E. apply rint_up_frac in E.
  destruct (Z.eq_dec (Qfloor x) b) as [Eb|]; [|lia].
  rewrite Eb in E. lra.
Qed.

Lemma rint_monotone (x y : Q) : (x <= y)%Q -> rint x <= rint y.
Proof.
  intro H. pose proof (Qfloor_resp_le _ _ H) as Hf.
  destruct (Z.eq_dec (Qfloor x) (Qfloor y)) as [E|NE].
  - unfold rint. rewrite <- E.
    destruct (Qcompare_spec (x - inject_Z (Qfloor x)) (1 # 2)) as [Ex|Ex|Ex];
      destruct (Qcompare_spec (y - inject_Z (Qfloor x)) (1 # 2)) as [Ey|Ey|Ey];
      try lia; try lra; destruct (Z.even (Qfloor x)); lia.
  - pose proof (rint_ge_floor y).
    destruct (rint_cases x) as [-> | ->]; lia.
Qed.

Lemma pow10_pos (d : nat) : 0 < 10 ^ Z.of_nat d.
Proof. apply Z.pow_pos_nonneg; lia. Qed.

Lemma round_decimals_monotone (d : nat) (x y : Q) :
  (x <= y)%Q -> (round_decimals d x <= round_decimals d y)%Q.
Proof.
  intro H. unfold round_decimals, Qle. cbn [Qnum Qden].
  apply Z.mul_le_mono_nonneg_r; [apply Pos2Z.is_nonneg|].
  apply rint_monotone. apply Qmult_le_compat_r; [exact H|].
  change 0%Q with (inject_Z 0). rewrite <- Zle_Qle.
  pose proof (pow10_pos d). lia.
Qed.

Lemma round_decimals_bounds (d : nat) (a b : Z) (x : Q) :
  (inject_Z a <= x <= inject_Z b)%Q ->
  (inject_Z a <= round_decimals d x <= inject_Z b)%Q.
Proof.
  intros [Ha Hb]. pose proof (pow10_pos d) as Hp.
  assert (Hq : (0 <= inject_Z (10 ^ Z.of_nat d))%Q).
  { change 0%Q with (inject_Z 0). rewrite <- Zle_Qle. lia. }
  assert (La : a * 10 ^ Z.of_nat d <= rint (x * inject_Z (10 ^ Z.of_nat d))).
  { apply rint_lower. rewrite inject_Z_mult. now apply Qmult_le_compat_r. }
  assert (Lb : rint (x * inject_Z (10 ^ Z.of_nat d)) <= b * 10 ^ Z.of_nat d).
  { apply rint_upper. rewrite inject_Z_mult. now apply Qmult_le_compat_r. }
  unfold round_decimals.
  set (r := rint _) in *. set (P := 10 ^ Z.of_nat d) in *.
  unfold Qle, inject_Z. cbn [Qnum Qden].
  rewrite Z2Pos.id by exact Hp. lia.
Qed.

(** ** The extrema of a frame *)

Lemma fold_qmin_le_init (l : list Q) (v : Q) : (fold_left qmin l v <= v)%Q.
Proof.
  revert v. induction l as [|a l IH]; intro v; cbn [fold_left].
  - apply Qle_refl.
  - eapply Qle_trans; [apply IH | apply qmin_le_l].
Qed.

Lemma fold_qmin_le (l : list Q) (v x : Q) :
  In x (v :: l) -> (fold_left qmin l v <= x)%Q.
Proof.
  revert v. induction l as [|a l IH]; intros v H; cbn [fold_left].
  - destruct H as [E | H]; [subst; apply Qle_refl | contradiction].
  - destruct H as [E | [E | H]]; subst.
    + eapply Qle_trans; [apply fold_qmin_le_init | apply qmin_le_l].
    + eapply Qle_trans; [apply fold_qmin_le_init | apply qmin_le_r].
    + apply IH. now right.
Qed.

Lemma fold_qmax_ge_init (l : list Q) (v : Q) : (v <= fold_left qmax l v)%Q.
Proof.
  revert v. induction l as [|a l IH]; intro v; cbn [fold_left].
  - apply Qle_refl.
  - eapply Qle_trans; [apply qmax_ge_l | apply IH].
Qed.

Lemma fold_qmax_ge (l : list Q) (v x : Q) :
  In x (v :: l) -> (x <= fold_left qmax l v)%Q.
Proof.
  revert v. induction l as [|a l IH]; intros v H; cbn [fold_left].
  - destruct H as [E | H]; [subst; apply Qle_refl | contradiction].
  - destruct H as [E | [E | H]]; subst.
    + eapply Qle_trans; [apply qmax_ge_l | apply fold_qmax_ge_init].
    + eapply Qle_trans; [apply qmax_ge_r | apply fold_qmax_ge_init].
    + apply IH. now right.
Qed.

Lemma column_min_le (col : list Q) (x : Q) :
  In x col -> exists m, column_min col = Fin m /\ (m <= x)%Q.
Proof.
  destruct col as [|v vs]; [contradiction|]. intro H.
  eexists; split; [reflexivity|]. now apply fold_qmin_le.
Qed.

Lemma column_max_ge (col : list Q) (x : Q) :
  In x col -> exists m, column_max col = Fin m /\ (x <= m)%Q.
Proof.
  destruct col as [|v vs]; [contradiction|]. intro H.
  eexists; split; [reflexivity|]. now apply fold_qmax_ge.
Qed.

Lemma np_min4 (a b c d : Q) :
  np_min [Fin a; Fin b; Fin c; Fin d] = Fin (qmin (qmin (qmin a b) c) d).
Proof.
  unfold np_min. cbn [existsb is_nan orb fold_left]. unfold fmin2, fle, qmin.
  destruct (Qle_bool a b); destruct (Qle_bool _ c);
    destruct (Qle_bool _ d); reflexivity.
Qed.

Lemma np_max4 (a b c d : Q) :
  np_max [Fin a; Fin b; Fin c; Fin d] = Fin (qmax (qmax (qmax a b) c) d).
Proof.
  unfold np_max. cbn [existsb is_nan orb fold_left]. unfold fmax2, fle, qmax.
  destruct (Qle_bool a b); destruct (Qle_bool _ c);
    destruct (Qle_bool _ d); reflexivity.
Qed.

(** The minimum of a frame is below every cell, its maximum above. *)
Lemma frame_min_le (df : DataFrame Q) (mn : Q) (c : candle Q) :
  frame_min df = Fin mn -> In c df ->
  (mn <= open c /\ mn <= high c /\ mn <= low c /\ mn <= close c)%Q.
Proof.
  intros Hmn Hc. unfold frame_min in Hmn.
  destruct (column_min_le (map open df) (open c)) as (a & Ea & La);
    [now apply in_map|].
  destruct (column_min_le (map high df) (high c)) as (b & Eb & Lb);
    [now apply in_map|].
  destruct (column_min_le (map low df) (low c)) as (l & El & Ll);
    [now apply in_map|].
  destruct (column_min_le (map close df) (close c)) as (d & Ed & Ld);
    [now apply in_map|].
  rewrite Ea, Eb, El, Ed, np_min4 in Hmn. injection Hmn as <-.
  pose proof (qmin_le_l (qmin (qmin a b) l) d).
  pose proof (qmin_le_r (qmin (qmin a b) l) d).
  pose proof (qmin_le_l (qmin a b) l). pose proof (qmin_le_r (qmin a b) l).
  pose proof (qmin_le_l a b). pose proof (qmin_le_r a b).
  repeat split; lra.
Qed.

Lemma frame_max_ge (df : DataFrame Q) (mx : Q) (c : candle Q) :
  frame_max df = Fin mx -> In c df ->
  (open c <= mx /\ high c <= mx /\ low c <= mx /\ close c <= mx)%Q.
Proof.
  intros Hmx Hc. unfold frame_max in Hmx.
  destruct (column_max_ge (map open df) (open c)) as (a & Ea & La);
    [now apply in_map|].
  destruct (column_max_ge (map high df) (high c)) as (b & Eb & Lb);
    [now apply in_map|].
  destruct (column_max_ge (map low df) (low c)) as (l & El & Ll);
    [now apply in_map|].
  destruct (column_max_ge (map close df) (close c)) as (d & Ed & Ld);
    [now apply in_map|].
  rewrite Ea, Eb, El, Ed, np_max4 in Hmx. injection Hmx as <-.
  pose proof (qmax_ge_l (qmax (qmax a b) l) d).
  pose proof (qmax_ge_r (qmax (qmax a b) l) d).
  pose proof (qmax_ge_l (qmax a b) l). pose proof (qmax_ge_r (qmax a b) l).
  pose proof (qmax_ge_l a b). pose proof (qmax_ge_r a b).
  repeat split; lra.
Qed.


(** ** One cell of the normalizer *)

Lemma normalize_cell_number (mn mx : Q) (m : Z) (v : Q) :
  (mn < mx)%Q ->
  normalize_cell (Fin mn) (Fin mx) m v = Fin (scaled mn mx m v).
Proof.
  intro H. unfold normalize_cell, scaled, fsub, fneg, fadd, fdiv.
  destruct (Qeq_bool (mx + - mn) 0) eqn:E.
  - apply Qeq_bool_eq in E. lra.
  - reflexivity.
Qed.

Lemma normalize_cell_nan (mn mx : Q) (m : Z) (v : Q) :
  (mn == mx)%Q -> (v == mn)%Q ->
  normalize_cell (Fin mn) (Fin mx) m v = NaN.
Proof.
  intros H Hv. unfold normalize_cell, fsub, fneg, fadd, fdiv.
  destruct (Qeq_bool (mx + - mn) 0) eqn:E.
  - assert (Hc : ((v + - mn) ?= 0)%Q = Eq) by (apply Qeq_alt; lra).
    rewrite Hc. reflexivity.
  - apply Qeq_bool_neq in E. exfalso. apply E. lra.
Qed.



(** ** C7, C9: the normalizer *)

Lemma normalize_ohlc_data_returns (df : DataFrame Q) (rs : RandomState) :
  exists m, 9 <= m < 999
            /\ randint 9 999 rs = Ok (m, advance 1 rs)
            /\ normalize_ohlc_data df rs = Ok (normalize_with m df, advance 1 rs).
Proof.
  destruct (randint_range 9 999 rs) as (m & Hm & Hr); [lia|].
  exists m. split; [exact Hr|]. split; [exact Hm|].
  unfold normalize_ohlc_data, bind. now rewrite Hm.
Qed.

Lemma normalize_with_nth (m : Z) (df : DataFrame Q) (i : nat) (c : candle Q) :
  nth_error df i = Some c ->
  nth_error (normalize_with m df) i
  = Some (Candle (date c)
            (normalize_cell (frame_min df) (frame_max df) m (open c))
            (normalize_cell (frame_min df) (frame_max df) m (high c))
            (normalize_cell (frame_min df) (frame_max df) m (low c))
            (normalize_cell (frame_min df) (frame_max df) m (close c))).
Proof.
  intro H. unfold normalize_with. now rewrite nth_error_map, H.
Qed.




(** C7, as the code has it.  A constant frame is normalized without any
    error: the result is a frame, of cells that are not numbers. *)
Lemma constant_series_is_normalized :
  let rs := mkRandomState (fun _ => 5) (fun _ => 0%Q) (fun _ _ => 0%Q) 0 in
  normalize_ohlc_data [Candle 0 7 7 7 7; Candle 60 7 7 7 7]%Q rs
  = Ok ([Candle 0 NaN NaN NaN NaN; Candle 60 NaN NaN NaN NaN], advance 1 rs).
Proof. reflexivity. Qed.

(** C7, amended.  [normalize_ohlc_data] has no check and no error of its
    own: on every frame it returns a frame, and when the frame is constant
    ([_max] equals [_min]) the division is the silent division of zero by
    zero, which leaves every open, high, low and close not a number. *)
Theorem constant_series_yields_nan
    (df : DataFrame Q) (rs : RandomState) (mn mx : Q) :
  frame_min df = Fin mn -> frame_max df = Fin mx -> (mn == mx)%Q ->
  exists m,
    9 <= m < 999
    /\ normalize_ohlc_data df rs = Ok (normalize_with m df, advance 1 rs)
    /\ List.length (normalize_with m df) = List.length df
    /\ forall c, In c (normalize_with m df) ->
         open c = NaN /\ high c = NaN /\ low c = NaN /\ close c = NaN.
Proof.
  intros Hmn Hmx Heq.
  destruct (normalize_ohlc_data_returns df rs) as (m & Hm & _ & Hn).
  exists m. split; [exact Hm|]. split; [exact Hn|].
  split; [unfold normalize_with; apply length_map|].
  intros c' Hc'. unfold normalize_with in Hc'. apply in_map_iff in Hc'.
  destruct Hc' as (c & <- & Hin). cbn [open high low close].
  destruct (frame_min_le df mn c Hmn Hin) as (Lo & Lh & Ll & Lc).
  destruct (frame_max_ge df mx c Hmx Hin) as (Uo & Uh & Ul & Uc).
  rewrite Hmn, Hmx.
  repeat split; apply normalize_cell_nan; try assumption; lra.
Qed.

Lemma constant_series_yields_nan_witness :
  exists m,
    9 <= m < 999
    /\ normalize_ohlc_data [Candle 0 7 7 7 7]%Q
         (mkRandomState (fun _ => 5) (fun _ => 0%Q) (fun _ _ => 0%Q) 0)
       = Ok (normalize_with m [Candle 0 7 7 7 7]%Q,
             advance 1 (mkRandomState (fun _ => 5) (fun _ => 0%Q) (fun _ _ => 0%Q) 0)).
Proof.
  destruct (constant_series_yields_nan [Candle 0 7 7 7 7]%Q
              (mkRandomState (fun _ => 5) (fun _ => 0%Q) (fun _ _ => 0%Q) 0)
              7%Q 7%Q eq_refl eq_refl) as (m & Hm & Hn & _).
  - reflexivity.
  - exists m. split; [exact Hm | exact Hn].
Defined.

(** ** Bins *)

Lemma group_bins_concat {X} (lab : X -> Z) (l : list X) :
  List.concat (map bin_rows (group_bins lab l)) = l.
Proof.
  induction l as [|x l IH]; [reflexivity|].
  cbn [group_bins]. destruct (group_bins lab l) as [|[b [y g]] bins].
  - simpl in IH. now subst.
  - destruct (lab x =? b); cbn in *; now rewrite <- IH.
Qed.

Lemma group_bins_labels {X} (lab : X -> Z) (l : list X) :
  Forall (fun b => forall r, In r (bin_rows b) -> lab r = fst b)
         (group_bins lab l).
Proof.
  induction l as [|x l IH]; [constructor|].
  cbn [group_bins]. destruct (group_bins lab l) as [|[b [y g]] bins].
  - constructor; [|constructor]. intros r [<- | []]. reflexivity.
  - inversion IH as [|? ? Hb Hbins]; subst.
    destruct (Z.eqb_spec (lab x) b) as [E|NE].
    + constructor; [|exact Hbins].
      intros r [<- | Hr]; [exact E | now apply Hb].
    + constructor; [|exact IH]. intros r [<- | []]. reflexivity.
Qed.

Lemma group_bins_neighbours {X} (lab : X -> Z) (l : list X) :
  neighbours_differ fst (group_bins lab l).
Proof.
  induction l as [|x l IH]; [exact I|].
  cbn [group_bins]. destruct (group_bins lab l) as [|[b [y g]] bins].
  - exact I.
  - destruct (Z.eqb_spec (lab x) b) as [E|NE].
    + destruct bins; [exact I|]. exact IH.
    + split; [exact NE | exact IH].
Qed.

Lemma neighbours_differ_map {X Y} (f : X -> Y) (lab : Y -> Z) (l : list X) :
  neighbours_differ (fun x => lab (f x)) l -> neighbours_differ lab (map f l).
Proof.
  induction l as [|x [|y l] IH]; try exact (fun _ => I).
  intros [H1 H2]. split; [exact H1 | now apply IH].
Qed.


(** The aggregations on columns of numbers. *)
Lemma filter_notnan_id (col : list float64) :
  Forall (fun x => is_nan x = false) col -> filter notnan col = col.
Proof.
  induction 1 as [|x col Hx _ IH]; [reflexivity|].
  cbn [filter]. rewrite IH. unfold notnan. now rewrite Hx.
Qed.

Lemma fle_total (x y : float64) :
  is_nan x = false -> is_nan y = false -> fle x y = true \/ fle y x = true.
Proof.
  destruct x as [a| | |], y as [b| | |]; simpl; auto; try discriminate.
  intros _ _. destruct (Qle_bool a b) eqn:E; [now left|right].
  apply Qle_bool_false in E. apply Qle_bool_iff. now apply Qlt_le_weak.
Qed.

Lemma fle_refl (x : float64) : is_nan x = false -> fle x x = true.
Proof.
  destruct x as [a| | |]; simpl; auto.
  intros _. apply Qle_bool_iff, Qle_refl.
Qed.

Lemma fle_trans (x y z : float64) :
  fle x y = true -> fle y z = true -> fle x z = true.
Proof.
  destruct x as [a| | |], y as [b| | |], z as [c| | |]; simpl; auto;
    try discriminate.
  rewrite !Qle_bool_iff. apply Qle_trans.
Qed.

Lemma fmax2_number (x y : float64) :
  is_nan x = false -> is_nan y = false ->
  is_nan (fmax2 x y) = false
  /\ fle x (fmax2 x y) = true /\ fle y (fmax2 x y) = true
  /\ (fmax2 x y = x \/ fmax2 x y = y).
Proof.
  intros Hx Hy. unfold fmax2. destruct (fle x y) eqn:E.
  - repeat split; auto using fle_refl.
  - destruct (fle_total x y Hx Hy) as [H|H]; [congruence|].
    repeat split; auto using fle_refl.
Qed.

Lemma fmin2_number (x y : float64) :
  is_nan x = false -> is_nan y = false ->
  is_nan (fmin2 x y) = false
  /\ fle (fmin2 x y) x = true /\ fle (fmin2 x y) y = true
  /\ (fmin2 x y = x \/ fmin2 x y = y).
Proof.
  intros Hx Hy. unfold fmin2. destruct (fle x y) eqn:E.
  - repeat split; auto using fle_refl.
  - destruct (fle_total x y Hx Hy) as [H|H]; [congruence|].
    repeat split; auto using fle_refl.
Qed.



Lemma last_cons {X} (col : list X) (v d : X) :
  last (v :: col) d = last col v.
Proof.
  revert v d. induction col as [|a col IH]; intros v d; [reflexivity|].
  change (last (v :: a :: col) d) with (last (a :: col) d).
  now rewrite !IH.
Qed.


(** ** Bin labels: closed on the right, labelled on the right *)

Lemma ceil_to_spec (w x : Z) :
  0 < w -> x <= ceil_to w x < x + w /\ (ceil_to w x) mod w = 0.
Proof.
  intro Hw. unfold ceil_to.
  pose proof (Z.div_mod (- x) w ltac:(lia)) as Hd.
  pose proof (Z.mod_pos_bound (- x) w Hw) as Hb.
  split; [nia|].
  apply Z.mod_mul. lia.
Qed.

Lemma ceil_to_unique (w x m : Z) :
  0 < w -> x <= m < x + w -> m mod w = 0 -> ceil_to w x = m.
Proof.
  intros Hw Hm Hmod. destruct (ceil_to_spec w x Hw) as [Hc Hcm].
  apply Z.mod_divide in Hmod; [|lia]. apply Z.mod_divide in Hcm; [|lia].
  destruct Hmod as [a Ha]. destruct Hcm as [b Hb].
  assert (a = b) by nia. congruence.
Qed.

Lemma week_end_spec (d : Z) :
  d <= week_end d < d + 7 /\ (week_end d - 1) mod 7 = 0.
Proof.
  unfold week_end. pose proof (Z.mod_pos_bound (1 - d) 7 ltac:(lia)) as Hb.
  split; [lia|].
  pose proof (Z.div_mod (1 - d) 7 ltac:(lia)) as Hd.
  replace (d + (1 - d) mod 7 - 1) with (- ((1 - d) / 7) * 7) by lia.
  apply Z.mod_mul. lia.
Qed.

Lemma week_end_unique (d e : Z) :
  d <= e < d + 7 -> (e - 1) mod 7 = 0 -> week_end d = e.
Proof.
  intros He Hmod. destruct (week_end_spec d) as [Hw Hwm].
  apply Z.mod_divide in Hmod; [|lia]. apply Z.mod_divide in Hwm; [|lia].
  destruct Hmod as [a Ha]. destruct Hwm as [b Hb]. lia.
Qed.

Lemma days_in_month_bounds (y m : Z) : 28 <= days_in_month y m <= 31.
Proof.
  unfold days_in_month.
  destruct (m =? 2); [destruct (is_leap y); lia|].
  destruct ((m =? 4) || (m =? 6) || (m =? 9) || (m =? 11)); lia.
Qed.

Lemma month_end_from_spec (fuel : nat) :
  forall y m first d,
    first <= d -> d - first <= Z.of_nat fuel ->
    d <= month_end_from fuel y m first d <= d + 30
    /\ forall fuel' d',
         d <= d' <= month_end_from fuel y m first d ->
         d' - first <= Z.of_nat fuel' ->
         month_end_from fuel' y m first d'
         = month_end_from fuel y m first d.
Proof.
  induction fuel as [|fuel IH]; intros y m first d Hf Hfuel.
  - pose proof (days_in_month_bounds y m) as Hb.
    cbn [month_end_from]. split; [lia|].
    intros [|fuel'] d' Hd' _; cbn [month_end_from]; [reflexivity|].
    destruct (Z.leb_spec d' (first + days_in_month y m - 1)); [reflexivity | lia].
  - pose proof (days_in_month_bounds y m) as Hb.
    cbn [month_end_from].
    destruct (Z.leb_spec d (first + days_in_month y m - 1)) as [Hle|Hgt].
    + split; [lia|].
      intros [|fuel'] d' Hd' _; cbn [month_end_from]; [reflexivity|].
      destruct (Z.leb_spec d' (first + days_in_month y m - 1));
        [reflexivity | lia].
    + assert (Hrec : forall y' m',
                 d <= month_end_from fuel y' m'
                        (first + days_in_month y m - 1 + 1) d <= d + 30
                 /\ forall fuel' d',
                      d <= d' <= month_end_from fuel y' m'
                                   (first + days_in_month y m - 1 + 1) d ->
                      d' - (first + days_in_month y m - 1 + 1)
                      <= Z.of_nat fuel' ->
                      month_end_from fuel' y' m'
                        (first + days_in_month y m - 1 + 1) d'
                      = month_end_from fuel y' m'
                          (first + days_in_month y m - 1 + 1) d).
      { intros y' m'. apply IH; lia. }
      destruct (m =? 12) eqn:Em.
      * destruct (Hrec (y + 1) 1) as [Hr1 Hr2]. split; [exact Hr1|].
        intros [|fuel'] d' Hd' Hfuel'; [lia|]. cbn [month_end_from].
        rewrite Em.
        destruct (Z.leb_spec d' (first + days_in_month y m - 1)); [lia|].
        apply Hr2; lia.
      * destruct (Hrec y (m + 1)) as [Hr1 Hr2]. split; [exact Hr1|].
        intros [|fuel'] d' Hd' Hfuel'; [lia|]. cbn [month_end_from].
        rewrite Em.
        destruct (Z.leb_spec d' (first + days_in_month y m - 1)); [lia|].
        apply Hr2; lia.
Qed.

Lemma month_end_spec (d : Z) :
  0 <= d ->
  d <= month_end d <= d + 30
  /\ forall d', d <= d' <= month_end d -> month_end d' = month_end d.
Proof.
  intro Hd. unfold month_end.
  destruct (month_end_from_spec (Z.to_nat d) 2000 1 0 d) as [H1 H2]; [lia..|].
  split; [exact H1|]. intros d' Hd'. apply H2; [exact Hd' | lia].
Qed.

Lemma midnight_day (t : Z) : t mod day = 0 -> t = t / day * day.
Proof. intro H. pose proof (Z.div_mod t day ltac:(unfold day; lia)). lia. Qed.

(** ** The resampler, call by call *)

Lemma resample_timeframes_family (self : RandomOHLC)
    (df_1min : DataFrame float64) :
  resample_timeframes self df_1min empty_resampled_data
  = Ok (resampled_family df_1min).
Proof. reflexivity. Qed.

Lemma downsample_parsed (timeframe : string) (off : offset)
    (df : DataFrame float64) :
  parse_freq timeframe = Some off ->
  downsample_ohlc_data timeframe df = Ok (downsampled off df).
Proof. intro H. unfold downsample_ohlc_data. now rewrite H. Qed.

(** ** The stages of the pipeline *)

Lemma bind_inv {A B} (m : M A) (k : A -> M B) (rs rs' : RandomState) (b : B) :
  bind m k rs = Ok (b, rs') ->
  exists a rs1, m rs = Ok (a, rs1) /\ k a rs1 = Ok (b, rs').
Proof.
  unfold bind. destruct (m rs) as [[a rs1]|e]; [|discriminate].
  intro H. now exists a, rs1.
Qed.

Lemma lift_inv {A} (r : result A) (rs rs' : RandomState) (a : A) :
  lift r rs = Ok (a, rs') -> r = Ok a /\ rs' = rs.
Proof.
  unfold lift. destruct r; [|discriminate]. intro H. injection H as -> ->.
  now split.
Qed.

Lemma ret_inv {A} (a b : A) (rs rs' : RandomState) :
  ret a rs = Ok (b, rs') -> b = a /\ rs' = rs.
Proof. unfold ret. intro H. injection H as -> ->. now split. Qed.

Lemma foldM_invariant {A B} (f : B -> A -> M B) (P : B -> Prop) :
  (forall b a rs b' rs', f b a rs = Ok (b', rs') -> P b -> P b') ->
  forall l b rs b' rs', foldM f l b rs = Ok (b', rs') -> P b -> P b'.
Proof.
  intro Hstep. induction l as [|a l IH]; intros b rs b' rs' H Hb.
  - apply ret_inv in H. destruct H as [-> _]. exact Hb.
  - cbn [foldM] in H. apply bind_inv in H. destruct H as (b1 & rs1 & H1 & H2).
    eapply IH; [exact H2|]. eapply Hstep; eassumption.
Qed.

Lemma map2_dates (sel new_df : DataFrame Q) :
  List.length sel = List.length new_df ->
  map date
    (map2 (fun c n => Candle (date c) (open n) (high n) (low n) (close n))
          sel new_df)
  = map date sel.
Proof.
  revert new_df. induction sel as [|c sel IH]; intros [|n new_df] H;
    try discriminate; [reflexivity|].
  cbn [map2 map date]. f_equal. apply IH. now injection H.
Qed.

Lemma loc_assign_dates (starti endi : Z) (new_df df df' : DataFrame Q) :
  loc_assign starti endi new_df df = Ok df' -> map date df' = map date df.
Proof.
  unfold loc_assign.
  destruct (Nat.eqb_spec
              (List.length (firstn (Z.to_nat (endi - starti + 1))
                                   (skipn (Z.to_nat starti) df)))
              (List.length new_df)) as [E|]; [|discriminate].
  intro H. injection H as <-.
  rewrite !map_app, (map2_dates _ _ E), <- !map_app.
  now rewrite !firstn_skipn.
Qed.

Lemma volatile_splice_dates (self : RandomOHLC) (df df' : DataFrame Q)
    (range : Z * Z) (rs rs' : RandomState) :
  volatile_splice self df range rs = Ok (df', rs') ->
  map date df' = map date df.
Proof.
  destruct range as [starti endi]. unfold volatile_splice. intro H.
  apply bind_inv in H. destruct H as (u & rs1 & _ & H).
  apply bind_inv in H. destruct H as (new_df & rs2 & _ & H).
  apply lift_inv in H. destruct H as [H _].
  eapply loc_assign_dates; exact H.
Qed.

Lemma create_volatile_periods_dates (VP VMIN VMAX : Z) (self : RandomOHLC)
    (df df' : DataFrame Q) (rs rs' : RandomState) :
  create_volatile_periods VP VMIN VMAX self df rs = Ok (df', rs') ->
  map date df' = map date df.
Proof.
  unfold create_volatile_periods. intro H.
  apply bind_inv in H. destruct H as (ranges & rs1 & _ & H).
  apply (foldM_invariant (volatile_splice self)
           (fun d => map date d = map date df)) in H; [exact H | | reflexivity].
  intros b a rs2 b' rs2' Hs Hb. rewrite <- Hb.
  eapply volatile_splice_dates; exact Hs.
Qed.

Lemma set_open_dates (df : DataFrame Q) (col : list Q) :
  List.length col = List.length df -> map date (set_open df col) = map date df.
Proof.
  revert col. induction df as [|c df IH]; intros [|v col] H;
    try discriminate; [reflexivity|].
  cbn [set_open map date]. f_equal. apply IH. now injection H.
Qed.

Lemma normalize_dates (m : Z) (df : DataFrame Q) :
  map date (normalize_with m df) = map date df.
Proof. unfold normalize_with. rewrite map_map. apply map_ext. reflexivity. Qed.

Lemma group_bins_nonempty {X} (lab : X -> Z) (l : list X) :
  l <> [] -> group_bins lab l <> [].
Proof.
  intros Hl Hg. apply Hl. rewrite <- (group_bins_concat lab l), Hg. reflexivity.
Qed.

Lemma date_range_length (n : Z) (off : offset) :
  List.length (date_range n off) = Z.to_nat n.
Proof. apply stamps_from_length. Qed.

(** What a successful [__generate_random_df] has done. *)
Lemma generate_random_df_inv (num_bars : Z) (frequency : string) (sp vol : Q)
    (rs rs' : RandomState) (df : DataFrame Q) :
  generate_random_df_ num_bars frequency sp vol rs = Ok (df, rs') ->
  exists off prices,
    parse_freq frequency = Some off
    /\ 1 <= num_bars
    /\ List.length prices = Z.to_nat num_bars
    /\ df = resample_1min_ohlc (create_dataframe num_bars off prices).
Proof.
  unfold generate_random_df_. intro H.
  apply bind_inv in H. destruct H as (dist & rs1 & _ & H).
  destruct dist as [d|]; [|discriminate].
  apply bind_inv in H. destruct H as (steps & rs2 & Hs & H).
  unfold sample in Hs.
  destruct (Qltb vol 0 || (num_bars <? 0)) eqn:Eg; [discriminate|].
  injection Hs as <- <-.
  apply orb_false_iff in Eg. destruct Eg as [_ Eg]. apply Z.ltb_ge in Eg.
  destruct (map _ (seq 0 (Z.to_nat num_bars))) as [|s steps] eqn:Es;
    [discriminate|].
  assert (Hlen : S (List.length steps) = Z.to_nat num_bars).
  { apply (f_equal (@List.length Q)) in Es.
    rewrite length_map, length_seq in Es. cbn [List.length] in Es. lia. }
  destruct (parse_freq frequency) as [off|]; [|discriminate].
  apply ret_inv in H. destruct H as [-> _].
  eexists; eexists. split; [reflexivity|]. split; [lia|].
  split; [|reflexivity].
  cbn [cumsum map List.length]. now rewrite !length_map, cumsum_from_length.
Qed.

Lemma generate_random_df_nonempty (num_bars : Z) (frequency : string)
    (sp vol : Q) (rs rs' : RandomState) (df : DataFrame Q) :
  generate_random_df_ num_bars frequency sp vol rs = Ok (df, rs') -> df <> [].
Proof.
  intro H. apply generate_random_df_inv in H.
  destruct H as (off & prices & _ & Hn & Hlen & ->).
  unfold resample_1min_ohlc. intro E. apply map_eq_nil in E. revert E.
  apply group_bins_nonempty. unfold create_dataframe.
  intro E. apply (f_equal (@List.length (Z * Q))) in E.
  rewrite length_combine, date_range_length, Hlen in E.
  cbn [List.length] in E. lia.
Qed.

(** ** Order kept by the normalizer and the resampler *)





Lemma in_bin_rows {X} (lab : X -> Z) (l : list X) b (r : X) :
  In b (group_bins lab l) -> In r (bin_rows b) -> In r l.
Proof.
  intros Hb Hr. rewrite <- (group_bins_concat lab l).
  apply in_concat. exists (bin_rows b). split; [now apply in_map | exact Hr].
Qed.

Lemma last_map {X Y} (f : X -> Y) (l : list X) (d : X) :
  last (map f l) (f d) = f (last l d).
Proof.
  induction l as [|a [|b l] IH]; try reflexivity.
  change (last (map f (a :: b :: l)) (f d)) with (last (map f (b :: l)) (f d)).
  now rewrite IH.
Qed.

Lemma last_in {X} (l : list X) (d : X) : In (last l d) (d :: l).
Proof.
  revert d. induction l as [|a l IH]; intro d; [now left|].
  rewrite last_cons. right. apply IH.
Qed.







(** ** The injector returns *)

Lemma advance_advance (a b : nat) (rs : RandomState) :
  advance b (advance a rs) = advance (a + b) rs.
Proof. unfold advance. cbn. f_equal. lia. Qed.

Lemma mapM_randint (lo hi : Z) (n : nat) (rs : RandomState) :
  lo < hi ->
  exists l, mapM (fun _ : unit => randint lo hi) (repeat tt n) rs
            = Ok (l, advance n rs)
            /\ List.length l = n /\ Forall (fun x => lo <= x < hi) l.
Proof.
  intro H. revert rs. induction n as [|n IH]; intro rs.
  - exists []. cbn. unfold ret, advance. rewrite Nat.add_0_r.
    destruct rs; repeat split; constructor.
  - cbn [repeat mapM]. unfold bind.
    destruct (randint_range lo hi rs H) as (k & -> & Hk).
    destruct (IH (advance 1 rs)) as (l & -> & Hl & Hall).
    exists (k :: l). unfold ret. rewrite advance_advance.
    split; [reflexivity|]. split; [cbn; now rewrite Hl | now constructor].
Qed.

Lemma randint_size_ok (lo hi : Z) (n : nat) (rs : RandomState) :
  lo < hi ->
  exists l, randint_size lo hi n rs = Ok (l, advance n rs)
            /\ List.length l = n /\ Forall (fun x => lo <= x < hi) l.
Proof.
  intro H. unfold randint_size.
  destruct (Z.leb_spec hi lo); [lia|]. now apply mapM_randint.
Qed.

Lemma index_pairs (n random_chance : Z) :
  forall idx draws periods periods',
    List.length draws = List.length idx ->
    List.length periods = List.length idx ->
    List.length periods' = List.length idx ->
    Forall (fun i => 0 <= i) idx ->
    Forall (fun p => 1 <= p) periods ->
    Forall (fun p => 1 <= p) periods' ->
    let mask0 := map (fun r => r <? random_chance) draws in
    let array_masked := map2 mask_mul mask0 periods in
    let mask :=
      map2 andb mask0
           (map (fun s => s <? n) (map2 Z.add idx array_masked)) in
    let start_indices := map2 mask_mul mask (map2 Z.add idx array_masked) in
    let end_indices := map2 Z.add start_indices (map2 mask_mul mask periods') in
    Forall2 (index_pair n) start_indices end_indices.
Proof.
  induction idx as [|i idx IH]; intros [|r draws] [|p periods] [|p' periods']
    Hd Hp Hp' Hi Hper Hper'; try discriminate; cbn zeta.
  - constructor.
  - cbn [map map2].
    inversion Hi; inversion Hper; inversion Hper'; subst.
    constructor.
    + unfold index_pair, mask_mul.
      destruct (r <? random_chance); cbn [andb].
      * destruct (Z.ltb_spec (i + p) n); lia.
      * lia.
    + apply IH; try assumption; cbn in *; lia.
Qed.

(** The pairs the loop runs over lie in the frame, start before end. *)
Lemma zipped_ranges (n : Z) (starts ends : list Z) :
  Forall2 (index_pair n) starts ends ->
  Forall (fun r => 0 <= fst r <= snd r /\ snd r < n)
    (combine (filter (fun s => 0 <? s) starts)
       (map (fun e => if n - 1 <? e then n - 1 else e)
            (filter (fun e => 0 <? e) ends))).
Proof.
  induction 1 as [|s e starts ends [[-> ->] | [Hs He]] _ IH].
  - constructor.
  - cbn. exact IH.
  - cbn [filter].
    destruct (Z.ltb_spec 0 s); [|lia]. destruct (Z.ltb_spec 0 e); [|lia].
    cbn [map combine]. constructor; [|exact IH]. cbn [fst snd].
    destruct (Z.ltb_spec (n - 1) e); lia.
Qed.

Lemma seq_nonneg (a n : nat) : Forall (fun i => 0 <= i) (map Z.of_nat (seq a n)).
Proof.
  revert a. induction n; intro a; cbn; constructor; [lia | apply IHn].
Qed.

Lemma volatile_ranges_ok (VP VMIN VMAX : Z) (n : nat) (rs : RandomState) :
  1 < VP -> 1 <= VMIN < VMAX ->
  exists ranges rs',
    volatile_ranges VP VMIN VMAX n rs = Ok (ranges, rs')
    /\ Forall (fun r => 0 <= fst r <= snd r /\ snd r < Z.of_nat n) ranges.
Proof.
  intros HVP HV. unfold volatile_ranges, bind.
  destruct (randint_range 1 100 rs) as (rc & -> & _); [lia|].
  destruct (randint_size_ok 1 VP n (advance 1 rs) HVP) as (draws & -> & Ld & _).
  destruct (randint_size_ok VMIN VMAX n (advance n (advance 1 rs)))
    as (periods & -> & Lp & Fp); [lia|].
  destruct (randint_size_ok VMIN VMAX n
              (advance n (advance n (advance 1 rs))))
    as (periods' & -> & Lp' & Fp'); [lia|].
  unfold ret. eexists; eexists; split; [reflexivity|].
  apply zipped_ranges.
  apply (index_pairs (Z.of_nat n) rc (map Z.of_nat (seq 0 n)) draws periods
           periods').
  - now rewrite length_map, length_seq.
  - now rewrite length_map, length_seq.
  - now rewrite length_map, length_seq.
  - apply seq_nonneg.
  - eapply Forall_impl; [|exact Fp]. cbn. lia.
  - eapply Forall_impl; [|exact Fp']. cbn. lia.
Qed.

Lemma length_of_dates {A} (df df' : DataFrame A) :
  map date df' = map date df -> List.length df' = List.length df.
Proof.
  intro H. apply (f_equal (@List.length Z)) in H. now rewrite !length_map in H.
Qed.

Lemma splices_ok (self : RandomOHLC) (ranges : list (Z * Z)) :
  (0 <= volatility self)%Q ->
  forall (df : DataFrame Q) (rs : RandomState),
    Forall (fun r => 0 <= fst r <= snd r
                     /\ snd r < Z.of_nat (List.length df)) ranges ->
    exists df' rs', foldM (volatile_splice self) ranges df rs = Ok (df', rs').
Proof.
  intro Hv. induction ranges as [|[s e] ranges IH]; intros df rs Hall.
  - eexists; eexists; reflexivity.
  - inversion Hall as [|? ? [Hse He] Hrest]; subst. cbn [fst snd] in *.
    destruct (volatile_splice_returns self df s e rs Hv Hse He)
      as (ps & rs1 & Hret).
    cbv zeta in Hret. destruct Hret as (Hret & _).
    cbn [foldM]. unfold bind. rewrite Hret.
    apply IH.
    pose proof (volatile_splice_dates _ _ _ _ _ _ Hret) as Hd.
    apply length_of_dates in Hd. rewrite Hd. exact Hrest.
Qed.

(** With a frequency pandas knows, a positive number of bars and a scale
    that is not negative, [__generate_random_df] returns. *)
Lemma generate_random_df_ok (num_bars : Z) (frequency : string) (off : offset)
    (sp vol : Q) (rs : RandomState) :
  parse_freq frequency = Some off -> 1 <= num_bars -> (0 <= vol)%Q ->
  exists df rs', generate_random_df_ num_bars frequency sp vol rs = Ok (df, rs').
Proof.
  intros Hf Hn Hv. unfold generate_random_df_, bind.
  destruct (choose_distribution_keys rs) as (d & -> & _).
  destruct (sample_ok d vol num_bars (advance 1 rs) Hv) as (steps & -> & Hlen);
    [lia|].
  destruct steps as [|s steps]; [simpl in Hlen; lia|].
  rewrite Hf. unfold ret. eexists; eexists; reflexivity.
Qed.

(** ** The timestamps of a resampled frame *)

Lemma group_bins_keys {X} (lab : X -> Z) (l : list X) :
  map fst (group_bins lab l) = dedup_adjacent (map lab l).
Proof.
  induction l as [|x l IH]; [reflexivity|].
  cbn [group_bins map dedup_adjacent]. rewrite <- IH.
  destruct (group_bins lab l) as [|[b [y g]] bins]; [reflexivity|].
  cbn [map fst]. destruct (lab x =? b); reflexivity.
Qed.

Lemma downsampled_dates (off : offset) (df : DataFrame float64) :
  map date (downsampled off df)
  = dedup_adjacent
      (map (bin_label_right off (anchor_of (map date df))) (map date df)).
Proof.
  unfold downsampled, downsample_bins.
  rewrite map_map, map_map.
  rewrite <- (group_bins_keys
                (fun c => bin_label_right off (anchor_of (map date df)) (date c))).
  apply map_ext. reflexivity.
Qed.

Lemma resample_1min_dates (ticks : list (Z * Q)) :
  map date (resample_1min_ohlc ticks)
  = dedup_adjacent
      (map (bin_label_left 60 (anchor_of (map fst ticks))) (map fst ticks)).
Proof.
  unfold resample_1min_ohlc. rewrite map_map, map_map.
  rewrite <- (group_bins_keys
                (fun x => bin_label_left 60 (anchor_of (map fst ticks)) (fst x))).
  apply map_ext. intros [label [x g]]. reflexivity.
Qed.

(** Labels of an arithmetic progression of timestamps, when one step of the
    progression moves the label by nothing or by one bin: the labels without
    repetition are an arithmetic progression again. *)
Lemma dedup_progression (L : Z -> Z) (W g : Z) :
  0 < W ->
  (forall t, L (t + g) = L t \/ L (t + g) = L t + W) ->
  forall n a,
  exists k,
    dedup_adjacent (map L (stamps_from (Tick g) a (S n)))
    = stamps_from (Tick W) (L a) (S k)
    /\ L (a + g * Z.of_nat n) = L a + W * Z.of_nat k.
Proof.
  intros HW Hstep. induction n as [|n IH]; intro a.
  - exists O. split; [reflexivity|].
    change (Z.of_nat 0) with 0. now rewrite !Z.mul_0_r, !Z.add_0_r.
  - destruct (IH (a + g)) as (k & Hk & Hlast).
    change (stamps_from (Tick g) a (S (S n)))
      with (a :: stamps_from (Tick g) (a + g) (S n)).
    cbn [map dedup_adjacent]. rewrite Hk.
    replace (a + g * Z.of_nat (S n)) with (a + g + g * Z.of_nat n) by lia.
    cbn [stamps_from next_stamp].
    destruct (Hstep a) as [E | E].
    + exists k. rewrite E, Z.eqb_refl. split; [reflexivity|]. lia.
    + exists (S k). rewrite E.
      destruct (Z.eqb_spec (L a) (L a + W)); [lia|].
      split; [reflexivity|]. lia.
Qed.

Lemma floor_to_spec (w x : Z) :
  0 < w -> floor_to w x <= x < floor_to w x + w /\ (floor_to w x) mod w = 0.
Proof.
  intro Hw. unfold floor_to.
  pose proof (Z.div_mod x w ltac:(lia)) as Hd.
  pose proof (Z.mod_pos_bound x w Hw) as Hb.
  split; [nia|]. apply Z.mod_mul. lia.
Qed.

Lemma floor_to_unique (w x m : Z) :
  0 < w -> m <= x < m + w -> m mod w = 0 -> floor_to w x = m.
Proof.
  intros Hw Hm Hmod. destruct (floor_to_spec w x Hw) as [Hc Hcm].
  apply Z.mod_divide in Hmod; [|lia]. apply Z.mod_divide in Hcm; [|lia].
  destruct Hmod as [a Ha]. destruct Hcm as [b Hb].
  assert (a = b) by nia. congruence.
Qed.

Lemma mod_add_width (m w : Z) : 0 < w -> m mod w = 0 -> (m + w) mod w = 0.
Proof.
  intros Hw H. rewrite <- Z.add_mod_idemp_l, H by lia. cbn.
  apply Z.mod_same. lia.
Qed.

Lemma left_label_step (w g t : Z) :
  0 < g <= w ->
  bin_label_left w 0 (t + g) = bin_label_left w 0 t
  \/ bin_label_left w 0 (t + g) = bin_label_left w 0 t + w.
Proof.
  intro Hg. unfold bin_label_left. rewrite !Z.sub_0_r, !Z.add_0_l.
  destruct (floor_to_spec w t) as [Hc Hm]; [lia|].
  destruct (Z_lt_le_dec (t + g) (floor_to w t + w)).
  - left. apply floor_to_unique; [lia | lia | exact Hm].
  - right. apply floor_to_unique; [lia | lia |]. apply mod_add_width; [lia|exact Hm].
Qed.

Lemma right_label_step (w g t : Z) :
  0 < g <= w ->
  bin_label_right (Tick w) 0 (t + g) = bin_label_right (Tick w) 0 t
  \/ bin_label_right (Tick w) 0 (t + g) = bin_label_right (Tick w) 0 t + w.
Proof.
  intro Hg. cbn [bin_label_right]. rewrite !Z.sub_0_r, !Z.add_0_l.
  destruct (ceil_to_spec w t) as [Hc Hm]; [lia|].
  destruct (Z_le_gt_dec (t + g) (ceil_to w t)).
  - left. apply ceil_to_unique; [lia | lia | exact Hm].
  - right. apply ceil_to_unique; [lia | lia |]. apply mod_add_width; [lia|exact Hm].
Qed.

Lemma week_label_step (anchor t : Z) :
  bin_label_right Week anchor (t + 3 * day) = bin_label_right Week anchor t
  \/ bin_label_right Week anchor (t + 3 * day)
     = bin_label_right Week anchor t + 7 * day.
Proof.
  cbn [bin_label_right].
  replace ((t + 3 * day) / day) with (t / day + 3)
    by (rewrite Z.div_add; [reflexivity | unfold day; lia]).
  destruct (week_end_spec (t / day)) as [Hw Hm].
  destruct (Z_le_gt_dec (t / day + 3) (week_end (t / day))).
  - left. f_equal. apply week_end_unique; [lia | exact Hm].
  - right. rewrite <- Z.mul_add_distr_r. f_equal.
    apply week_end_unique; [lia|].
    replace (week_end (t / day) + 7 - 1) with (week_end (t / day) - 1 + 7) by lia.
    apply mod_add_width; [lia | exact Hm].
Qed.

Lemma stamps_from_anchor (g : Z) (n : nat) :
  anchor_of (stamps_from (Tick g) 0 (S n)) = 0.
Proof. reflexivity. Qed.

(** One rung of the ladder, on a frame whose timestamps are an arithmetic
    progression from the start date on. *)
Lemma downsampled_progression (off : offset) (W g : Z) (n : nat)
    (df : DataFrame float64) :
  map date df = stamps_from (Tick g) 0 (S n) -> 0 < W ->
  (forall t, bin_label_right off 0 (t + g) = bin_label_right off 0 t
             \/ bin_label_right off 0 (t + g) = bin_label_right off 0 t + W) ->
  exists k,
    map date (downsampled off df)
    = stamps_from (Tick W) (bin_label_right off 0 0) (S k)
    /\ bin_label_right off 0 (g * Z.of_nat n)
       = bin_label_right off 0 0 + W * Z.of_nat k.
Proof.
  intros Hd HW Hstep. rewrite downsampled_dates, Hd, stamps_from_anchor.
  destruct (dedup_progression (bin_label_right off 0) W g HW Hstep n 0)
    as (k & Hk & Hlast).
  exists k. split; [exact Hk|]. now rewrite Z.add_0_l in Hlast.
Qed.

(** ** Counting the rows of a frame *)

Lemma dates_length {A} (df : DataFrame A) (off : offset) (a : Z) (k : nat) :
  map date df = stamps_from off a (S k) ->
  Z.of_nat (List.length df) = Z.of_nat k + 1.
Proof.
  intro H. apply (f_equal (@List.length Z)) in H.
  rewrite length_map, stamps_from_length in H. lia.
Qed.

Lemma map_fst_combine {A B} (l : list A) (l' : list B) :
  List.length l = List.length l' -> map fst (combine l l') = l.
Proof.
  revert l'. induction l as [|a l IH]; intros [|b l'] H; try discriminate;
    [reflexivity|].
  cbn. f_equal. apply IH. now injection H.
Qed.

(** The timestamps of the base frame of [num_bars] one-second ticks. *)
Lemma base_frame_dates (num_bars : Z) (prices : list Q) :
  1 <= num_bars -> List.length prices = Z.to_nat num_bars ->
  exists k,
    map date (resample_1min_ohlc (create_dataframe num_bars (Tick 1) prices))
    = stamps_from (Tick 60) 0 (S k)
    /\ floor_to 60 (num_bars - 1) = 60 * Z.of_nat k.
Proof.
  intros Hn Hlen. rewrite resample_1min_dates. unfold create_dataframe.
  rewrite map_fst_combine by now rewrite date_range_length.
  unfold date_range. cbn [first_stamp].
  replace (Z.to_nat num_bars) with (S (Z.to_nat (num_bars - 1))) by lia.
  rewrite stamps_from_anchor.
  destruct (dedup_progression (bin_label_left 60 0) 60 1 ltac:(lia)
              (fun t => left_label_step 60 1 t ltac:(lia))
              (Z.to_nat (num_bars - 1)) 0) as (k & Hk & Hlast).
  exists k. split; [exact Hk|].
  rewrite Z2Nat.id in Hlast by lia.
  unfold bin_label_left in Hlast.
  replace (0 + 1 * (num_bars - 1) - 0) with (num_bars - 1) in Hlast by lia.
  change (floor_to 60 (0 - 0)) with 0 in Hlast. lia.
Qed.


(** * Further properties of the code *)

(** ** The connector *)

Lemma map_fixpoint {X} (f : X -> X) (l : list X) :
  map f l = l <-> forall x, In x l -> f x = x.
Proof.
  induction l as [|a l IH]; cbn [map].
  - split; [intros _ x [] | reflexivity].
  - split.
    + intro H. injection H as Ha Hl. intros x [<- | Hx]; [exact Ha|].
      now apply IH.
    + intro H. f_equal; [apply H; now left | apply IH].
      intros x Hx. apply H. now right.
Qed.

Lemma set_open_columns (df df' : DataFrame Q) (col : list Q) :
  map date df = map date df' -> map high df = map high df' ->
  map low df = map low df' -> map close df = map close df' ->
  set_open df col = set_open df' col.
Proof.
  revert df' col. induction df as [|c df IH]; intros [|c' df'] col Hd Hh Hl Hc;
    try discriminate; [reflexivity|].
  cbn [map] in *. injection Hd as Hd0 Hd. injection Hh as Hh0 Hh.
  injection Hl as Hl0 Hl. injection Hc as Hc0 Hc.
  destruct col as [|v col]; [reflexivity|].
  cbn [set_open]. rewrite Hd0, Hh0, Hl0, Hc0. f_equal. now apply IH.
Qed.

(** X4. The connector never reads the opens it is given: on two frames with
    the same timestamps, highs, lows and closes, its first three statements
    leave the same frame, whatever the opens were. *)
Theorem connect_discards_opens (start_price : Q) (df df' : DataFrame Q) :
  map date df = map date df' -> map high df = map high df' ->
  map low df = map low df' -> map close df = map close df' ->
  connect_opens start_price df = connect_opens start_price df'.
Proof.
  intros Hd Hh Hl Hc. unfold connect_opens. cbv zeta.
  rewrite Hc. now rewrite (set_open_columns df df' _ Hd Hh Hl Hc).
Qed.

Lemma connect_discards_opens_witness :
  connect_opens 100 [Candle 0 1 3 0 2; Candle 60 9 9 1 4]%Q
  = connect_opens 100 [Candle 0 8 3 0 2; Candle 60 0 9 1 4]%Q.
Proof.
  apply connect_discards_opens; reflexivity.
Defined.

(** ** The normalizer, at its ends *)

Lemma qmin_cases (a b : Q) : qmin a b = a \/ qmin a b = b.
Proof. unfold qmin. destruct (Qle_bool a b); auto. Qed.

Lemma qmax_cases (a b : Q) : qmax a b = a \/ qmax a b = b.
Proof. unfold qmax. destruct (Qle_bool a b); auto. Qed.

Lemma fold_qmin_in (l : list Q) (v : Q) : In (fold_left qmin l v) (v :: l).
Proof.
  revert v. induction l as [|a l IH]; intro v; cbn [fold_left]; [now left|].
  destruct (IH (qmin v a)) as [E | H]; [|now right; right].
  rewrite <- E. destruct (qmin_cases v a) as [-> | ->];
    [now left | now right; left].
Qed.

Lemma fold_qmax_in (l : list Q) (v : Q) : In (fold_left qmax l v) (v :: l).
Proof.
  revert v. induction l as [|a l IH]; intro v; cbn [fold_left]; [now left|].
  destruct (IH (qmax v a)) as [E | H]; [|now right; right].
  rewrite <- E. destruct (qmax_cases v a) as [-> | ->];
    [now left | now right; left].
Qed.

Lemma column_in_cells (f : candle Q -> Q) (df : DataFrame Q) (v : Q) :
  (forall c, In (f c) (cells c)) ->
  In v (map f df) -> exists c, In c df /\ In v (cells c).
Proof.
  intros Hf H. apply in_map_iff in H. destruct H as (c & <- & Hc).
  exists c. split; [exact Hc | apply Hf].
Qed.

(** The minimum and the maximum of a frame are cells of the frame. *)
Lemma frame_min_attained (df : DataFrame Q) (mn : Q) :
  frame_min df = Fin mn -> exists c, In c df /\ In mn (cells c).
Proof.
  destruct df as [|c0 df]; [discriminate|].
  unfold frame_min. cbn [map column_min]. rewrite np_min4.
  intro H. injection H as <-.
  set (A := fold_left qmin (map open df) (open c0)).
  set (B := fold_left qmin (map high df) (high c0)).
  set (C := fold_left qmin (map low df) (low c0)).
  set (D := fold_left qmin (map close df) (close c0)).
  assert (HA : exists c, In c (c0 :: df) /\ In A (cells c)).
  { apply (column_in_cells open); [intro; cbn; auto|]. apply fold_qmin_in. }
  assert (HB : exists c, In c (c0 :: df) /\ In B (cells c)).
  { apply (column_in_cells high); [intro; cbn; auto|]. apply fold_qmin_in. }
  assert (HC : exists c, In c (c0 :: df) /\ In C (cells c)).
  { apply (column_in_cells low); [intro; cbn; auto|]. apply fold_qmin_in. }
  assert (HD : exists c, In c (c0 :: df) /\ In D (cells c)).
  { apply (column_in_cells close); [intro; cbn; auto|]. apply fold_qmin_in. }
  destruct (qmin_cases (qmin (qmin A B) C) D) as [-> | ->]; [|exact HD].
  destruct (qmin_cases (qmin A B) C) as [-> | ->]; [|exact HC].
  destruct (qmin_cases A B) as [-> | ->]; assumption.
Qed.

Lemma frame_max_attained (df : DataFrame Q) (mx : Q) :
  frame_max df = Fin mx -> exists c, In c df /\ In mx (cells c).
Proof.
  destruct df as [|c0 df]; [discriminate|].
  unfold frame_max. cbn [map column_max]. rewrite np_max4.
  intro H. injection H as <-.
  set (A := fold_left qmax (map open df) (open c0)).
  set (B := fold_left qmax (map high df) (high c0)).
  set (C := fold_left qmax (map low df) (low c0)).
  set (D := fold_left qmax (map close df) (close c0)).
  assert (HA : exists c, In c (c0 :: df) /\ In A (cells c)).
  { apply (column_in_cells open); [intro; cbn; auto|]. apply fold_qmax_in. }
  assert (HB : exists c, In c (c0 :: df) /\ In B (cells c)).
  { apply (column_in_cells high); [intro; cbn; auto|]. apply fold_qmax_in. }
  assert (HC : exists c, In c (c0 :: df) /\ In C (cells c)).
  { apply (column_in_cells low); [intro; cbn; auto|]. apply fold_qmax_in. }
  assert (HD : exists c, In c (c0 :: df) /\ In D (cells c)).
  { apply (column_in_cells close); [intro; cbn; auto|]. apply fold_qmax_in. }
  destruct (qmax_cases (qmax (qmax A B) C) D) as [-> | ->]; [|exact HD].
  destruct (qmax_cases (qmax A B) C) as [-> | ->]; [|exact HC].
  destruct (qmax_cases A B) as [-> | ->]; assumption.
Qed.

Lemma scaled_at_min (mn mx : Q) (m : Z) :
  (mn < mx)%Q -> (scaled mn mx m mn == 0)%Q.
Proof.
  intro H. unfold scaled.
  assert (E : ((mn - mn) / (mx - mn) * inject_Z m == 0)%Q).
  { unfold Qdiv. setoid_replace (mn - mn)%Q with 0%Q by ring. ring. }
  destruct (round_decimals_bounds 4 0 0
              ((mn - mn) / (mx - mn) * inject_Z m)%Q) as [L U].
  { rewrite E. change (inject_Z 0) with 0%Q. split; apply Qle_refl. }
  change (inject_Z 0) with 0%Q in L, U. apply Qle_antisym; assumption.
Qed.

Lemma scaled_at_max (mn mx : Q) (m : Z) :
  (mn < mx)%Q -> (scaled mn mx m mx == inject_Z m)%Q.
Proof.
  intro H. unfold scaled.
  assert (E : ((mx - mn) / (mx - mn) * inject_Z m == inject_Z m)%Q).
  { field. lra. }
  destruct (round_decimals_bounds 4 m m
              ((mx - mn) / (mx - mn) * inject_Z m)%Q) as [L U].
  { rewrite E. split; apply Qle_refl. }
  apply Qle_antisym; assumption.
Qed.

Lemma normalized_cells (m : Z) (df : DataFrame Q) (mn mx : Q)
    (c : candle Q) (v : Q) :
  frame_min df = Fin mn -> frame_max df = Fin mx -> (mn < mx)%Q ->
  In c df -> In v (cells c) ->
  exists c', In c' (normalize_with m df)
             /\ In (Fin (scaled mn mx m v)) (cells c').
Proof.
  intros Hmn Hmx Hlt Hc Hv.
  eexists. split.
  - unfold normalize_with. apply in_map. exact Hc.
  - rewrite Hmn, Hmx. unfold cells in *. cbn [open high low close].
    rewrite !normalize_cell_number by exact Hlt.
    cbn [In] in Hv |- *.
    destruct Hv as [<- | [<- | [<- | [<- | []]]]]; auto.
Qed.

(** X5. When the frame is not constant, the normalization reaches both ends
    of its scale: some price of the normalized frame is 0 (the image of the
    minimum) and some price is exactly the multiplier (the image of the
    maximum). *)
Theorem normalization_reaches_both_ends
    (m : Z) (df : DataFrame Q) (mn mx : Q) :
  frame_min df = Fin mn -> frame_max df = Fin mx -> (mn < mx)%Q ->
  (exists c q, In c (normalize_with m df) /\ In (Fin q) (cells c)
               /\ (q == 0)%Q)
  /\ (exists c q, In c (normalize_with m df) /\ In (Fin q) (cells c)
                  /\ (q == inject_Z m)%Q).
Proof.
  intros Hmn Hmx Hlt. split.
  - destruct (frame_min_attained df mn Hmn) as (c & Hc & Hv).
    destruct (normalized_cells m df mn mx c mn Hmn Hmx Hlt Hc Hv)
      as (c' & Hc' & Hq).
    exists c', (scaled mn mx m mn). split; [exact Hc'|].
    split; [exact Hq | now apply scaled_at_min].
  - destruct (frame_max_attained df mx Hmx) as (c & Hc & Hv).
    destruct (normalized_cells m df mn mx c mx Hmn Hmx Hlt Hc Hv)
      as (c' & Hc' & Hq).
    exists c', (scaled mn mx m mx). split; [exact Hc'|].
    split; [exact Hq | now apply scaled_at_max].
Qed.

Lemma normalization_reaches_both_ends_witness :
  (exists c q, In c (normalize_with 9 [Candle 0 1 3 0 2; Candle 60 2 2 2 2]%Q)
               /\ In (Fin q) (cells c) /\ (q == 0)%Q)
  /\ (exists c q, In c (normalize_with 9 [Candle 0 1 3 0 2; Candle 60 2 2 2 2]%Q)
                  /\ In (Fin q) (cells c) /\ (q == inject_Z 9)%Q).
Proof.
  apply (normalization_reaches_both_ends 9
           [Candle 0 1 3 0 2; Candle 60 2 2 2 2]%Q 0 3); reflexivity.
Defined.

(** ** The random walk *)

(** What a walk that returns is made of: its prices are absolute values, the
    first of them that of the rounded start price. *)
Lemma generate_random_df_prices (num_bars : Z) (frequency : string)
    (sp vol : Q) (rs rs' : RandomState) (df : DataFrame Q) :
  generate_random_df_ num_bars frequency sp vol rs = Ok (df, rs') ->
  exists off ps,
    parse_freq frequency = Some off
    /\ 1 <= num_bars
    /\ S (List.length ps) = Z.to_nat num_bars
    /\ df = resample_1min_ohlc
              (create_dataframe num_bars off
                 (map (fun p => Qabs (round_decimals 6 p)) (sp :: ps))).
Proof.
  unfold generate_random_df_. intro H.
  apply bind_inv in H. destruct H as (dist & rs1 & _ & H).
  destruct dist as [d|]; [|discriminate].
  apply bind_inv in H. destruct H as (steps & rs2 & Hs & H).
  unfold sample in Hs.
  destruct (Qltb vol 0 || (num_bars <? 0)) eqn:Eg; [discriminate|].
  injection Hs as <- <-.
  apply orb_false_iff in Eg. destruct Eg as [_ Eg]. apply Z.ltb_ge in Eg.
  destruct (map _ (seq 0 (Z.to_nat num_bars))) as [|s steps] eqn:Es;
    [discriminate|].
  assert (Hlen : S (List.length steps) = Z.to_nat num_bars).
  { apply (f_equal (@List.length Q)) in Es.
    rewrite length_map, length_seq in Es. cbn [List.length] in Es. lia. }
  destruct (parse_freq frequency) as [off|]; [|discriminate].
  apply ret_inv in H. destruct H as [-> _].
  exists off, (map (fun s => (sp + s)%Q) (cumsum_from 0 steps)).
  split; [reflexivity|]. split; [lia|]. split.
  - now rewrite length_map, cumsum_from_length.
  - cbn [cumsum map].
    now rewrite (round_decimals_proper 6 (sp + 0) sp) by ring.
Qed.

(** The candle of a bin is ordered, and no lower than a bound of its
    ticks. *)
Lemma ohlc_of_bin_ordered (b : Z * ((Z * Q) * list (Z * Q))) (m : Q) :
  (forall x, In x (bin_rows b) -> (m <= snd x)%Q) ->
  let c := ohlc_of_bin b in
  (m <= low c /\ low c <= open c /\ low c <= close c
   /\ open c <= high c /\ close c <= high c)%Q.
Proof.
  destruct b as (label & x & g). unfold bin_rows. cbn [fst snd].
  intros Hm. cbv zeta. cbn [ohlc_of_bin low open close high].
  assert (Hin : forall p, In p (snd x :: map snd g) -> (m <= p)%Q).
  { intros p [<- | Hp]; [apply Hm; now left|].
    apply in_map_iff in Hp. destruct Hp as (y & <- & Hy).
    apply Hm. now right. }
  split; [apply Hin, fold_qmin_in|].
  split; [apply fold_qmin_le_init|].
  split; [apply fold_qmin_le, last_in|].
  split; [apply fold_qmax_ge_init|].
  apply fold_qmax_ge, last_in.
Qed.



(** X7. Every candle of a walk of second or minute ticks is in order and
    not negative: [0 <= low <= open, close <= high].  (Coarser ticks would
    leave minutes without a tick, and rows without a price.) *)
Theorem generated_candles_ordered (num_bars : Z) (frequency : string)
    (sp vol : Q) (rs rs' : RandomState) (df : DataFrame Q) (c : candle Q) :
  frequency = "1S"%string \/ frequency = "1min"%string ->
  generate_random_df_ num_bars frequency sp vol rs = Ok (df, rs') ->
  In c df ->
  (0 <= low c /\ low c <= open c /\ low c <= close c
   /\ open c <= high c /\ close c <= high c)%Q.
Proof.
  intros _ H Hc. apply generate_random_df_prices in H.
  destruct H as (off & ps & _ & _ & _ & ->).
  unfold resample_1min_ohlc in Hc. apply in_map_iff in Hc.
  destruct Hc as (b & <- & Hb).
  apply ohlc_of_bin_ordered. intros x Hx.
  apply (in_bin_rows _ _ _ _ Hb) in Hx.
  unfold create_dataframe in Hx. destruct x as (t, p).
  apply in_combine_r in Hx. apply in_map_iff in Hx.
  destruct Hx as (q & <- & _). apply Qabs_nonneg.
Qed.

Lemma generated_candles_ordered_witness :
  let c := hd (Candle 0 0 0 0 0)%Q
              (match generate_random_df_ 61 "1S" 100000 1
                       (mkRandomState (fun _ => 0) (fun _ => 0%Q)
                                      (fun _ i => inject_Z (Z.of_nat i)) 0) with
               | Ok (df, _) => df
               | Raise _ => []
               end) in
  (0 <= low c /\ low c <= open c /\ low c <= close c
   /\ open c <= high c /\ close c <= high c)%Q.
Proof.
  apply (generated_candles_ordered 61 "1S" 100000 1
           (mkRandomState (fun _ => 0) (fun _ => 0%Q)
                          (fun _ i => inject_Z (Z.of_nat i)) 0)
           (advance 62 (mkRandomState (fun _ => 0) (fun _ => 0%Q)
                          (fun _ i => inject_Z (Z.of_nat i)) 0))
           (match generate_random_df_ 61 "1S" 100000 1
                    (mkRandomState (fun _ => 0) (fun _ => 0%Q)
                                   (fun _ i => inject_Z (Z.of_nat i)) 0) with
            | Ok (df, _) => df
            | Raise _ => []
            end)).
  - now left.
  - vm_compute. reflexivity.
  - vm_compute. now left.
Defined.

Lemma resample_1min_first_open (x : Z * Q) (ticks : list (Z * Q)) :
  exists c rest,
    resample_1min_ohlc (x :: ticks) = c :: rest /\ open c = snd x.
Proof.
  unfold resample_1min_ohlc.
  set (lab := fun y : Z * Q => bin_label_left 60 _ (fst y)).
  cbn [group_bins].
  destruct (group_bins lab ticks) as [|(b & y & g) bins].
  - eexists; eexists. split; reflexivity.
  - destruct (lab x =? b); eexists; eexists; split; reflexivity.
Qed.

(** X8. A walk of [num_bars] second ticks comes back as one candle per
    minute begun: [ceil(num_bars / 60)] candles, stamped minute after minute
    from the start date on. *)
Theorem second_ticks_fill_minutes (num_bars : Z) (sp vol : Q)
    (rs rs' : RandomState) (df : DataFrame Q) :
  generate_random_df_ num_bars "1S" sp vol rs = Ok (df, rs') ->
  map date df = date_range ((num_bars + 59) / 60) (Tick 60).
Proof.
  intro H. apply generate_random_df_inv in H.
  destruct H as (off & prices & Hoff & Hn & Hlen & ->).
  change (parse_freq "1S") with (Some (Tick 1)) in Hoff.
  injection Hoff as <-.
  destruct (base_frame_dates num_bars prices Hn Hlen) as (k & -> & Hk).
  unfold date_range. cbn [first_stamp]. f_equal.
  unfold floor_to in Hk.
  assert (E : (num_bars + 59) / 60 = Z.of_nat (S k)).
  { replace (num_bars + 59) with (num_bars - 1 + 1 * 60) by ring.
    rewrite Z.div_add by lia. lia. }
  rewrite E. now rewrite Nat2Z.id.
Qed.

Lemma second_ticks_fill_minutes_witness :
  map date
      (match generate_random_df_ 61 "1S" 100000 1
               (mkRandomState (fun _ => 0) (fun _ => 0%Q) (fun _ _ => 1%Q) 0)
       with
       | Ok (df, _) => df
       | Raise _ => []
       end)
  = date_range ((61 + 59) / 60) (Tick 60).
Proof.
  apply (second_ticks_fill_minutes 61 100000 1
           (mkRandomState (fun _ => 0) (fun _ => 0%Q) (fun _ _ => 1%Q) 0)
           (advance 62
              (mkRandomState (fun _ => 0) (fun _ => 0%Q) (fun _ _ => 1%Q) 0))).
  vm_compute. reflexivity.
Defined.

(** X9. A walk of [num_bars] minute ticks comes back as [num_bars] candles,
    one per tick and stamped as the ticks are, each of them flat: its open,
    high, low and close are the price of its tick. *)
Theorem minute_ticks_give_flat_candles (num_bars : Z) (sp vol : Q)
    (rs rs' : RandomState) (df : DataFrame Q) :
  generate_random_df_ num_bars "1min" sp vol rs = Ok (df, rs') ->
  map date df = date_range num_bars (Tick 60) /\ Forall is_flat df.
Proof.
  intro H. apply generate_random_df_inv in H.
  destruct H as (off & prices & Hoff & Hn & Hlen & ->).
  change (parse_freq "1min") with (Some (Tick 60)) in Hoff.
  injection Hoff as <-.
  unfold create_dataframe, date_range. cbn [first_stamp].
  rewrite resample_minute_ticks. split.
  - rewrite map_map. cbn [flat_candle date].
    apply map_fst_combine. now rewrite stamps_from_length.
  - apply Forall_forall. intros c Hc. apply in_map_iff in Hc.
    destruct Hc as (x & <- & _). unfold is_flat. cbn. auto.
Qed.

Lemma minute_ticks_give_flat_candles_witness :
  let df := match generate_random_df_ 3 "1min" 100000 1
                    (mkRandomState (fun _ => 0) (fun _ => 0%Q)
                                   (fun _ _ => 1%Q) 0) with
            | Ok (df, _) => df
            | Raise _ => []
            end in
  map date df = date_range 3 (Tick 60) /\ Forall is_flat df.
Proof.
  apply (minute_ticks_give_flat_candles 3 100000 1
           (mkRandomState (fun _ => 0) (fun _ => 0%Q) (fun _ _ => 1%Q) 0)
           (advance 4
              (mkRandomState (fun _ => 0) (fun _ => 0%Q) (fun _ _ => 1%Q) 0))).
  vm_compute. reflexivity.
Defined.

(** X10. The first candle of a walk of second or minute ticks opens at the
    start price, rounded to six decimals and taken in absolute value: the
    first step of the walk is overwritten with 0. *)
Theorem walk_opens_at_start_price (num_bars : Z) (frequency : string)
    (sp vol : Q) (rs rs' : RandomState) (df : DataFrame Q) :
  frequency = "1S"%string \/ frequency = "1min"%string ->
  generate_random_df_ num_bars frequency sp vol rs = Ok (df, rs') ->
  exists c rest, df = c :: rest /\ open c = Qabs (round_decimals 6 sp).
Proof.
  intros _ H. apply generate_random_df_prices in H.
  destruct H as (off & ps & _ & Hn & Hlen & ->).
  unfold create_dataframe, date_range.
  destruct (Z.to_nat num_bars) as [|k] eqn:Ek; [lia|].
  cbn [stamps_from map combine].
  destruct (resample_1min_first_open
              (first_stamp off, Qabs (round_decimals 6 sp))
              (combine (stamps_from off (next_stamp off (first_stamp off)) k)
                       (map (fun p => Qabs (round_decimals 6 p)) ps)))
    as (c & rest & E & Ho).
  exists c, rest. split; [exact E | exact Ho].
Qed.

Lemma walk_opens_at_start_price_witness :
  exists c rest,
    match generate_random_df_ 61 "1S" (-5 # 2) 1
            (mkRandomState (fun _ => 0) (fun _ => 0%Q) (fun _ _ => 1%Q) 0) with
    | Ok (df, _) => df
    | Raise _ => []
    end = c :: rest
    /\ open c = Qabs (round_decimals 6 (-5 # 2)).
Proof.
  apply (walk_opens_at_start_price 61 "1S" (-5 # 2) 1
           (mkRandomState (fun _ => 0) (fun _ => 0%Q) (fun _ _ => 1%Q) 0)
           (advance 62
              (mkRandomState (fun _ => 0) (fun _ => 0%Q) (fun _ _ => 1%Q) 0))).
  - now left.
  - vm_compute. reflexivity.
Defined.

(** ** The volatility injector *)

Lemma foldM_invariant_in {A B} (f : B -> A -> M B) (P : B -> Prop)
    (l : list A) :
  (forall b a rs b' rs', In a l -> f b a rs = Ok (b', rs') -> P b -> P b') ->
  forall b rs b' rs', foldM f l b rs = Ok (b', rs') -> P b -> P b'.
Proof.
  induction l as [|a l IH]; intros Hf b rs b' rs' H Hb.
  - apply ret_inv in H. destruct H as [-> _]. exact Hb.
  - cbn [foldM] in H. apply bind_inv in H. destruct H as (b1 & rs1 & H1 & H).
    apply (IH (fun b a rs b' rs' Ha => Hf b a rs b' rs' (or_intror Ha))
              b1 rs1 b' rs' H).
    apply (Hf b a rs b1 rs1 (or_introl eq_refl) H1 Hb).
Qed.

Lemma randint_size_inv (lo hi : Z) (n : nat) (rs rs' : RandomState)
    (l : list Z) :
  randint_size lo hi n rs = Ok (l, rs') ->
  lo < hi /\ List.length l = n /\ Forall (fun x => lo <= x < hi) l.
Proof.
  intro H. destruct (Z.leb_spec hi lo) as [Hle | Hlt].
  - unfold randint_size in H. destruct (Z.leb_spec hi lo); [discriminate|lia].
  - destruct (randint_size_ok lo hi n rs Hlt) as (l' & E & Hl).
    rewrite E in H. injection H as <- _. split; [exact Hlt | exact Hl].
Qed.

(** The ranges of the loop, as the source computes them from what it has
    drawn. *)
Lemma volatile_ranges_inv (VP VMIN VMAX : Z) (n : nat) (rs rs' : RandomState)
    (ranges : list (Z * Z)) :
  volatile_ranges VP VMIN VMAX n rs = Ok (ranges, rs') ->
  exists random_chance draws periods periods',
    List.length draws = n /\ List.length periods = n
    /\ List.length periods' = n
    /\ Forall (fun p => VMIN <= p < VMAX) periods
    /\ Forall (fun p => VMIN <= p < VMAX) periods'
    /\ let length := Z.of_nat n in
       let idx := map Z.of_nat (seq 0 n) in
       let mask0 := map (fun r => r <? random_chance) draws in
       let array_masked := map2 mask_mul mask0 periods in
       let mask :=
         map2 andb mask0
              (map (fun s => s <? length) (map2 Z.add idx array_masked)) in
       let start_indices := map2 mask_mul mask (map2 Z.add idx array_masked) in
       let end_indices :=
         map2 Z.add start_indices (map2 mask_mul mask periods') in
       ranges
       = combine (filter (fun s => 0 <? s) start_indices)
           (map (fun e => if length - 1 <? e then length - 1 else e)
                (filter (fun e => 0 <? e) end_indices)).
Proof.
  unfold volatile_ranges. intro H.
  apply bind_inv in H. destruct H as (rc & rs1 & _ & H).
  apply bind_inv in H. destruct H as (draws & rs2 & Hd & H).
  apply bind_inv in H. destruct H as (periods & rs3 & Hp & H).
  apply bind_inv in H. destruct H as (periods' & rs4 & Hp' & H).
  apply ret_inv in H. destruct H as [-> _].
  apply randint_size_inv in Hd, Hp, Hp'.
  destruct Hd as (_ & Ld & _). destruct Hp as (_ & Lp & Fp).
  destruct Hp' as (_ & Lp' & Fp').
  exists rc, draws, periods, periods'. cbv zeta.
  repeat (split; [assumption|]). reflexivity.
Qed.

Lemma period_pairs (n vmin vmax random_chance : Z) :
  forall idx draws periods periods',
    List.length draws = List.length idx ->
    List.length periods = List.length idx ->
    List.length periods' = List.length idx ->
    Forall (fun i => 0 <= i) idx ->
    Forall (fun p => vmin <= p < vmax) periods ->
    Forall (fun p => vmin <= p < vmax) periods' ->
    let mask0 := map (fun r => r <? random_chance) draws in
    let array_masked := map2 mask_mul mask0 periods in
    let mask :=
      map2 andb mask0
           (map (fun s => s <? n) (map2 Z.add idx array_masked)) in
    let start_indices := map2 mask_mul mask (map2 Z.add idx array_masked) in
    let end_indices := map2 Z.add start_indices (map2 mask_mul mask periods') in
    Forall2 (period_pair n vmin vmax) start_indices end_indices.
Proof.
  induction idx as [|i idx IH]; intros [|r draws] [|p periods] [|p' periods']
    Hd Hp Hp' Hi Hper Hper'; try discriminate; cbn zeta.
  - constructor.
  - cbn [map map2].
    inversion Hi; inversion Hper; inversion Hper'; subst.
    constructor.
    + unfold period_pair, mask_mul.
      destruct (r <? random_chance); cbn [andb].
      * destruct (Z.ltb_spec (i + p) n); lia.
      * lia.
    + apply IH; try assumption; cbn in *; lia.
Qed.

Lemma zipped_periods (n vmin vmax : Z) (starts ends : list Z) :
  1 <= vmin ->
  Forall2 (period_pair n vmin vmax) starts ends ->
  Forall (fun r => vmin <= fst r <= snd r /\ snd r < n
                   /\ snd r - fst r < vmax)
    (combine (filter (fun s => 0 <? s) starts)
       (map (fun e => if n - 1 <? e then n - 1 else e)
            (filter (fun e => 0 <? e) ends))).
Proof.
  intro Hv. induction 1 as [|s e starts ends [[-> ->] | [Hs He]] _ IH].
  - constructor.
  - cbn. exact IH.
  - cbn [filter].
    destruct (Z.ltb_spec 0 s); [|lia]. destruct (Z.ltb_spec 0 e); [|lia].
    cbn [map combine]. constructor; [|exact IH]. cbn [fst snd].
    destruct (Z.ltb_spec (n - 1) e); lia.
Qed.

(** X11. With a shortest period of at least one row, every range the
    injector selects lies in the frame, begins at least one shortest period
    after the first row, ends no earlier than it begins and covers at most
    [VOLATILE_PERIOD_MAX] rows: dropping the zeros of the two arrays one by
    one leaves the starts and the ends paired as they were drawn. *)
Theorem volatile_ranges_bounds (VP VMIN VMAX : Z) (n : nat)
    (rs rs' : RandomState) (ranges : list (Z * Z)) :
  1 <= VMIN ->
  volatile_ranges VP VMIN VMAX n rs = Ok (ranges, rs') ->
  Forall (fun r => VMIN <= fst r <= snd r /\ snd r < Z.of_nat n
                   /\ snd r - fst r + 1 <= VMAX) ranges.
Proof.
  intros Hv H. apply volatile_ranges_inv in H.
  destruct H as (rc & draws & periods & periods' & Ld & Lp & Lp' & Fp & Fp'
                 & ->).
  eapply Forall_impl;
    [|apply (zipped_periods (Z.of_nat n) VMIN VMAX _ _ Hv);
      apply (period_pairs (Z.of_nat n) VMIN VMAX rc (map Z.of_nat (seq 0 n))
               draws periods periods')].
  - cbn beta. intros r Hr. lia.
  - now rewrite length_map, length_seq.
  - now rewrite length_map, length_seq.
  - now rewrite length_map, length_seq.
  - apply seq_nonneg.
  - exact Fp.
  - exact Fp'.
Qed.

Lemma volatile_ranges_bounds_witness :
  Forall (fun r => 1 <= fst r <= snd r /\ snd r < Z.of_nat 5
                   /\ snd r - fst r + 1 <= 3)
         [(2, 4); (3, 4); (4, 4)].
Proof.
  apply (volatile_ranges_bounds 3 1 3 5
           (mkRandomState (fun _ => 7) (fun _ => 0%Q) (fun _ _ => 1%Q) 0)
           (advance 16
              (mkRandomState (fun _ => 7) (fun _ => 0%Q) (fun _ _ => 1%Q) 0))).
  - lia.
  - vm_compute. reflexivity.
Defined.

Lemma volatile_ranges_starts (VP VMIN VMAX : Z) (n : nat)
    (rs rs' : RandomState) (ranges : list (Z * Z)) :
  volatile_ranges VP VMIN VMAX n rs = Ok (ranges, rs') ->
  forall r, In r ranges -> 0 < fst r.
Proof.
  intro H. apply volatile_ranges_inv in H.
  destruct H as (rc & draws & periods & periods' & _ & _ & _ & _ & _ & ->).
  intros [s e] Hr. apply in_combine_l in Hr. apply filter_In in Hr.
  destruct Hr as [_ Hs]. cbn [fst]. now apply Z.ltb_lt.
Qed.

(** A walk of minute ticks that returns is a frame of flat candles. *)
Lemma minute_walk_flat (num_bars : Z) (sp vol : Q) (rs rs' : RandomState)
    (df : DataFrame Q) :
  generate_random_df_ num_bars "1min" sp vol rs = Ok (df, rs') ->
  Forall is_flat df.
Proof.
  intro H. apply generate_random_df_inv in H.
  destruct H as (off & prices & Hoff & Hn & Hlen & ->).
  change (parse_freq "1min") with (Some (Tick 60)) in Hoff.
  injection Hoff as <-.
  unfold create_dataframe, date_range. cbn [first_stamp].
  rewrite resample_minute_ticks.
  apply Forall_forall. intros c Hc. apply in_map_iff in Hc.
  destruct Hc as (x & <- & _). unfold is_flat. cbn. auto.
Qed.

Lemma kept_or_flat_refl (df : DataFrame Q) : Forall2 kept_or_flat df df.
Proof.
  induction df as [|c df IH]; constructor; [|exact IH].
  split; [reflexivity | now left].
Qed.

Lemma kept_or_flat_trans (l1 l2 l3 : DataFrame Q) :
  Forall2 kept_or_flat l1 l2 -> Forall2 kept_or_flat l2 l3 ->
  Forall2 kept_or_flat l1 l3.
Proof.
  intro H. revert l3. induction H as [|a b l1 l2 [Hd Hab] _ IH]; intros l3 H3.
  - inversion H3. constructor.
  - inversion H3 as [|? c ? l3' [Hd' Hbc] Hrest]; subst.
    constructor; [|now apply IH].
    split; [congruence|].
    destruct Hbc as [-> | Hf]; [exact Hab | now right].
Qed.

Lemma map2_kept_or_flat (sel new_df : DataFrame Q) :
  List.length sel = List.length new_df -> Forall is_flat new_df ->
  Forall2 kept_or_flat sel
    (map2 (fun c n => Candle (date c) (open n) (high n) (low n) (close n))
          sel new_df).
Proof.
  revert new_df. induction sel as [|c sel IH]; intros [|x new_df] Hl Hf;
    try discriminate; cbn [map2]; constructor.
  - inversion Hf as [|? ? Hx _]; subst. split; [reflexivity|].
    right. exact Hx.
  - apply IH; [now injection Hl | now inversion Hf].
Qed.

(** One pass of the loop: the rows of the range become flat, the others are
    kept, and with a start after the first row the first row is kept. *)
Lemma volatile_splice_step (self : RandomOHLC) (df df' : DataFrame Q)
    (range : Z * Z) (rs rs' : RandomState) :
  volatile_splice self df range rs = Ok (df', rs') ->
  Forall2 kept_or_flat df df'
  /\ (0 < fst range -> nth_error df' 0 = nth_error df 0).
Proof.
  destruct range as [s e]. unfold volatile_splice. intro H.
  apply bind_inv in H. destruct H as (u & rs1 & _ & H).
  apply bind_inv in H. destruct H as (new_df & rs2 & Hg & H).
  apply lift_inv in H. destruct H as [H _].
  apply minute_walk_flat in Hg.
  unfold loc_assign in H.
  set (before := firstn (Z.to_nat s) df) in *.
  set (sel := firstn (Z.to_nat (e - s + 1)) (skipn (Z.to_nat s) df)) in *.
  set (after := skipn (Z.to_nat (e - s + 1)) (skipn (Z.to_nat s) df)) in *.
  destruct (Nat.eqb (List.length sel) (List.length new_df)) eqn:El;
    [|discriminate].
  apply Nat.eqb_eq in El. injection H as <-.
  assert (Edf : df = before ++ sel ++ after).
  { unfold before, sel, after. now rewrite !firstn_skipn. }
  split.
  - rewrite Edf at 1.
    apply Forall2_app; [apply kept_or_flat_refl|].
    apply Forall2_app; [|apply kept_or_flat_refl].
    now apply map2_kept_or_flat.
  - cbn [fst]. intro Hs. unfold before.
    destruct (Z.to_nat s) as [|k] eqn:Ek; [lia|].
    destruct df as [|c df]; [|reflexivity].
    unfold sel, after. rewrite !skipn_nil, !firstn_nil. reflexivity.
Qed.

(** X12. Whenever the injector returns, it has kept the number of rows and
    every timestamp, and each row is either the row it was or a flat candle
    (open = high = low = close); the first row is never rewritten. *)
Theorem injector_rewrites_with_flat_candles (VP VMIN VMAX : Z)
    (self : RandomOHLC) (df df' : DataFrame Q) (rs rs' : RandomState) :
  create_volatile_periods VP VMIN VMAX self df rs = Ok (df', rs') ->
  Forall2 kept_or_flat df df' /\ nth_error df' 0 = nth_error df 0.
Proof.
  unfold create_volatile_periods. intro H.
  apply bind_inv in H. destruct H as (ranges & rs1 & Hr & H).
  pose proof (volatile_ranges_starts _ _ _ _ _ _ _ Hr) as Hpos.
  apply (foldM_invariant_in (volatile_splice self)
           (fun d => Forall2 kept_or_flat df d
                     /\ nth_error d 0 = nth_error df 0)
           ranges) in H.
  - exact H.
  - intros b a rsa b' rsb Ha Hstep [Hb Hb0].
    apply volatile_splice_step in Hstep. destruct Hstep as [Hk H0].
    split; [now apply (kept_or_flat_trans df b b')|].
    rewrite (H0 (Hpos a Ha)). exact Hb0.
  - split; [apply kept_or_flat_refl | reflexivity].
Qed.

Lemma injector_rewrites_with_flat_candles_witness :
  let rs := mkRandomState (fun _ => 7) (fun _ => 0%Q) (fun _ _ => 1%Q) 0 in
  let df := [Candle 0 1 4 1 2; Candle 60 2 5 1 3; Candle 120 3 3 2 2;
             Candle 180 2 6 2 5]%Q in
  let df' := match create_volatile_periods 3 1 3 (mkRandomOHLC 1 10 1) df rs
             with
             | Ok (d, _) => d
             | Raise _ => []
             end in
  Forall2 kept_or_flat df df' /\ nth_error df' 0 = nth_error df 0.
Proof.
  cbv zeta.
  destruct (create_volatile_periods 3 1 3 (mkRandomOHLC 1 10 1)
              [Candle 0 1 4 1 2; Candle 60 2 5 1 3; Candle 120 3 3 2 2;
               Candle 180 2 6 2 5]%Q
              (mkRandomState (fun _ => 7) (fun _ => 0%Q) (fun _ _ => 1%Q) 0))
    as [[d rs']|e] eqn:E; [|vm_compute in E; discriminate].
  apply (injector_rewrites_with_flat_candles 3 1 3 (mkRandomOHLC 1 10 1)
           _ d _ rs' E).
Defined.

(** ** The pipeline *)

Lemma walk_without_bars (frequency : string) (sp vol : Q) (rs : RandomState) :
  (0 <= vol)%Q ->
  generate_random_df_ 0 frequency sp vol rs = Raise IndexError.
Proof.
  intro Hv. unfold generate_random_df_, bind.
  destruct (choose_distribution_keys rs) as (d & -> & _).
  unfold sample. rewrite (proj2 (Qltb_ge _ _) Hv). reflexivity.
Qed.

Lemma walk_of_negative_length (num_bars : Z) (frequency : string) (sp vol : Q)
    (rs : RandomState) :
  num_bars < 0 ->
  generate_random_df_ num_bars frequency sp vol rs = Raise ValueError.
Proof.
  intro Hn. unfold generate_random_df_, bind.
  destruct (choose_distribution_keys rs) as (d & -> & _).
  unfold sample. apply Z.ltb_lt in Hn. rewrite Hn, orb_true_r. reflexivity.
Qed.

(** X13. [random_case] cannot return for a number of days that is not
    positive, whatever the constants of the injector: it fails in its first
    call, [generate_random_df], with an [IndexError] for no day (the walk has
    no first step to overwrite) and with a [ValueError] for a negative
    number of days (a negative size). *)
Theorem random_case_needs_a_day (VP VMIN VMAX : Z) (num_days : Z)
    (rs : RandomState) :
  (num_days = 0 -> random_case VP VMIN VMAX num_days rs = Raise IndexError)
  /\ (num_days < 0 -> random_case VP VMIN VMAX num_days rs = Raise ValueError)
  /\ (forall family rs',
        random_case VP VMIN VMAX num_days rs = Ok (family, rs') ->
        1 <= num_days).
Proof.
  unfold random_case, bind, uniform.
  set (v := (1 + (2 - 1) * Qfrac (unif rs (drawn rs)))%Q).
  assert (Hv : (0 <= v)%Q).
  { unfold v, Qfrac. pose proof (Qfloor_le (unif rs (drawn rs))). lra. }
  cbn [total_days start_price volatility]. unfold SECONDS_IN_1DAY.
  assert (H0 : num_days = 0 ->
               generate VP VMIN VMAX (mkRandomOHLC num_days 100000 v)
                 (num_days * 86400) "1S" 100000 v (advance 1 rs)
               = Raise IndexError).
  { intros ->. unfold generate, bind. change (0 * 86400) with 0.
    now rewrite (walk_without_bars _ _ _ _ Hv). }
  assert (Hneg : num_days < 0 ->
                 generate VP VMIN VMAX (mkRandomOHLC num_days 100000 v)
                   (num_days * 86400) "1S" 100000 v (advance 1 rs)
                 = Raise ValueError).
  { intro Hn. unfold generate, bind.
    now rewrite walk_of_negative_length by lia. }
  split; [exact H0|]. split; [exact Hneg|].
  intros family rs' H.
  destruct (Z.lt_trichotomy num_days 0) as [Hn | [Hn | Hn]]; [| |lia].
  - rewrite (Hneg Hn) in H. discriminate H.
  - rewrite (H0 Hn) in H. discriminate H.
Qed.

(** One rung of fixed width on a frame stamped at a fixed step from the
    start date on: the timestamps that follow, and the last of them. *)
Lemma tick_rung (W g : Z) (n : nat) (df : DataFrame float64) :
  map date df = stamps_from (Tick g) 0 (S n) -> 0 < g <= W ->
  exists k,
    map date (downsampled (Tick W) df) = stamps_from (Tick W) 0 (S k)
    /\ W * Z.of_nat k = ceil_to W (g * Z.of_nat n).
Proof.
  intros Hd Hg.
  destruct (downsampled_progression (Tick W) W g n df Hd ltac:(lia)
              (fun t => right_label_step W g t Hg)) as (k & Hk & E).
  assert (E0 : bin_label_right (Tick W) 0 0 = 0).
  { cbn [bin_label_right]. unfold ceil_to.
    rewrite Z.sub_0_r, Z.opp_0, Z.div_0_l by lia. reflexivity. }
  rewrite E0 in Hk, E. exists k. split; [exact Hk|].
  cbn [bin_label_right] in E. rewrite Z.sub_0_r in E. lia.
Qed.

Lemma ceil_to_multiple (w a x : Z) :
  0 < w -> x <= a * w < x + w -> ceil_to w x = a * w.
Proof.
  intros Hw Hx. apply ceil_to_unique; [exact Hw | exact Hx |].
  apply Z.mod_mul. lia.
Qed.

Lemma floor_to_multiple (w a x : Z) :
  0 < w -> a * w <= x < a * w + w -> floor_to w x = a * w.
Proof.
  intros Hw Hx. apply floor_to_unique; [exact Hw | exact Hx |].
  apply Z.mod_mul. lia.
Qed.

(** The frames of a base frame of [days] days of one-minute candles, down to
    the daily one: each has one candle per bin of the days, and one more. *)
Lemma family_counts_of_days (base : DataFrame float64) (n : nat) (days : Z) :
  map date base = stamps_from (Tick 60) 0 (S n) ->
  Z.of_nat n = 1440 * days - 1 ->
  forall tf per_day,
    In (tf, per_day)
       [ ("5min", 288); ("15min", 96); ("30min", 48); ("1H", 24); ("2H", 12);
         ("4H", 6); ("1D", 1) ]%string ->
    exists df, lookup tf (resampled_family base) = Some (Some df)
               /\ Z.of_nat (List.length df) = per_day * days + 1.
Proof.
  intros H1 N1.
  destruct (tick_rung 300 60 _ _ H1 ltac:(lia)) as (k5 & H5 & E5).
  assert (N5 : Z.of_nat k5 = 288 * days)
    by (rewrite (ceil_to_multiple _ (288 * days)) in E5 by lia; lia).
  destruct (tick_rung 900 300 _ _ H5 ltac:(lia)) as (k15 & H15 & E15).
  assert (N15 : Z.of_nat k15 = 96 * days)
    by (rewrite (ceil_to_multiple _ (96 * days)) in E15 by lia; lia).
  destruct (tick_rung 1800 900 _ _ H15 ltac:(lia)) as (k30 & H30 & E30).
  assert (N30 : Z.of_nat k30 = 48 * days)
    by (rewrite (ceil_to_multiple _ (48 * days)) in E30 by lia; lia).
  destruct (tick_rung 3600 1800 _ _ H30 ltac:(lia)) as (k1H & H1H & E1H).
  assert (N1H : Z.of_nat k1H = 24 * days)
    by (rewrite (ceil_to_multiple _ (24 * days)) in E1H by lia; lia).
  destruct (tick_rung 7200 3600 _ _ H1H ltac:(lia)) as (k2H & H2H & E2H).
  assert (N2H : Z.of_nat k2H = 12 * days)
    by (rewrite (ceil_to_multiple _ (12 * days)) in E2H by lia; lia).
  destruct (tick_rung 14400 7200 _ _ H2H ltac:(lia)) as (k4H & H4H & E4H).
  assert (N4H : Z.of_nat k4H = 6 * days)
    by (rewrite (ceil_to_multiple _ (6 * days)) in E4H by lia; lia).
  destruct (tick_rung 86400 14400 _ _ H4H ltac:(lia)) as (k1D & H1D & E1D).
  assert (N1D : Z.of_nat k1D = 1 * days)
    by (rewrite (ceil_to_multiple _ (1 * days)) in E1D by lia; lia).
  clear E5 E15 E30 E1H E2H E4H E1D.
  intros tf per_day Hin. cbn [In] in Hin.
  destruct Hin as [E | [E | [E | [E | [E | [E | [E | []]]]]]]];
    injection E as <- <-; eexists; (split; [reflexivity|]).
  - rewrite (dates_length _ _ _ _ H5); lia.
  - rewrite (dates_length _ _ _ _ H15); lia.
  - rewrite (dates_length _ _ _ _ H30); lia.
  - rewrite (dates_length _ _ _ _ H1H); lia.
  - rewrite (dates_length _ _ _ _ H2H); lia.
  - rewrite (dates_length _ _ _ _ H4H); lia.
  - rewrite (dates_length _ _ _ _ H1D); lia.
Qed.

(** ** The resampler *)

Lemma lookup_store_same {V} (key : string) (v : V) (d : list (string * V)) :
  lookup key (store key v d) = Some v.
Proof.
  induction d as [|[k v'] d IH]; cbn [store lookup].
  - now rewrite String.eqb_refl.
  - destruct (String.eqb k key) eqn:E; cbn [lookup]; rewrite E;
      [reflexivity | exact IH].
Qed.

Lemma lookup_store_other {V} (key key' : string) (v : V)
    (d : list (string * V)) :
  key <> key' -> lookup key' (store key v d) = lookup key' d.
Proof.
  intro Hk. induction d as [|[k v'] d IH]; cbn [store lookup].
  - destruct (String.eqb_spec key key'); [contradiction | reflexivity].
  - destruct (String.eqb_spec k key) as [-> | Hne]; cbn [lookup].
    + destruct (String.eqb_spec key key'); [contradiction | reflexivity].
    + destruct (String.eqb k key'); [reflexivity | exact IH].
Qed.

(** The dict after [resample_timeframes], as the eleven assignments leave
    it. *)
Lemma resample_timeframes_stores (self : RandomOHLC)
    (df_1min : DataFrame float64) (data : frames) :
  let df_5min := downsampled (Tick 300) df_1min in
  let df_15min := downsampled (Tick 900) df_5min in
  let df_30min := downsampled (Tick 1800) df_15min in
  let df_1H := downsampled (Tick 3600) df_30min in
  let df_2H := downsampled (Tick 7200) df_1H in
  let df_4H := downsampled (Tick 14400) df_2H in
  let df_1D := downsampled (Tick 86400) df_4H in
  let df_3D := downsampled (Days 3) df_1D in
  let df_1W := downsampled Week df_3D in
  let df_1M := downsampled MonthEnd df_1W in
  resample_timeframes self df_1min data
  = Ok (store "1M" (Some df_1M)
       (store "1W" (Some df_1W)
       (store "3D" (Some df_3D)
       (store "1D" (Some df_1D)
       (store "4H" (Some df_4H)
       (store "2H" (Some df_2H)
       (store "1H" (Some df_1H)
       (store "30min" (Some df_30min)
       (store "15min" (Some df_15min)
       (store "5min" (Some df_5min)
       (store "1min" (Some df_1min) data))))))))))).
Proof.
  cbv zeta. unfold resample_timeframes.
  cbn [create_bars_table map fst resample_loop].
  rewrite lookup_store_same.
  rewrite (downsample_parsed "5min" (Tick 300) _ eq_refl).
  rewrite lookup_store_same.
  rewrite (downsample_parsed "15min" (Tick 900) _ eq_refl).
  rewrite lookup_store_same.
  rewrite (downsample_parsed "30min" (Tick 1800) _ eq_refl).
  rewrite lookup_store_same.
  rewrite (downsample_parsed "1H" (Tick 3600) _ eq_refl).
  rewrite lookup_store_same.
  rewrite (downsample_parsed "2H" (Tick 7200) _ eq_refl).
  rewrite lookup_store_same.
  rewrite (downsample_parsed "4H" (Tick 14400) _ eq_refl).
  rewrite lookup_store_same.
  rewrite (downsample_parsed "1D" (Tick 86400) _ eq_refl).
  rewrite lookup_store_same.
  rewrite (downsample_parsed "3D" (Days 3) _ eq_refl).
  rewrite lookup_store_same.
  rewrite (downsample_parsed "1W" Week _ eq_refl).
  rewrite lookup_store_same.
  rewrite (downsample_parsed "1M" MonthEnd _ eq_refl).
  reflexivity.
Qed.

Ltac lookup_stored :=
  repeat (rewrite lookup_store_other by discriminate);
  rewrite lookup_store_same; reflexivity.

(** X15. [resample_timeframes] never raises, whatever the dict held before
    and whatever the object was built with: under each of the eleven
    timeframes it leaves the frame resampled from the new base frame, it
    leaves every other key as it was, and on a dict that has the eleven
    keys (as after [__init__], or after an earlier call) the dict it leaves
    is the same as on the fresh one. *)
Theorem resample_timeframes_refreshes (self : RandomOHLC)
    (df_1min : DataFrame float64) (data : frames) :
  exists out,
    resample_timeframes self df_1min data = Ok out
    /\ (forall tf, In tf timeframes ->
          lookup tf out = lookup tf (resampled_family df_1min))
    /\ (forall tf, ~ In tf timeframes -> lookup tf out = lookup tf data)
    /\ (map fst data = timeframes -> out = resampled_family df_1min).
Proof.
  pose proof (resample_timeframes_stores self df_1min data) as H.
  cbv zeta in H. eexists. split; [exact H|]. split; [|split].
  - intros tf Htf. unfold timeframes in Htf. cbn [In] in Htf.
    unfold resampled_family.
    destruct Htf as [<- | [<- | [<- | [<- | [<- | [<- | [<- | [<- | [<- |
                    [<- | [<- | []]]]]]]]]]]]; lookup_stored.
  - intros tf Htf. unfold timeframes in Htf. cbn [In] in Htf.
    repeat (rewrite lookup_store_other by (intro E; apply Htf; tauto)).
    reflexivity.
  - intro Hk. unfold timeframes in Hk.
    do 11 (destruct data as [|[? ?] data]; [discriminate|];
           cbn [map fst] in Hk; injection Hk as -> Hk).
    destruct data; [|discriminate]. reflexivity.
Qed.

Lemma ceil_to_monotone (w x y : Z) :
  0 < w -> x <= y -> ceil_to w x <= ceil_to w y.
Proof.
  intros Hw Hxy. unfold ceil_to.
  assert (H : - y / w <= - x / w) by (apply Z.div_le_mono; lia).
  nia.
Qed.

Lemma week_end_monotone (d d' : Z) : d <= d' -> week_end d <= week_end d'.
Proof.
  intro H. destruct (week_end_spec d) as [Hd Hm].
  destruct (week_end_spec d') as [Hd' _].
  destruct (Z_le_gt_dec d' (week_end d)).
  - rewrite (week_end_unique d' (week_end d)); [lia | lia | exact Hm].
  - lia.
Qed.

Lemma month_end_before_start (d : Z) : d <= 0 -> month_end d = 30.
Proof. intro H. destruct d; [reflexivity | lia | reflexivity]. Qed.

Lemma month_end_monotone (d d' : Z) : d <= d' -> month_end d <= month_end d'.
Proof.
  intro H.
  assert (Hlow : forall x, 0 <= x -> 30 <= month_end x).
  { intros x Hx. destruct (month_end_spec 0 ltac:(lia)) as [_ H0].
    change (month_end 0) with 30 in H0.
    destruct (Z_le_gt_dec x 30).
    - rewrite (H0 x) by lia. lia.
    - destruct (month_end_spec x Hx) as [Hb _]. lia. }
  destruct (Z_le_gt_dec d 0) as [Hd | Hd].
  - rewrite (month_end_before_start d Hd).
    destruct (Z_le_gt_dec d' 0) as [Hd' | Hd'].
    + rewrite (month_end_before_start d' Hd'). lia.
    + apply Hlow. lia.
  - destruct (month_end_spec d ltac:(lia)) as [Hb Hsame].
    destruct (month_end_spec d' ltac:(lia)) as [Hb' _].
    destruct (Z_le_gt_dec d' (month_end d)).
    + rewrite (Hsame d') by lia. lia.
    + lia.
Qed.

Lemma normalize_ts_monotone (t t' : Z) :
  t <= t' -> normalize_ts t <= normalize_ts t'.
Proof.
  intro H. unfold normalize_ts, floor_to.
  assert (Hd : t / day <= t' / day)
    by (apply Z.div_le_mono; [unfold day; lia | exact H]).
  unfold day in *. lia.
Qed.

Lemma normalize_ts_add_days (t n : Z) :
  normalize_ts (t + n * day) = normalize_ts t + n * day.
Proof.
  unfold normalize_ts, floor_to.
  rewrite Z.div_add by (unfold day; lia). lia.
Qed.

(** A later timestamp never falls into an earlier bin. *)
Lemma bin_label_right_monotone (off : offset) (anchor t t' : Z) :
  0 < bin_width off -> t <= t' ->
  bin_label_right off anchor t <= bin_label_right off anchor t'.
Proof.
  intros Hw Ht. destruct off as [w|n| |]; cbn [bin_label_right bin_width] in *.
  - pose proof (ceil_to_monotone w (t - anchor) (t' - anchor) Hw). lia.
  - pose proof (normalize_ts_monotone t t' Ht) as Hn.
    pose proof (ceil_to_monotone (n * day) (normalize_ts t - anchor)
                  (normalize_ts t' - anchor) Hw). lia.
  - assert (H : t / day <= t' / day)
      by (apply Z.div_le_mono; [unfold day; lia | exact Ht]).
    apply week_end_monotone in H. unfold day in *. lia.
  - assert (H : t / day <= t' / day)
      by (apply Z.div_le_mono; [unfold day; lia | exact Ht]).
    apply month_end_monotone in H. unfold day in *. lia.
Qed.

Lemma nondecreasing_map (L : Z -> Z) (l : list Z) :
  (forall t t', t <= t' -> L t <= L t') ->
  nondecreasing l -> nondecreasing (map L l).
Proof.
  intro HL. induction l as [|x [|y l] IH]; cbn [map nondecreasing]; auto.
  intros [Hxy Hl]. split; [now apply HL | now apply IH].
Qed.

Lemma dedup_adjacent_head (l : list Z) (d : Z) :
  hd d (dedup_adjacent l) = hd d l.
Proof.
  induction l as [|x l IH]; [reflexivity|].
  cbn [dedup_adjacent].
  destruct (dedup_adjacent l) as [|y r] eqn:E; [reflexivity|].
  destruct (Z.eqb_spec x y) as [-> | Hne]; reflexivity.
Qed.

Lemma dedup_adjacent_increasing (l : list Z) :
  nondecreasing l -> increasing (dedup_adjacent l).
Proof.
  induction l as [|x l IH]; [exact (fun H => H)|].
  intro H. cbn [dedup_adjacent].
  assert (Hl : nondecreasing l) by (destruct l; [exact I | apply H]).
  specialize (IH Hl).
  pose proof (dedup_adjacent_head l x) as Hh.
  destruct (dedup_adjacent l) as [|y r] eqn:E; [exact I|].
  cbn [hd] in Hh.
  destruct (Z.eqb_spec x y) as [-> | Hne]; [exact IH|].
  split; [|exact IH].
  destruct l as [|z l]; [discriminate|]. cbn [hd] in Hh. subst z.
  destruct H as [Hxy _]. lia.
Qed.

Lemma increasing_nondecreasing (l : list Z) : increasing l -> nondecreasing l.
Proof.
  induction l as [|x [|y l] IH]; cbn [increasing nondecreasing]; auto.
  intros [Hxy Hl]. split; [lia | now apply IH].
Qed.

(** X16. Resampling puts a frame in strict time order: from timestamps that
    never decrease it makes timestamps that always increase, one row per
    bin, whatever the timeframe (of positive width). *)
Theorem resampling_sorts_the_index (off : offset) (df : DataFrame float64) :
  0 < bin_width off -> nondecreasing (map date df) ->
  increasing (map date (downsampled off df)).
Proof.
  intros Hw Hdf. rewrite downsampled_dates.
  apply dedup_adjacent_increasing.
  apply nondecreasing_map; [|exact Hdf].
  intros t t' Ht. now apply bin_label_right_monotone.
Qed.

Lemma resampling_sorts_the_index_witness :
  increasing
    (map date
       (downsampled Week
          [Candle 0 (Fin 1) (Fin 2) (Fin 1) (Fin 2);
           Candle 0 (Fin 2) (Fin 3) (Fin 1) (Fin 1);
           Candle 86400 (Fin 1) (Fin 5) (Fin 1) (Fin 4);
           Candle 172800 (Fin 4) (Fin 4) (Fin 2) (Fin 3)])).
Proof.
  apply (resampling_sorts_the_index Week); cbn; lia.
Defined.

Lemma stamps_from_increasing (g a : Z) (n : nat) :
  0 < g -> increasing (stamps_from (Tick g) a n).
Proof.
  intro Hg. revert a. induction n as [|n IH]; intro a; [exact I|].
  cbn [stamps_from next_stamp]. specialize (IH (a + g)).
  destruct n as [|n]; [exact I|].
  cbn [stamps_from] in IH |- *. split; [lia | exact IH].
Qed.

Lemma family_forall_widths (P : DataFrame float64 -> Prop)
    (base : DataFrame float64) :
  P base ->
  (forall off d, 0 < bin_width off -> P d -> P (downsampled off d)) ->
  forall tf df, lookup tf (resampled_family base) = Some (Some df) -> P df.
Proof.
  intros Hbase Hstep tf df H. unfold resampled_family in H. cbn [lookup] in H.
  repeat match type of H with
         | (if ?b then _ else _) = _ =>
             destruct b;
             [injection H as <-;
              repeat (apply Hstep; [reflexivity|]); exact Hbase |]
         end.
  discriminate.
Qed.

Lemma ceil_to_add_width (w x : Z) :
  0 < w -> ceil_to w (x + w) = ceil_to w x + w.
Proof.
  intro Hw. destruct (ceil_to_spec w x Hw) as [Hc Hm].
  apply ceil_to_unique; [exact Hw | lia | now apply mod_add_width].
Qed.

Lemma week_end_next (d : Z) : week_end (d + 7) = week_end d + 7.
Proof.
  destruct (week_end_spec d) as [Hd Hm].
  apply week_end_unique; [lia|].
  replace (week_end d + 7 - 1) with (week_end d - 1 + 7) by lia.
  apply mod_add_width; [lia | exact Hm].
Qed.

(** From an edge, the next timestamp of the frequency is the next edge. *)
Lemma next_stamp_edge (off : offset) (anchor t : Z) :
  0 < bin_width off -> bin_label_right off anchor t = t ->
  bin_label_right off anchor (next_stamp off t) = next_stamp off t
  /\ t < next_stamp off t.
Proof.
  intros Hw He.
  destruct off as [w|n| |]; cbn [bin_label_right next_stamp bin_width] in *.
  - split; [|lia].
    replace (t + w - anchor) with (t - anchor + w) by lia.
    rewrite ceil_to_add_width by exact Hw. lia.
  - split; [|lia].
    rewrite normalize_ts_add_days.
    replace (normalize_ts t + n * day - anchor)
      with (normalize_ts t - anchor + n * day) by lia.
    rewrite ceil_to_add_width by exact Hw. lia.
  - split; [|unfold day; lia].
    replace ((t + 7 * day) / day) with (t / day + 7)
      by (rewrite Z.div_add; [reflexivity | unfold day; lia]).
    rewrite week_end_next. lia.
  - assert (Ht : 0 <= t).
    { destruct (Z_le_gt_dec 0 t) as [H | H]; [exact H | exfalso].
      assert (Hd : t / day < 0)
        by (apply Z.div_lt_upper_bound; unfold day; lia).
      rewrite month_end_before_start in He by lia. unfold day in He. lia. }
    assert (Hd : 0 <= t / day) by (apply Z.div_pos; unfold day; lia).
    destruct (month_end_spec (t / day + 1) ltac:(lia)) as [Hb Hsame].
    split.
    + rewrite Z.div_mul by (unfold day; lia).
      rewrite (Hsame (month_end (t / day + 1))) by lia. reflexivity.
    + pose proof (Z.mod_pos_bound t day ltac:(unfold day; lia)) as Hm.
      pose proof (Z.div_mod t day ltac:(unfold day; lia)) as Hq.
      unfold day in *. nia.
Qed.

Lemma stamps_on_edges (off : offset) (anchor : Z) (n : nat) (a : Z) :
  0 < bin_width off -> bin_label_right off anchor a = a ->
  Forall (fun t => bin_label_right off anchor t = t) (stamps_from off a n)
  /\ increasing (stamps_from off a n).
Proof.
  intro Hw. revert a. induction n as [|n IH]; intros a Ha.
  - split; [constructor | exact I].
  - destruct (next_stamp_edge off anchor a Hw Ha) as [Hn Hlt].
    destruct (IH (next_stamp off a) Hn) as [Hall Hinc].
    cbn [stamps_from]. split; [now constructor|].
    destruct n as [|n]; [exact I|].
    cbn [stamps_from] in Hinc |- *. split; [exact Hlt | exact Hinc].
Qed.

Lemma increasing_neighbours_differ {X} (lab : X -> Z) (l : list X) :
  increasing (map lab l) -> neighbours_differ lab l.
Proof.
  induction l as [|x [|y l] IH]; cbn [map increasing neighbours_differ]; auto.
  intros [Hxy Hl]. split; [lia | now apply IH].
Qed.

Lemma agg_first_single (v : float64) : agg_first [v] = v.
Proof. destruct v; reflexivity. Qed.

Lemma agg_last_single (v : float64) : agg_last [v] = v.
Proof. destruct v; reflexivity. Qed.

Lemma agg_max_single (v : float64) : agg_max [v] = v.
Proof. destruct v; reflexivity. Qed.

Lemma agg_min_single (v : float64) : agg_min [v] = v.
Proof. destruct v; reflexivity. Qed.

(** The candle of a bin of one row is the row, under the label of the
    bin. *)
Lemma aggregate_single_row (c : candle float64) :
  aggregate_bin (date c, (c, [])) = c.
Proof.
  unfold aggregate_bin, bin_rows. cbn [fst snd map].
  rewrite agg_first_single, agg_max_single, agg_min_single, agg_last_single.
  destruct c; reflexivity.
Qed.

(** X18. Resampling a frame at the timeframe it is already stamped at
    changes nothing: when the timestamps are consecutive edges of the
    frequency (a [date_range] of it from an edge on), every row is a bin of
    its own and comes back as it is, numbers or not. *)
Theorem resampling_at_own_timeframe_is_identity (off : offset)
    (df : DataFrame float64) (a : Z) (k : nat) :
  0 < bin_width off -> is_edge off a ->
  map date df = stamps_from off a (S k) ->
  downsampled off df = df.
Proof.
  intros Hw Ha Hd. unfold is_edge in Ha.
  assert (Ea : anchor_of (map date df) = normalize_ts a)
    by (rewrite Hd; reflexivity).
  unfold downsampled, downsample_bins. cbv zeta. rewrite Ea.
  destruct (stamps_on_edges off (normalize_ts a) (S k) a Hw Ha)
    as [Hall Hinc].
  rewrite <- Hd in Hall, Hinc.
  assert (Hlab : map (fun c => bin_label_right off (normalize_ts a) (date c)) df
                 = map date df).
  { rewrite Forall_map in Hall. apply map_ext_in. intros c Hc.
    rewrite Forall_forall in Hall. now apply Hall. }
  rewrite group_bins_singletons
    by (apply increasing_neighbours_differ; now rewrite Hlab).
  rewrite map_map. apply map_fixpoint. intros c Hc.
  rewrite Forall_map, Forall_forall in Hall. rewrite (Hall c Hc).
  apply aggregate_single_row.
Qed.

Lemma resampling_at_own_timeframe_is_identity_witness :
  downsampled MonthEnd
    [Candle 2592000 (Fin 1) (Fin 2) (Fin 1) (Fin 2);
     Candle 5097600 NaN NaN NaN NaN;
     Candle 7776000 (Fin 4) (Fin 4) (Fin 2) (Fin 3)]
  = [Candle 2592000 (Fin 1) (Fin 2) (Fin 1) (Fin 2);
     Candle 5097600 NaN NaN NaN NaN;
     Candle 7776000 (Fin 4) (Fin 4) (Fin 2) (Fin 3)].
Proof.
  apply (resampling_at_own_timeframe_is_identity MonthEnd _ 2592000 2).
  - reflexivity.
  - reflexivity.
  - reflexivity.
Defined.

(** *** Aggregates of aggregates *)

Lemma fmax2_assoc (a b c : float64) :
  is_nan a = false -> is_nan b = false -> is_nan c = false ->
  fmax2 (fmax2 a b) c = fmax2 a (fmax2 b c).
Proof.
  intros Ha Hb Hc. unfold fmax2.
  destruct (fle a b) eqn:Eab; destruct (fle b c) eqn:Ebc;
    rewrite ?Eab, ?Ebc; try reflexivity.
  - now rewrite (fle_trans a b c Eab Ebc).
  - destruct (fle a c) eqn:Eac; [|reflexivity].
    destruct (fle_total a b Ha Hb) as [E | E]; [congruence|].
    pose proof (fle_trans b a c E Eac). congruence.
Qed.

Lemma fmin2_assoc (a b c : float64) :
  is_nan a = false -> is_nan b = false -> is_nan c = false ->
  fmin2 (fmin2 a b) c = fmin2 a (fmin2 b c).
Proof.
  intros Ha Hb Hc. unfold fmin2.
  destruct (fle a b) eqn:Eab; destruct (fle b c) eqn:Ebc;
    rewrite ?Eab, ?Ebc; try reflexivity.
  - now rewrite (fle_trans a b c Eab Ebc).
  - destruct (fle a c) eqn:Eac; [|reflexivity].
    destruct (fle_total b c Hb Hc) as [E | E]; [congruence|].
    pose proof (fle_trans a c b Eac E). congruence.
Qed.

Section Folds.

Variable f : float64 -> float64 -> float64.
Hypothesis f_number :
  forall x y, is_nan x = false -> is_nan y = false -> is_nan (f x y) = false.
Hypothesis f_assoc :
  forall a b c, is_nan a = false -> is_nan b = false -> is_nan c = false ->
                f (f a b) c = f a (f b c).

Lemma fold_number (l : list float64) (v : float64) :
  is_nan v = false -> Forall (fun x => is_nan x = false) l ->
  is_nan (fold_left f l v) = false.
Proof.
  revert v. induction l as [|x l IH]; intros v Hv Hl; [exact Hv|].
  inversion Hl; subst. cbn [fold_left]. apply IH; [now apply f_number|].
  assumption.
Qed.

Lemma fold_shift (l : list float64) (a y : float64) :
  is_nan a = false -> is_nan y = false ->
  Forall (fun x => is_nan x = false) l ->
  fold_left f l (f a y) = f a (fold_left f l y).
Proof.
  revert y. induction l as [|z l IH]; intros y Ha Hy Hl; [reflexivity|].
  inversion Hl; subst. cbn [fold_left].
  rewrite f_assoc by assumption. apply IH; [exact Ha| |assumption].
  now apply f_number.
Qed.

(** Folding over the rows of the bins, column [col], is folding over the
    folds of the bins. *)
Lemma fold_bins {X} (col : X -> float64) (bs : list (Z * (X * list X)))
    (v : float64) :
  is_nan v = false ->
  (forall b r, In b bs -> In r (bin_rows b) -> is_nan (col r) = false) ->
  fold_left f (map col (List.concat (map bin_rows bs))) v
  = fold_left f
      (map (fun b => fold_left f (map col (snd (snd b))) (col (fst (snd b))))
           bs) v.
Proof.
  revert v. induction bs as [|[t [x g]] bs IH]; intros v Hv Hrows;
    [reflexivity|].
  cbn [map List.concat bin_rows fst snd].
  assert (Hx : is_nan (col x) = false)
    by (apply (Hrows (t, (x, g))); [now left | now left]).
  assert (Hg : Forall (fun y => is_nan y = false) (map col g)).
  { apply Forall_map, Forall_forall. intros r Hr.
    apply (Hrows (t, (x, g))); [now left | now right]. }
  rewrite map_app, fold_left_app.
  change (bin_rows (t, (x, g))) with (x :: g). cbn [map fold_left].
  rewrite (fold_shift (map col g) v (col x)) by assumption.
  apply IH.
  - apply f_number; [exact Hv | now apply fold_number].
  - intros b r Hb Hr. apply (Hrows b r); [now right | exact Hr].
Qed.

End Folds.

Lemma fmax2_is_number (x y : float64) :
  is_nan x = false -> is_nan y = false -> is_nan (fmax2 x y) = false.
Proof. intros Hx Hy. apply (fmax2_number x y Hx Hy). Qed.

Lemma fmin2_is_number (x y : float64) :
  is_nan x = false -> is_nan y = false -> is_nan (fmin2 x y) = false.
Proof. intros Hx Hy. apply (fmin2_number x y Hx Hy). Qed.

Lemma column_numbers (col : candle float64 -> float64)
    (rows : list (candle float64)) :
  (forall c, no_nan c -> is_nan (col c) = false) ->
  Forall no_nan rows -> Forall (fun x => is_nan x = false) (map col rows).
Proof.
  intros Hcol H. apply Forall_map. eapply Forall_impl; [|exact H]. exact Hcol.
Qed.

(** The candle of a bin of numbers, cell by cell. *)
Lemma aggregate_bin_numbers (t : Z) (x : candle float64)
    (g : list (candle float64)) :
  Forall no_nan (x :: g) ->
  aggregate_bin (t, (x, g))
  = Candle t (open x) (fold_left fmax2 (map high g) (high x))
           (fold_left fmin2 (map low g) (low x)) (close (last g x)).
Proof.
  intro H. unfold aggregate_bin, bin_rows. cbn [fst snd map].
  assert (Ho := column_numbers open (x :: g) (fun c Hc => proj1 Hc) H).
  assert (Hh := column_numbers high (x :: g)
                  (fun c Hc => proj1 (proj2 Hc)) H).
  assert (Hl := column_numbers low (x :: g)
                  (fun c Hc => proj1 (proj2 (proj2 Hc))) H).
  assert (Hc := column_numbers close (x :: g)
                  (fun c Hc => proj2 (proj2 (proj2 Hc))) H).
  cbn [map] in Ho, Hh, Hl, Hc.
  unfold agg_first, agg_last, agg_max, agg_min.
  rewrite (filter_notnan_id _ Ho), (filter_notnan_id _ Hh),
    (filter_notnan_id _ Hl), (filter_notnan_id _ Hc).
  cbn [hd]. rewrite last_cons, (last_map close). reflexivity.
Qed.

Lemma aggregate_bin_no_nan (b : Z * (candle float64 * list (candle float64))) :
  Forall no_nan (bin_rows b) -> no_nan (aggregate_bin b).
Proof.
  destruct b as [t [x g]]. unfold bin_rows. cbn [fst snd]. intro H.
  rewrite (aggregate_bin_numbers t x g H).
  inversion H as [|? ? Hx Hg]; subst.
  unfold no_nan. cbn [open high low close].
  split; [apply Hx|]. split; [|split].
  - apply (fold_number fmax2 fmax2_is_number); [apply Hx|].
    apply (column_numbers high g (fun c Hc => proj1 (proj2 Hc)) Hg).
  - apply (fold_number fmin2 fmin2_is_number); [apply Hx|].
    apply (column_numbers low g (fun c Hc => proj1 (proj2 (proj2 Hc))) Hg).
  - assert (Hin : In (last g x) (x :: g)) by apply last_in.
    rewrite Forall_forall in H. apply (H _ Hin).
Qed.

Lemma last_app_cons {X} (g l : list X) (y d : X) :
  last (g ++ y :: l) d = last l y.
Proof.
  revert d. induction g as [|a g IH]; intro d.
  - apply last_cons.
  - change ((a :: g) ++ y :: l) with (a :: (g ++ y :: l)).
    rewrite last_cons. apply IH.
Qed.

Lemma last_concat_bins {X} (bs : list (Z * (X * list X))) (g : list X)
    (x : X) (t : Z) :
  last (g ++ List.concat (map bin_rows bs)) x
  = (fun b => last (snd (snd b)) (fst (snd b))) (last bs (t, (x, g))).
Proof.
  revert t x g. induction bs as [|[t' [y g']] bs IH]; intros t x g.
  - cbn. now rewrite app_nil_r.
  - rewrite last_cons, <- (IH t' y g').
    cbn [map List.concat].
    change (bin_rows (t', (y, g'))) with (y :: g').
    change ((y :: g') ++ List.concat (map bin_rows bs))
      with (y :: (g' ++ List.concat (map bin_rows bs))).
    apply last_app_cons.
Qed.

(** The candle of candles is the candle of all their rows: first of the
    firsts, max of the maxima, min of the minima, last of the lasts. *)
Lemma aggregate_of_aggregates (t : Z)
    (b0 : Z * (candle float64 * list (candle float64)))
    (bs : list (Z * (candle float64 * list (candle float64)))) :
  (forall b, In b (b0 :: bs) -> Forall no_nan (bin_rows b)) ->
  aggregate_bin (t, (aggregate_bin b0, map aggregate_bin bs))
  = aggregate_bin
      (t, (fst (snd b0), snd (snd b0) ++ List.concat (map bin_rows bs))).
Proof.
  intro Hrows.
  assert (Hagg : Forall no_nan (aggregate_bin b0 :: map aggregate_bin bs)).
  { change (Forall no_nan (map aggregate_bin (b0 :: bs))).
    apply Forall_map, Forall_forall. intros b Hb.
    apply aggregate_bin_no_nan, Hrows, Hb. }
  assert (Hcell : forall b, In b (b0 :: bs) ->
            aggregate_bin b
            = Candle (fst b) (open (fst (snd b)))
                (fold_left fmax2 (map high (snd (snd b))) (high (fst (snd b))))
                (fold_left fmin2 (map low (snd (snd b))) (low (fst (snd b))))
                (close (last (snd (snd b)) (fst (snd b))))).
  { intros [tb [xb gb]] Hb. apply aggregate_bin_numbers. apply (Hrows _ Hb). }
  assert (Hall : Forall no_nan
                   (fst (snd b0)
                    :: snd (snd b0) ++ List.concat (map bin_rows bs))).
  { change (Forall no_nan (List.concat (map bin_rows (b0 :: bs)))).
    apply Forall_concat, Forall_map, Forall_forall. exact Hrows. }
  assert (Hcol : forall (col : candle float64 -> float64) b r,
            (forall c, no_nan c -> is_nan (col c) = false) ->
            In b bs -> In r (bin_rows b) -> is_nan (col r) = false).
  { intros col b r Hc Hb Hr. apply Hc.
    pose proof (Hrows b (or_intror Hb)) as H.
    rewrite Forall_forall in H. now apply H. }
  rewrite (aggregate_bin_numbers t _ _ Hagg).
  rewrite (aggregate_bin_numbers t _ _ Hall).
  pose proof (Hcell b0 (or_introl eq_refl)) as E0.
  destruct b0 as [t0 [x g]]. cbn [fst snd] in *.
  inversion Hall as [|? ? Hx _]; subst.
  assert (Hg : Forall no_nan g).
  { pose proof (Hrows (t0, (x, g)) (or_introl eq_refl)) as H.
    now inversion H. }
  f_equal.
  - now rewrite E0.
  - rewrite map_app, fold_left_app.
    rewrite (fold_bins fmax2 fmax2_is_number fmax2_assoc high bs).
    + rewrite map_map. rewrite E0 at 1. cbn [high]. f_equal.
      apply map_ext_in. intros b Hb. now rewrite (Hcell b (or_intror Hb)).
    + apply (fold_number fmax2 fmax2_is_number); [apply Hx|].
      apply (column_numbers high g (fun c Hc => proj1 (proj2 Hc)) Hg).
    + intros b r. apply Hcol. intros c Hc. apply Hc.
  - rewrite map_app, fold_left_app.
    rewrite (fold_bins fmin2 fmin2_is_number fmin2_assoc low bs).
    + rewrite map_map. rewrite E0 at 1. cbn [low]. f_equal.
      apply map_ext_in. intros b Hb. now rewrite (Hcell b (or_intror Hb)).
    + apply (fold_number fmin2 fmin2_is_number); [apply Hx|].
      apply (column_numbers low g
               (fun c Hc => proj1 (proj2 (proj2 Hc))) Hg).
    + intros b r. apply Hcol. intros c Hc. apply Hc.
  - rewrite (last_map aggregate_bin).
    rewrite (Hcell _ (last_in bs (t0, (x, g)))). cbn [close].
    now rewrite (last_concat_bins bs g x t0).
Qed.

(** The bins of a list are the only way to cut it into runs of one label
    whose neighbours differ. *)
Lemma group_bins_run {X} (lab : X -> Z) (t : Z) (g R : list X) (x : X) :
  lab x = t -> Forall (fun r => lab r = t) g ->
  match group_bins lab R with
  | [] => True
  | b :: _ => fst b <> t
  end ->
  group_bins lab (x :: g ++ R) = (t, (x, g)) :: group_bins lab R.
Proof.
  revert x. induction g as [|y g IH]; intros x Hx Hg Hnext.
  - cbn [app group_bins].
    destruct (group_bins lab R) as [|[b [z h]] bins]; [now rewrite Hx|].
    cbn [fst] in Hnext. rewrite Hx.
    destruct (Z.eqb_spec t b); [congruence | reflexivity].
  - pose proof (Forall_inv Hg) as Hy. pose proof (Forall_inv_tail Hg) as Hg'.
    change (group_bins lab (x :: (y :: g) ++ R))
      with (match group_bins lab (y :: g ++ R) with
            | (b, (z, h)) :: bins =>
                if lab x =? b then (b, (x, z :: h)) :: bins
                else (lab x, (x, [])) :: (b, (z, h)) :: bins
            | [] => [(lab x, (x, []))]
            end).
    rewrite (IH y Hy Hg' Hnext), Hx, Z.eqb_refl. reflexivity.
Qed.

Lemma group_bins_unique {X} (lab : X -> Z) (bins : list (Z * (X * list X))) :
  (forall b r, In b bins -> In r (bin_rows b) -> lab r = fst b) ->
  neighbours_differ fst bins ->
  group_bins lab (List.concat (map bin_rows bins)) = bins.
Proof.
  induction bins as [|[t [x g]] bins IH]; intros Hlab Hdiff; [reflexivity|].
  cbn [map List.concat]. change (bin_rows (t, (x, g))) with (x :: g).
  change ((x :: g) ++ List.concat (map bin_rows bins))
    with (x :: g ++ List.concat (map bin_rows bins)).
  assert (Hrest : group_bins lab (List.concat (map bin_rows bins)) = bins).
  { apply IH.
    - intros b r Hb. apply Hlab. now right.
    - destruct bins; [exact I | apply Hdiff]. }
  rewrite group_bins_run with (t := t).
  - now rewrite Hrest.
  - apply (Hlab (t, (x, g)) x); now left.
  - apply Forall_forall. intros r Hr.
    apply (Hlab (t, (x, g)) r); [now left | now right].
  - rewrite Hrest. destruct bins as [|b bins]; [exact I|].
    destruct Hdiff as [Hd _]. cbn [fst] in Hd. congruence.
Qed.

Lemma group_bins_map {X Y} (f : X -> Y) (lab : Y -> Z) (l : list X) :
  group_bins lab (map f l)
  = map (fun b => (fst b, (f (fst (snd b)), map f (snd (snd b)))))
        (group_bins (fun x => lab (f x)) l).
Proof.
  induction l as [|x l IH]; [reflexivity|].
  cbn [map group_bins]. rewrite IH.
  destruct (group_bins (fun x => lab (f x)) l) as [|[b [y g]] bins];
    [reflexivity|].
  cbn [map fst snd]. destruct (lab (f x) =? b); reflexivity.
Qed.

Lemma concat_bins_of_bins {X}
    (bbs : list (Z * ((Z * (X * list X)) * list (Z * (X * list X))))) :
  List.concat (map (fun bb => List.concat (map bin_rows (bin_rows bb))) bbs)
  = List.concat (map bin_rows (List.concat (map bin_rows bbs))).
Proof.
  induction bbs as [|bb bbs IH]; [reflexivity|].
  cbn [map List.concat]. now rewrite map_app, concat_app, IH.
Qed.

(** Resampling in two steps, when every bin of the first step lies in one
    bin of the second: the result is that of the second step alone. *)
Lemma resample_in_two_steps (L1 L2 L2' : Z -> Z) (df : DataFrame float64) :
  Forall no_nan df ->
  (forall c, In c df -> L2' (L1 (date c)) = L2 (date c)) ->
  map aggregate_bin
      (group_bins (fun c => L2' (date c))
         (map aggregate_bin (group_bins (fun c => L1 (date c)) df)))
  = map aggregate_bin (group_bins (fun c => L2 (date c)) df).
Proof.
  intros Hnum Hnest.
  set (G1 := group_bins (fun c => L1 (date c)) df).
  rewrite (group_bins_map aggregate_bin (fun c => L2' (date c)) G1).
  set (GG := group_bins (fun b => L2' (date (aggregate_bin b))) G1).
  set (flat := fun bb : Z * ((Z * (candle float64 * list (candle float64)))
                             * list (Z * (candle float64
                                          * list (candle float64)))) =>
                 (fst bb,
                  (fst (snd (fst (snd bb))),
                   snd (snd (fst (snd bb)))
                   ++ List.concat (map bin_rows (snd (snd bb)))))).
  assert (HG1 : forall b r, In b G1 -> In r (bin_rows b) ->
                            In r df /\ L1 (date r) = fst b).
  { intros b r Hb Hr. split; [exact (in_bin_rows _ _ _ _ Hb Hr)|].
    pose proof (group_bins_labels (fun c => L1 (date c)) df) as H.
    rewrite Forall_forall in H. exact (H b Hb r Hr). }
  assert (HGG : forall bb b, In bb GG -> In b (bin_rows bb) ->
                             In b G1 /\ L2' (fst b) = fst bb).
  { intros bb b Hbb Hb. split; [exact (in_bin_rows _ _ _ _ Hbb Hb)|].
    pose proof (group_bins_labels
                  (fun b => L2' (date (aggregate_bin b))) G1) as H.
    rewrite Forall_forall in H. exact (H bb Hbb b Hb). }
  assert (Hflat_rows : forall bb,
            bin_rows (flat bb) = List.concat (map bin_rows (bin_rows bb))).
  { intros [t [[t0 [x g]] bs]]. reflexivity. }
  transitivity (map aggregate_bin (map flat GG)).
  - rewrite !map_map. apply map_ext_in. intros bb Hbb.
    cbn [fst snd].
    apply (aggregate_of_aggregates (fst bb) (fst (snd bb)) (snd (snd bb))).
    intros b Hb. apply Forall_forall. intros r Hr.
    rewrite Forall_forall in Hnum. apply Hnum.
    destruct (HGG bb b Hbb Hb) as [Hb1 _].
    exact (proj1 (HG1 b r Hb1 Hr)).
  - f_equal.
    rewrite <- (group_bins_unique (fun c => L2 (date c)) (map flat GG)).
    + f_equal. rewrite map_map.
      rewrite (map_ext _ _ Hflat_rows), concat_bins_of_bins.
      unfold GG. rewrite group_bins_concat.
      unfold G1. now rewrite group_bins_concat.
    + intros fb r Hfb Hr. apply in_map_iff in Hfb.
      destruct Hfb as (bb & <- & Hbb).
      rewrite Hflat_rows in Hr. apply in_concat in Hr.
      destruct Hr as (rows & Hrows & Hr). apply in_map_iff in Hrows.
      destruct Hrows as (b & <- & Hb).
      destruct (HGG bb b Hbb Hb) as [Hb1 Hl2].
      destruct (HG1 b r Hb1 Hr) as [Hdf Hl1].
      cbn [fst]. rewrite <- (Hnest r Hdf), Hl1. exact Hl2.
    + apply neighbours_differ_map.
      exact (group_bins_neighbours _ G1).
Qed.

(** X19. The first open, the highest high, the lowest low and the last
    close of a frame of numbers survive any resampling: on a frame whose
    rows are in time order and leave no bin of the frequency empty, the
    resampled frame has the same four. *)
Theorem resampling_keeps_the_whole_candle (off : offset)
    (df : DataFrame float64) :
  gap_free off (map date df) -> Forall no_nan df ->
  agg_first (map open (downsampled off df)) = agg_first (map open df)
  /\ agg_max (map high (downsampled off df)) = agg_max (map high df)
  /\ agg_min (map low (downsampled off df)) = agg_min (map low df)
  /\ agg_last (map close (downsampled off df)) = agg_last (map close df).
Proof.
  intros _ Hnum. unfold downsampled, downsample_bins.
  set (lab := fun c => bin_label_right off (anchor_of (map date df)) (date c)).
  pose proof (group_bins_concat lab df) as Hcat.
  assert (Hrows : forall b, In b (group_bins lab df) ->
                            Forall no_nan (bin_rows b)).
  { intros b Hb. apply Forall_forall. intros r Hr.
    rewrite Forall_forall in Hnum.
    exact (Hnum r (in_bin_rows lab df b r Hb Hr)). }
  destruct (group_bins lab df) as [|[t0 [x g]] bs].
  - cbn in Hcat. subst df. repeat split; reflexivity.
  - pose proof (aggregate_of_aggregates 0 (t0, (x, g)) bs Hrows) as H.
    cbn [fst snd] in H.
    cbn [map List.concat] in Hcat.
    change (bin_rows (t0, (x, g))
            ++ List.concat (map bin_rows bs))
      with (x :: g ++ List.concat (map bin_rows bs)) in Hcat.
    rewrite <- Hcat.
    split; [exact (f_equal open H)|].
    split; [exact (f_equal high H)|].
    split; [exact (f_equal low H) | exact (f_equal close H)].
Qed.

Lemma resampling_keeps_the_whole_candle_witness :
  let df := [Candle 0 (Fin 1) (Fin 2) (Fin 1) (Fin 2);
             Candle 60 (Fin 2) (Fin 7) (Fin 2) (Fin 3);
             Candle 120 (Fin 3) (Fin 3) (Fin (1 # 2)) (Fin 1);
             Candle 360 (Fin 1) (Fin 4) (Fin 1) (Fin 4)] in
  agg_first (map open (downsampled (Tick 300) df)) = agg_first (map open df)
  /\ agg_max (map high (downsampled (Tick 300) df)) = agg_max (map high df)
  /\ agg_min (map low (downsampled (Tick 300) df)) = agg_min (map low df)
  /\ agg_last (map close (downsampled (Tick 300) df))
     = agg_last (map close df).
Proof.
  apply (resampling_keeps_the_whole_candle (Tick 300)).
  - split; [cbn; repeat split; lia|].
    split; [repeat (constructor; [cbn; lia|]); constructor | exact I].
  - repeat constructor.
Defined.

(** *** Steps of the ladder, and the base frame *)

Lemma group_bins_ext {X} (lab lab' : X -> Z) (l : list X) :
  (forall x, lab x = lab' x) -> group_bins lab l = group_bins lab' l.
Proof.
  intro H. induction l as [|x l IH]; [reflexivity|].
  cbn [group_bins]. now rewrite IH, H.
Qed.

Lemma ceil_anchor_free (w a t : Z) :
  0 < w -> a mod w = 0 -> a + ceil_to w (t - a) = ceil_to w t.
Proof.
  intros Hw Ha. symmetry.
  destruct (ceil_to_spec w (t - a) Hw) as [Hc Hm].
  apply ceil_to_unique; [exact Hw | lia |].
  rewrite Z.add_mod, Ha, Hm by lia. reflexivity.
Qed.

Lemma anchor_of_on_grid (w : Z) (stamps : list Z) :
  0 < w -> day mod w = 0 -> anchor_of stamps mod w = 0.
Proof.
  intros Hw Hd. destruct stamps as [|t stamps]; [now apply Z.mod_0_l; lia|].
  cbn [anchor_of]. unfold normalize_ts, floor_to.
  apply Z.mod_divide in Hd; [|lia]. destruct Hd as [q Hq].
  rewrite Hq, Z.mul_assoc. apply Z.mod_mul. lia.
Qed.

(** The bins of a width that divides the day do not depend on the frame
    they are cut from. *)
Lemma tick_bins_anchor_free (w : Z) (df : DataFrame float64) :
  0 < w -> day mod w = 0 ->
  downsampled (Tick w) df
  = map aggregate_bin (group_bins (fun c => ceil_to w (date c)) df).
Proof.
  intros Hw Hd. unfold downsampled, downsample_bins. f_equal.
  apply group_bins_ext. intro c. cbn [bin_label_right].
  apply ceil_anchor_free; [exact Hw | now apply anchor_of_on_grid].
Qed.

Lemma ceil_nested (w1 w2 t : Z) :
  0 < w1 -> 0 < w2 -> w2 mod w1 = 0 ->
  ceil_to w2 (ceil_to w1 t) = ceil_to w2 t.
Proof.
  intros H1 H2 Hdiv.
  destruct (ceil_to_spec w1 t H1) as [Hc1 Hm1].
  destruct (ceil_to_spec w2 t H2) as [Hc2 Hm2].
  apply ceil_to_unique; [exact H2 | | exact Hm2].
  apply Z.mod_divide in Hdiv; [|lia]. destruct Hdiv as [k Hk].
  apply Z.mod_divide in Hm1; [|lia]. destruct Hm1 as [p Hp].
  apply Z.mod_divide in Hm2; [|lia]. destruct Hm2 as [q Hq].
  split; [|lia].
  destruct (Z_le_gt_dec (ceil_to w1 t) (ceil_to w2 t)) as [H | H];
    [exact H | exfalso].
  assert (q * k < p) by nia. nia.
Qed.

Lemma day_divisor (w1 w2 : Z) :
  0 < w1 -> 0 < w2 -> w2 mod w1 = 0 -> day mod w2 = 0 -> day mod w1 = 0.
Proof.
  intros H1 H2 H21 Hd.
  apply Z.mod_divide in H21; [|lia]. apply Z.mod_divide in Hd; [|lia].
  apply Z.mod_divide; [lia|]. now apply (Z.divide_trans w1 w2 day).
Qed.

(** X20. Resampling composes: for two widths of which the first divides the
    second and the second divides the day, resampling a frame of numbers at
    the first and then at the second gives the frame that resampling at the
    second alone gives, when the rows of the frame are in time order and
    leave no bin of the first width empty. *)
Theorem resampling_composes (w1 w2 : Z) (df : DataFrame float64) :
  0 < w1 -> 0 < w2 -> w2 mod w1 = 0 -> day mod w2 = 0 ->
  gap_free (Tick w1) (map date df) -> Forall no_nan df ->
  downsampled (Tick w2) (downsampled (Tick w1) df) = downsampled (Tick w2) df.
Proof.
  intros H1 H2 H21 Hd _ Hnum.
  pose proof (day_divisor w1 w2 H1 H2 H21 Hd) as Hd1.
  rewrite (tick_bins_anchor_free w2 (downsampled (Tick w1) df) H2 Hd).
  rewrite (tick_bins_anchor_free w1 df H1 Hd1).
  rewrite (tick_bins_anchor_free w2 df H2 Hd).
  apply (resample_in_two_steps (ceil_to w1) (ceil_to w2) (ceil_to w2) df Hnum).
  intros c _. now apply ceil_nested.
Qed.

Lemma resampling_composes_witness :
  let df := [Candle 0 (Fin 1) (Fin 2) (Fin 1) (Fin 2);
             Candle 60 (Fin 2) (Fin 7) (Fin 2) (Fin 3);
             Candle 360 (Fin 3) (Fin 3) (Fin (1 # 2)) (Fin 1);
             Candle 600 (Fin 1) (Fin 4) (Fin 1) (Fin 4)] in
  downsampled (Tick 900) (downsampled (Tick 300) df)
  = downsampled (Tick 900) df.
Proof.
  apply (resampling_composes 300 900); try reflexivity; try lia.
  - split; [cbn; repeat split; lia|].
    split; [repeat (constructor; [cbn; lia|]); constructor | exact I].
  - repeat constructor.
Defined.

(** X21. From "5min" to "1D", chaining each timeframe on the one before it,
    as [resample_timeframes] does, gives the Series that resampling the base
    frame directly at that timeframe gives, when the base frame holds
    numbers, in time order, no two rows more than five minutes apart. *)
Theorem ladder_is_direct_resampling (base : DataFrame float64)
    (tf : string) (w : Z) :
  gap_free (Tick 300) (map date base) -> Forall no_nan base ->
  In (tf, w)
     [ ("5min", 300); ("15min", 900); ("30min", 1800); ("1H", 3600);
       ("2H", 7200); ("4H", 14400); ("1D", 86400) ]%string ->
  lookup tf (resampled_family base) = Some (Some (downsampled (Tick w) base)).
Proof.
  intros _ Hnum Hin.
  assert (Hstep : forall w1 w2, 0 < w1 -> 0 < w2 -> w2 mod w1 = 0 ->
            day mod w2 = 0 ->
            downsampled (Tick w2) (downsampled (Tick w1) base)
            = downsampled (Tick w2) base).
  { intros w1 w2 H1 H2 H21 Hd.
    pose proof (day_divisor w1 w2 H1 H2 H21 Hd) as Hd1.
    rewrite (tick_bins_anchor_free w2 (downsampled (Tick w1) base) H2 Hd).
    rewrite (tick_bins_anchor_free w1 base H1 Hd1).
    rewrite (tick_bins_anchor_free w2 base H2 Hd).
    apply (resample_in_two_steps (ceil_to w1) (ceil_to w2) (ceil_to w2)
             base Hnum).
    intros c _. now apply ceil_nested. }
  assert (E15 := Hstep 300 900 eq_refl eq_refl eq_refl eq_refl).
  assert (E30 := Hstep 900 1800 eq_refl eq_refl eq_refl eq_refl).
  assert (E1H := Hstep 1800 3600 eq_refl eq_refl eq_refl eq_refl).
  assert (E2H := Hstep 3600 7200 eq_refl eq_refl eq_refl eq_refl).
  assert (E4H := Hstep 7200 14400 eq_refl eq_refl eq_refl eq_refl).
  assert (E1D := Hstep 14400 86400 eq_refl eq_refl eq_refl eq_refl).
  unfold resampled_family. cbv zeta. cbn [In] in Hin.
  destruct Hin as [E | [E | [E | [E | [E | [E | [E | []]]]]]]];
    injection E as <- <-;
    match goal with
    | |- lookup ?k ?l = _ =>
        let v := eval cbn [lookup String.eqb Ascii.eqb Bool.eqb] in (lookup k l)
        in change (lookup k l) with v
    end;
    rewrite ?E15, ?E30, ?E1H, ?E2H, ?E4H, ?E1D; reflexivity.
Qed.

Lemma ladder_is_direct_resampling_witness :
  let base := [Candle 0 (Fin 1) (Fin 2) (Fin 1) (Fin 2);
               Candle 60 (Fin 2) (Fin 7) (Fin 2) (Fin 3);
               Candle 360 (Fin 3) (Fin 3) (Fin (1 # 2)) (Fin 1);
               Candle 600 (Fin 1) (Fin 4) (Fin 1) (Fin 4)] in
  lookup "1H" (resampled_family base)
  = Some (Some (downsampled (Tick 3600) base)).
Proof.
  apply ladder_is_direct_resampling.
  - split; [cbn; repeat split; lia|].
    split; [repeat (constructor; [cbn; lia|]); constructor | exact I].
  - repeat constructor.
  - cbn. tauto.
Defined.

(** ** The halves *)

(** What [create_half_dataframes] returns, when it returns. *)
Lemma create_half_dataframes_inv (dataframes : frames)
    (exclusions : list string) (halves : list (string * DataFrame float64)) :
  create_half_dataframes dataframes exclusions = Ok halves ->
  map fst halves
  = filter (fun tf => negb (excluded tf exclusions)) (map fst dataframes)
  /\ (forall tf, excluded tf exclusions = true -> lookup tf halves = None)
  /\ (forall tf df, excluded tf exclusions = false ->
        lookup tf dataframes = Some (Some df) ->
        lookup tf halves = Some (firstn (List.length df / 2)%nat df)).
Proof.
  revert halves. induction dataframes as [|[k v] d IH]; intros halves H.
  - injection H as <-. split; [reflexivity|]. split; [reflexivity|].
    intros tf df _ Hlk. discriminate Hlk.
  - cbn [create_half_dataframes] in H. cbn [map fst filter].
    destruct (excluded k exclusions) eqn:Ek; cbn [negb].
    + destruct (IH halves H) as (Hk & Hx & Hl).
      split; [exact Hk|]. split; [exact Hx|].
      intros tf df Htf Hlk. apply Hl; [exact Htf|].
      cbn [lookup] in Hlk.
      destruct (String.eqb_spec k tf) as [-> | _]; [congruence | exact Hlk].
    + destruct v as [df0|]; [|discriminate].
      destruct (create_half_dataframes d exclusions) as [hs|e] eqn:Ed;
        [|discriminate].
      injection H as <-.
      destruct (IH hs eq_refl) as (Hk & Hx & Hl).
      split; [cbn [map fst]; now rewrite Hk|]. split.
      * intros tf Htf. cbn [lookup].
        destruct (String.eqb_spec k tf) as [-> | _]; [congruence|].
        now apply Hx.
      * intros tf df Htf Hlk. cbn [lookup] in Hlk |- *.
        destruct (String.eqb k tf); [now injection Hlk as -> | now apply Hl].
Qed.

Lemma create_half_dataframes_raises (dataframes : frames)
    (exclusions : list string) (e : exn) :
  create_half_dataframes dataframes exclusions = Raise e ->
  e = AttributeError
  /\ exists tf, In (tf, None) dataframes /\ excluded tf exclusions = false.
Proof.
  induction dataframes as [|[k v] d IH]; intro H; [discriminate|].
  cbn [create_half_dataframes] in H.
  destruct (excluded k exclusions) eqn:Ek.
  - destruct (IH H) as (He & tf & Hin & Hex).
    split; [exact He|]. exists tf. split; [now right | exact Hex].
  - destruct v as [df0|].
    + destruct (create_half_dataframes d exclusions) as [hs|e'] eqn:Ed;
        [discriminate|].
      injection H as ->. destruct (IH eq_refl) as (He & tf & Hin & Hex).
      split; [exact He|]. exists tf. split; [now right | exact Hex].
    + injection H as <-. split; [reflexivity|].
      exists k. split; [now left | exact Ek].
Qed.

Lemma create_half_dataframes_ok (dataframes : frames)
    (exclusions : list string) :
  (forall tf, ~ In (tf, None) dataframes) ->
  exists halves, create_half_dataframes dataframes exclusions = Ok halves.
Proof.
  intro H.
  destruct (create_half_dataframes dataframes exclusions) as [hs|e] eqn:E.
  - now exists hs.
  - apply create_half_dataframes_raises in E.
    destruct E as (_ & tf & Hin & _). destruct (H tf Hin).
Qed.

(** X22. [create_half_dataframes] keeps the timeframes that are not
    excluded, in the order of the dict, and gives each the first
    [len(df) // 2] rows of its frame, a prefix of it; it raises only an
    [AttributeError], and only when a timeframe that is not excluded still
    holds [None]. *)
Theorem half_dataframes_are_prefixes (dataframes : frames)
    (exclusions : list string) :
  match create_half_dataframes dataframes exclusions with
  | Ok halves =>
      map fst halves
      = filter (fun tf => negb (excluded tf exclusions)) (map fst dataframes)
      /\ (forall tf, excluded tf exclusions = true -> lookup tf halves = None)
      /\ (forall tf df, excluded tf exclusions = false ->
            lookup tf dataframes = Some (Some df) ->
            exists half rest,
              lookup tf halves = Some half /\ df = half ++ rest
              /\ List.length half = (List.length df / 2)%nat)
  | Raise e =>
      e = AttributeError
      /\ exists tf, In (tf, None) dataframes /\ excluded tf exclusions = false
  end.
Proof.
  destruct (create_half_dataframes dataframes exclusions) as [halves|e] eqn:E.
  - destruct (create_half_dataframes_inv _ _ _ E) as (Hk & Hx & Hl).
    split; [exact Hk|]. split; [exact Hx|].
    intros tf df Htf Hlk.
    exists (firstn (List.length df / 2)%nat df),
           (skipn (List.length df / 2)%nat df).
    split; [now apply Hl|].
    split; [now rewrite firstn_skipn|].
    apply firstn_length_le, Nat.Div0.div_le_upper_bound. lia.
  - now apply create_half_dataframes_raises.
Qed.

(** ** The prediction game *)

Lemma seq_snoc (a n : nat) : seq a (S n) = seq a n ++ [(a + n)%nat].
Proof.
  revert a. induction n as [|n IH]; intro a.
  - cbn. now rewrite Nat.add_0_r.
  - change (seq a (S (S n))) with (a :: seq (S a) (S n)).
    rewrite (IH (S a)). cbn [seq app]. do 3 f_equal. lia.
Qed.

(** What a submitted guess does to a session whose score and guesses
    agree. *)
Lemma submit_appends (s : SessionState) (choice : float64) :
  user_choice s = Some choice ->
  score_matches_guesses s ->
  let s' := snd (submit_callback s) in
  let g := (Z.of_nat (S (List.length (guesses s))), choice, future_price s) in
  guesses s' = guesses s ++ [g]
  /\ score_right s' = (if is_right g then score_right s + 1 else score_right s)
  /\ score_wrong s' = (if is_right g then score_wrong s else score_wrong s + 1).
Proof.
  intros Hc (Hn & Hr & Hw). cbv zeta. unfold submit_callback. rewrite Hc.
  assert (Ht : score_right s + score_wrong s + 1
               = Z.of_nat (S (List.length (guesses s)))).
  { rewrite Hr, Hw.
    pose proof (filter_length is_right (guesses s)) as Hl.
    lia. }
  rewrite Ht. unfold is_right. cbn [fst snd].
  destruct (future_price s) as [price|]; cbn [snd].
  - destruct (feq choice price); cbn [snd guesses score_right score_wrong];
      auto.
  - cbn [guesses score_right score_wrong]. auto.
Qed.

(** X24. [submit_callback] keeps the score and the list of guesses in step:
    when the guesses were numbered from 1 on, with as many right ones as
    [score["right"]] and as many others as [score["wrong"]], they still are
    after it.  A submission without a choice changes nothing; one with a
    choice adds exactly one guess, and (the future price being there) the
    game is then [FINISHED] exactly when five guesses or more are on the
    list, and shows the result otherwise. *)
Theorem submit_keeps_score_and_guesses_in_step (s : SessionState) :
  score_matches_guesses s ->
  let s' := snd (submit_callback s) in
  score_matches_guesses s'
  /\ (user_choice s = None -> s' = s)
  /\ (user_choice s <> None ->
      List.length (guesses s') = S (List.length (guesses s)))
  /\ (user_choice s <> None -> future_price s <> None ->
      fst (submit_callback s) = Ok tt
      /\ game_state s'
         = if (5 <=? List.length (guesses s'))%nat then FINISHED
           else SHOW_RESULT).
Proof.
  intro H. cbv zeta.
  destruct (user_choice s) as [choice|] eqn:Hc.
  - destruct (submit_appends s choice Hc H) as (Hg & Hr & Hw).
    cbv zeta in Hg, Hr, Hw.
    set (g := (Z.of_nat (S (List.length (guesses s))), choice,
               future_price s)) in *.
    destruct H as (Hn & Hsr & Hsw).
    split; [|split; [discriminate | split]].
    + unfold score_matches_guesses. rewrite Hg, Hr, Hw.
      rewrite !filter_app, !length_app, !map_app. cbn [List.length].
      rewrite Nat.add_1_r, seq_snoc, map_app, Hn. cbn [map filter fst].
      split; [reflexivity|].
      destruct (is_right g); cbn [negb List.length]; lia.
    + intros _. rewrite Hg, length_app. cbn. lia.
    + intros _ Hp.
      assert (Hlen : List.length (guesses (snd (submit_callback s)))
                     = S (List.length (guesses s)))
        by (rewrite Hg, length_app; cbn; lia).
      rewrite Hlen. clear Hg Hr Hw Hlen.
      unfold submit_callback. rewrite Hc.
      destruct (future_price s) as [price|]; [|contradiction].
      pose proof (filter_length is_right (guesses s)) as Hl.
      destruct (feq choice price); cbn [fst snd game_state];
        (split; [reflexivity|]);
        rewrite Z.geb_leb;
        destruct (Z.leb_spec 5 (score_right s + 1 + score_wrong s)),
                 (Z.leb_spec 5 (score_right s + (score_wrong s + 1))),
                 (Nat.leb_spec 5 (S (List.length (guesses s))));
        try reflexivity; lia.
  - unfold submit_callback. rewrite Hc. cbn [snd fst].
    split; [exact H|]. split; [reflexivity|].
    split; intro Hne; now destruct Hne.
Qed.

Lemma submit_keeps_score_and_guesses_in_step_witness :
  let s := mkSessionState 0 0 INITIAL None (Some (Fin 2)) None (Some (Fin 2))
             "Easy" [] in
  let s' := snd (submit_callback s) in
  score_matches_guesses s'
  /\ (user_choice s = None -> s' = s)
  /\ (user_choice s <> None ->
      List.length (guesses s') = S (List.length (guesses s)))
  /\ (user_choice s <> None -> future_price s <> None ->
      fst (submit_callback s) = Ok tt
      /\ game_state s'
         = if (5 <=? List.length (guesses s'))%nat then FINISHED
           else SHOW_RESULT).
Proof.
  apply (submit_keeps_score_and_guesses_in_step
           (mkSessionState 0 0 INITIAL None (Some (Fin 2)) None (Some (Fin 2))
              "Easy" [])).
  repeat split.
Defined.

Lemma uniform_range (a b : Q) (rs rs' : RandomState) (u : Q) :
  (a <= b)%Q -> uniform a b rs = Ok (u, rs') -> (a <= u <= b)%Q.
Proof.
  intros Hab H. unfold uniform in H. injection H as <- _.
  set (x := unif rs (drawn rs)).
  assert (Hf : (0 <= Qfrac x <= 1)%Q).
  { unfold Qfrac. pose proof (Qfloor_le x). pose proof (Qlt_floor x) as Hlt.
    rewrite inject_Z_plus in Hlt. change (inject_Z 1) with 1%Q in Hlt.
    split; lra. }
  split; nra.
Qed.


Lemma insert_sorted_In (x y : float64) (l : list float64) :
  In y (insert_sorted x l) <-> y = x \/ In y l.
Proof.
  induction l as [|z l IH]; cbn [insert_sorted In]; [intuition|].
  destruct (flt x z); cbn [In]; [intuition|]. rewrite IH. intuition.
Qed.

Lemma insert_sorted_length (x : float64) (l : list float64) :
  List.length (insert_sorted x l) = S (List.length l).
Proof.
  induction l as [|z l IH]; [reflexivity|]. cbn [insert_sorted].
  destruct (flt x z); cbn [List.length]; [reflexivity | now rewrite IH].
Qed.

Lemma flt_fle (x y : float64) : flt x y = true -> fle x y = true.
Proof.
  intro H. destruct x as [a| | |], y as [b| | |]; try discriminate H;
    try reflexivity.
  cbn in H |- *. apply negb_true_iff in H.
  destruct (Qle_bool a b) eqn:E; [reflexivity|].
  apply Qle_bool_false in E. apply Qle_bool_false in H. lra.
Qed.

Lemma not_flt_fle (x y : float64) :
  is_nan x = false -> is_nan y = false -> flt x y = false -> fle y x = true.
Proof.
  intros Hx Hy H. destruct x, y; try discriminate; cbn in H |- *;
    try reflexivity; try discriminate H.
  now apply negb_false_iff in H.
Qed.

Lemma insert_sorted_ascending (x : float64) (l : list float64) :
  is_nan x = false -> Forall (fun y => is_nan y = false) l ->
  ascending l -> ascending (insert_sorted x l).
Proof.
  intros Hx. induction l as [|y l IH]; intros Hl Hasc; [exact I|].
  inversion Hl as [|? ? Hy Hl']; subst.
  cbn [insert_sorted]. destruct (flt x y) eqn:E.
  - split; [now apply flt_fle | exact Hasc].
  - pose proof (not_flt_fle x y Hx Hy E) as Hyx.
    destruct l as [|z l]; [now split|].
    destruct Hasc as [Hyz Hasc].
    specialize (IH Hl' Hasc). cbn [insert_sorted] in IH |- *.
    destruct (flt x z); split; assumption.
Qed.

Lemma sorted_spec (l acc : list float64) :
  let r := fold_left (fun acc x => insert_sorted x acc) l acc in
  (forall y, In y r <-> In y acc \/ In y l)
  /\ List.length r = (List.length acc + List.length l)%nat
  /\ (Forall (fun y => is_nan y = false) (acc ++ l) -> ascending acc ->
      ascending r).
Proof.
  cbv zeta. revert acc. induction l as [|x l IH]; intro acc.
  - cbn [fold_left In List.length]. rewrite app_nil_r.
    split; [intuition|]. split; [lia | auto].
  - cbn [fold_left]. destruct (IH (insert_sorted x acc)) as (Hin & Hlen & Ha).
    split; [|split].
    + intro y. rewrite Hin, insert_sorted_In. cbn [In]. intuition.
    + rewrite Hlen, insert_sorted_length. cbn [List.length]. lia.
    + intros Hnum Hacc. rewrite Forall_app in Hnum.
      destruct Hnum as [Hn1 Hn2]. inversion Hn2 as [|? ? Hx Hn3]; subst.
      apply Ha.
      * rewrite Forall_app. split; [|exact Hn3].
        apply Forall_forall. intros y Hy. apply insert_sorted_In in Hy.
        rewrite Forall_forall in Hn1. destruct Hy as [-> | Hy]; auto.
      * now apply insert_sorted_ascending.
Qed.

(** A rounded, clipped price is at least the floor, or not a number. *)
Lemma clip_lower_floor (lower : Q) (x : float64) :
  is_nan (clip_lower lower x) = true
  \/ fle (Fin lower) (clip_lower lower x) = true.
Proof.
  destruct x as [a| | |]; cbn; auto.
  - right. destruct (Qle_bool lower a) eqn:E; cbn; [exact E|].
    apply Qle_bool_iff, Qle_refl.
  - right. apply Qle_bool_iff, Qle_refl.
Qed.

(** Rounding and clipping keep two prices in their order. *)
Lemma round_clip_monotone (x y : float64) :
  fle x y = true ->
  fle (clip_lower 1 (fround 2 x)) (clip_lower 1 (fround 2 y)) = true.
Proof.
  intro H. destruct x as [a| | |], y as [b| | |]; try discriminate H;
    cbn [fround].
  - cbn in H. apply Qle_bool_iff in H.
    pose proof (round_decimals_monotone 2 a b H) as Hr.
    set (ra := round_decimals 2 a) in *. set (rb := round_decimals 2 b) in *.
    cbn. destruct (Qle_bool 1 ra) eqn:Ea; destruct (Qle_bool 1 rb) eqn:Eb;
      cbn; try reflexivity.
    + now apply Qle_bool_iff.
    + apply Qle_bool_iff in Ea. apply Qle_bool_false in Eb. lra.
    + exact Eb.
  - cbn. destruct (Qle_bool 1 (round_decimals 2 a)); reflexivity.
  - reflexivity.
  - destruct (clip_lower_floor 1 (fround 2 (Fin b))) as [E | E];
      [|exact E].
    cbn in E. destruct (Qle_bool 1 (round_decimals 2 b)); discriminate E.
  - reflexivity.
  - reflexivity.
Qed.

Section RoundProperties.

Variable create_ohlc :
  forall (total_days : Z) (start_price volatility drift : Q) (num_bars : Z)
         (frequency : string), M (DataFrame float64).

(** The frame of [generate_ohlc_data], cell by cell. *)
Lemma generate_ohlc_data_inv (num_days : Z) (rs rs' : RandomState)
    (df : DataFrame float64) :
  generate_ohlc_data create_ohlc num_days rs = Ok (df, rs') ->
  exists raw,
    df = map (fun c => Candle (date c)
                         (clip_lower 1 (fround 2 (open c)))
                         (clip_lower 1 (fround 2 (high c)))
                         (clip_lower 1 (fround 2 (low c)))
                         (clip_lower 1 (fround 2 (close c)))) raw.
Proof.
  unfold generate_ohlc_data. intro H.
  apply bind_inv in H. destruct H as (vol & rs1 & _ & H).
  apply bind_inv in H. destruct H as (drift & rs2 & _ & H).
  apply bind_inv in H. destruct H as (raw & rs3 & _ & H).
  apply ret_inv in H. destruct H as [-> _]. now exists raw.
Qed.

(** What a round that could be prepared has drawn and stored. *)
Lemma prepare_new_round_inv (s s' : SessionState) (rs rs' : RandomState) :
  prepare_new_round create_ohlc s rs = Ok (s', rs') ->
  exists df rs1 i price u1 u2 u3,
    generate_ohlc_data create_ohlc 150 rs = Ok (df, rs1)
    /\ i = (if String.eqb (difficulty s) "Easy" then 90
            else if String.eqb (difficulty s) "Medium" then 96 else 119)%nat
    /\ nth_error (map close df) i = Some price
    /\ Forall (fun u => (- (1 # 10) <= u <= 1 # 10)%Q) [u1; u2; u3]
    /\ s' = mkSessionState (score_right s) (score_wrong s) (game_state s)
              (Some (firstn 90 df)) (Some price)
              (Some (sorted
                       (price
                        :: map (fun u => fround 2 (fmul price (Fin (1 + u))))
                               [u1; u2; u3])))
              None (difficulty s) (guesses s).
Proof.
  unfold prepare_new_round. intro H.
  apply bind_inv in H. destruct H as (df & rs1 & Hdf & H).
  cbv zeta in H.
  apply bind_inv in H. destruct H as (price & rs2 & Hp & H).
  apply lift_inv in Hp. destruct Hp as [Hp _].
  cbn [repeat mapM] in H.
  apply bind_inv in H. destruct H as (others & rs3 & Ho & H).
  apply ret_inv in H. destruct H as [-> _].
  apply bind_inv in Ho. destruct Ho as (c1 & rs4 & H1 & Ho).
  apply bind_inv in H1. destruct H1 as (u1 & rs5 & Hu1 & H1).
  apply ret_inv in H1. destruct H1 as [-> ->].
  apply bind_inv in Ho. destruct Ho as (l1 & rs6 & Ho & Hr1).
  apply ret_inv in Hr1. destruct Hr1 as [-> _].
  apply bind_inv in Ho. destruct Ho as (c2 & rs7 & H2 & Ho).
  apply bind_inv in H2. destruct H2 as (u2 & rs8 & Hu2 & H2).
  apply ret_inv in H2. destruct H2 as [-> ->].
  apply bind_inv in Ho. destruct Ho as (l2 & rs9 & Ho & Hr2).
  apply ret_inv in Hr2. destruct Hr2 as [-> _].
  apply bind_inv in Ho. destruct Ho as (c3 & rs10 & H3 & Ho).
  apply bind_inv in H3. destruct H3 as (u3 & rs11 & Hu3 & H3).
  apply ret_inv in H3. destruct H3 as [-> ->].
  apply bind_inv in Ho. destruct Ho as (l3 & rs12 & Ho & Hr3).
  apply ret_inv in Hr3. destruct Hr3 as [-> _].
  apply ret_inv in Ho. destruct Ho as [-> _].
  apply uniform_range in Hu1, Hu2, Hu3; try (unfold Qle; cbn; lia).
  unfold iloc in Hp.
  set (i := if String.eqb (difficulty s) "Easy" then 90 - 1 + 1
            else if String.eqb (difficulty s) "Medium" then 90 - 1 + 7
                 else 90 - 1 + 30) in Hp.
  destruct (nth_error (map close df) (Z.to_nat i)) as [p|] eqn:Ei;
    [|discriminate].
  injection Hp as ->.
  exists df, rs1, (Z.to_nat i), price, u1, u2, u3.
  split; [exact Hdf|]. split.
  { unfold i. destruct (String.eqb (difficulty s) "Easy"); [reflexivity|].
    destruct (String.eqb (difficulty s) "Medium"); reflexivity. }
  split; [exact Ei|]. split; [|reflexivity].
  repeat constructor; tauto.
Qed.

(** X25. A round that could be prepared shows the first ninety days of the
    frame it generated and asks for the close of day 90, 96 or 119 of that
    frame (by difficulty): a day that is not on the chart.  It clears the
    choice of the player and leaves the score, the guesses and the state of
    the game as they were. *)
Theorem the_answer_is_never_on_the_chart (s s' : SessionState)
    (rs rs' : RandomState) :
  prepare_new_round create_ohlc s rs = Ok (s', rs') ->
  exists df rs1 shown price i,
    generate_ohlc_data create_ohlc 150 rs = Ok (df, rs1)
    /\ data s' = Some shown /\ shown = firstn 90 df
    /\ List.length shown = 90%nat
    /\ future_price s' = Some price
    /\ i = (if String.eqb (difficulty s) "Easy" then 90
            else if String.eqb (difficulty s) "Medium" then 96 else 119)%nat
    /\ nth_error (map close df) i = Some price
    /\ nth_error shown i = None
    /\ user_choice s' = None
    /\ (score_right s', score_wrong s', guesses s', game_state s')
       = (score_right s, score_wrong s, guesses s, game_state s).
Proof.
  intro H. apply prepare_new_round_inv in H.
  destruct H as (df & rs1 & i & price & u1 & u2 & u3 & Hdf & Hi & Hp & _
                 & ->).
  assert (Hlen : (i < List.length df)%nat).
  { rewrite <- (length_map close). apply nth_error_Some. congruence. }
  assert (H90 : (90 <= i)%nat).
  { rewrite Hi. destruct (String.eqb (difficulty s) "Easy"); [lia|].
    destruct (String.eqb (difficulty s) "Medium"); lia. }
  assert (Hshown : List.length (firstn 90 df) = 90%nat)
    by (apply firstn_length_le; lia).
  cbn [data future_price user_choice score_right score_wrong guesses
       game_state].
  exists df, rs1, (firstn 90 df), price, i.
  split; [exact Hdf|]. split; [reflexivity|]. split; [reflexivity|].
  split; [exact Hshown|]. split; [reflexivity|]. split; [exact Hi|].
  split; [exact Hp|]. split; [|split; reflexivity].
  apply nth_error_None. rewrite Hshown. exact H90.
Qed.


(** X26. The four choices of a round hold the future price.  When that
    price is a number (so that choosing it is right) it is at least 1.0, the
    choices come in ascending order, and each of them is the price itself or
    lies between the price less and plus a tenth, rounded to cents. *)
Theorem choices_hold_the_answer (s s' : SessionState) (rs rs' : RandomState) :
  prepare_new_round create_ohlc s rs = Ok (s', rs') ->
  exists price l,
    future_price s' = Some price /\ choices s' = Some l
    /\ List.length l = 4%nat /\ In price l
    /\ forall p, price = Fin p ->
         (1 <= p)%Q /\ ascending l
         /\ forall c, In c l ->
              c = price
              \/ exists q, c = Fin q
                           /\ (round_decimals 2 ((9 # 10) * p) <= q
                               <= round_decimals 2 ((11 # 10) * p))%Q.
Proof.
  intro H. apply prepare_new_round_inv in H.
  destruct H as (df & rs1 & i & price & u1 & u2 & u3 & Hdf & _ & Hp & Hu
                 & ->).
  cbn [future_price choices].
  set (f := fun u => fround 2 (fmul price (Fin (1 + u)))).
  destruct (sorted_spec (price :: map f [u1; u2; u3]) []) as (Hin & Hlen & Ha).
  cbv zeta in Hin, Hlen, Ha. fold (sorted (price :: map f [u1; u2; u3])) in *.
  exists price, (sorted (price :: map f [u1; u2; u3])).
  split; [reflexivity|]. split; [reflexivity|]. split; [exact Hlen|].
  split; [apply Hin; right; now left|].
  intros p ->.
  assert (Hp1 : (1 <= p)%Q).
  { apply generate_ohlc_data_inv in Hdf. destruct Hdf as (raw & ->).
    rewrite map_map in Hp. cbn [close] in Hp.
    apply nth_error_In, in_map_iff in Hp. destruct Hp as (r & Hr & _).
    destruct (clip_lower_floor 1 (fround 2 (close r))) as [E | E];
      rewrite Hr in E; [discriminate E|].
    now apply Qle_bool_iff in E. }
  assert (Hf : forall u, (- (1 # 10) <= u <= 1 # 10)%Q ->
             exists q, f u = Fin q
                       /\ (round_decimals 2 ((9 # 10) * p) <= q
                           <= round_decimals 2 ((11 # 10) * p))%Q).
  { intros u Hu'. exists (round_decimals 2 (p * (1 + u))).
    split; [reflexivity|].
    split; apply round_decimals_monotone; nra. }
  split; [exact Hp1|]. split.
  - apply Ha; [|exact I]. cbn [app map].
    repeat constructor; unfold f; reflexivity.
  - intros c Hc. apply Hin in Hc. destruct Hc as [[] | Hc].
    cbn [map In] in Hc.
    inversion Hu as [|? ? H1 Hu']; subst.
    inversion Hu' as [|? ? H2 Hu'']; subst.
    inversion Hu'' as [|? ? H3 _]; subst.
    destruct Hc as [<- | [<- | [<- | [<- | []]]]];
      [now left | right; now apply Hf ..].
Qed.

(** X27. [generate_ohlc_data] hands on the frame its generator made, row by
    row under the same timestamps, with every price that is a number at 1.0
    or above; and a candle that was in order (low <= open, close <= high)
    still is after the rounding and the clipping. *)
Theorem generated_prices_stay_above_one (num_days : Z) (rs rs' : RandomState)
    (df : DataFrame float64) :
  generate_ohlc_data create_ohlc num_days rs = Ok (df, rs') ->
  exists volatility drift rs1 rs2 raw,
    create_ohlc num_days 10000 volatility drift num_days "1D" rs1
    = Ok (raw, rs2)
    /\ (1 <= volatility <= 3)%Q /\ (1 <= drift <= 3)%Q
    /\ Forall2 (fun r c => date c = date r /\ (ordered4 r -> ordered4 c))
               raw df
    /\ Forall (fun c => Forall (fun x => is_nan x = true
                                         \/ fle (Fin 1) x = true) (cells c))
              df.
Proof.
  unfold generate_ohlc_data. intro H.
  apply bind_inv in H. destruct H as (vol & rs1 & Hv & H).
  apply bind_inv in H. destruct H as (drift & rs2 & Hd & H).
  apply bind_inv in H. destruct H as (raw & rs3 & Hraw & H).
  apply ret_inv in H. destruct H as [-> _].
  apply uniform_range in Hv; [|unfold Qle; cbn; lia].
  apply uniform_range in Hd; [|unfold Qle; cbn; lia].
  exists vol, drift, rs2, rs3, raw.
  split; [exact Hraw|]. split; [exact Hv|]. split; [exact Hd|]. split.
  - clear Hraw. induction raw as [|r raw IH]; cbn [map]; constructor;
      [|exact IH].
    cbn [date]. split; [reflexivity|].
    intros (H1 & H2 & H3 & H4). unfold ordered4. cbn [open high low close].
    repeat split; now apply round_clip_monotone.
  - apply Forall_map, Forall_forall. intros r _.
    unfold cells. cbn [open high low close].
    do 4 (constructor; [apply clip_lower_floor|]). constructor.
Qed.

End RoundProperties.

Lemma the_answer_is_never_on_the_chart_witness :
  let create_ohlc :=
    fun (total_days : Z) (start_price volatility drift : Q) (num_bars : Z)
        (frequency : string) =>
      ret (map (fun i => Candle (Z.of_nat i * 86400)
                           (Fin (inject_Z (Z.of_nat i)))
                           (Fin (inject_Z (Z.of_nat i) + 1))
                           (Fin (inject_Z (Z.of_nat i)))
                           (Fin (inject_Z (Z.of_nat i) + 1)))
               (seq 0 (Z.to_nat num_bars))) in
  let rs := mkRandomState (fun _ => 0) (fun _ => 1 # 3) (fun _ _ => 1%Q) 0 in
  let s := initialize_session_state in
  let s' := match prepare_new_round create_ohlc s rs with
            | Ok (s', _) => s'
            | Raise _ => s
            end in
  exists df rs1 shown price i,
    generate_ohlc_data create_ohlc 150 rs = Ok (df, rs1)
    /\ data s' = Some shown /\ shown = firstn 90 df
    /\ List.length shown = 90%nat
    /\ future_price s' = Some price
    /\ i = (if String.eqb (difficulty s) "Easy" then 90
            else if String.eqb (difficulty s) "Medium" then 96 else 119)%nat
    /\ nth_error (map close df) i = Some price
    /\ nth_error shown i = None
    /\ user_choice s' = None
    /\ (score_right s', score_wrong s', guesses s', game_state s')
       = (score_right s, score_wrong s, guesses s, game_state s).
Proof.
  cbv zeta.
  match goal with
  | |- context [prepare_new_round ?c ?s ?rs] =>
      destruct (prepare_new_round c s rs) as [[s' rs']|e] eqn:E;
      [exact (the_answer_is_never_on_the_chart c s s' rs rs' E)
      | vm_compute in E; discriminate]
  end.
Defined.

Lemma choices_hold_the_answer_witness :
  let create_ohlc :=
    fun (total_days : Z) (start_price volatility drift : Q) (num_bars : Z)
        (frequency : string) =>
      ret (map (fun i => Candle (Z.of_nat i * 86400)
                           (Fin (inject_Z (Z.of_nat i)))
                           (Fin (inject_Z (Z.of_nat i) + 1))
                           (Fin (inject_Z (Z.of_nat i)))
                           (Fin (inject_Z (Z.of_nat i) + 1)))
               (seq 0 (Z.to_nat num_bars))) in
  let rs := mkRandomState (fun _ => 0) (fun _ => 1 # 3) (fun _ _ => 1%Q) 0 in
  let s' := match prepare_new_round create_ohlc initialize_session_state rs
            with
            | Ok (s', _) => s'
            | Raise _ => initialize_session_state
            end in
  exists price l,
    future_price s' = Some price /\ choices s' = Some l
    /\ List.length l = 4%nat /\ In price l
    /\ forall p, price = Fin p ->
         (1 <= p)%Q /\ ascending l
         /\ forall c, In c l ->
              c = price
              \/ exists q, c = Fin q
                           /\ (round_decimals 2 ((9 # 10) * p) <= q
                               <= round_decimals 2 ((11 # 10) * p))%Q.
Proof.
  cbv zeta.
  match goal with
  | |- context [prepare_new_round ?c ?s ?rs] =>
      destruct (prepare_new_round c s rs) as [[s' rs']|e] eqn:E;
      [exact (choices_hold_the_answer c s s' rs rs' E)
      | vm_compute in E; discriminate]
  end.
Defined.

Lemma generated_prices_stay_above_one_witness :
  let create_ohlc :=
    fun (total_days : Z) (start_price volatility drift : Q) (num_bars : Z)
        (frequency : string) =>
      ret (map (fun i => Candle (Z.of_nat i * 86400)
                           (Fin (inject_Z (Z.of_nat i)))
                           (Fin (inject_Z (Z.of_nat i) + 1))
                           (Fin (inject_Z (Z.of_nat i)))
                           (Fin (inject_Z (Z.of_nat i) + 1)))
               (seq 0 (Z.to_nat num_bars))) in
  let rs := mkRandomState (fun _ => 0) (fun _ => 1 # 3) (fun _ _ => 1%Q) 0 in
  let df := match generate_ohlc_data create_ohlc 3 rs with
            | Ok (df, _) => df
            | Raise _ => []
            end in
  exists volatility drift rs1 rs2 raw,
    create_ohlc 3 10000%Q volatility drift 3 "1D"%string rs1 = Ok (raw, rs2)
    /\ (1 <= volatility <= 3)%Q /\ (1 <= drift <= 3)%Q
    /\ Forall2 (fun r c => date c = date r /\ (ordered4 r -> ordered4 c))
               raw df
    /\ Forall (fun c => Forall (fun x => is_nan x = true
                                         \/ fle (Fin 1) x = true) (cells c))
              df.
Proof.
  cbv zeta.
  match goal with
  | |- context [generate_ohlc_data ?c ?n ?rs] =>
      destruct (generate_ohlc_data c n rs) as [[df rs']|e] eqn:E;
      [exact (generated_prices_stay_above_one c n rs rs' df E)
      | vm_compute in E; discriminate]
  end.
Defined.

(** * The resampled family *)

(** ** Months, counted from the start date *)




(** ** The label of a row is the right edge of its bin *)


(** ** One call of the resampler, on rows of numbers in time order *)




(** ** Frames stamped at a fixed step *)





(** ** The timestamps of the frames of the ladder *)

Lemma days_label_step (n t : Z) :
  1 <= n ->
  bin_label_right (Days n) 0 (t + day) = bin_label_right (Days n) 0 t
  \/ bin_label_right (Days n) 0 (t + day)
     = bin_label_right (Days n) 0 t + n * day.
Proof.
  intro Hn. cbn [bin_label_right].
  replace (t + day) with (t + 1 * day) by lia.
  rewrite normalize_ts_add_days, !Z.sub_0_r, !Z.add_0_l.
  assert (Hw : 0 < n * day) by (unfold day; lia).
  destruct (ceil_to_spec (n * day) (normalize_ts t) Hw) as [Hc Hm].
  destruct (Z_le_gt_dec (normalize_ts t + 1 * day)
                        (ceil_to (n * day) (normalize_ts t))).
  - left. apply ceil_to_unique; [exact Hw | unfold day in *; lia | exact Hm].
  - right. apply ceil_to_unique; [exact Hw | unfold day in *; lia |].
    now apply mod_add_width.
Qed.

(** From a base frame stamped minute by minute from the start date on,
    every frame of the ladder down to the weekly one is stamped at a fixed
    step: at its own width from the start date on down to three days, and
    week by week from the first Sunday on.  The last timestamp of each frame
    is the label of the last timestamp of the frame before it. *)
Lemma ladder_stamps (base : DataFrame float64) (n : nat) :
  map date base = stamps_from (Tick 60) 0 (S n) ->
  let d5 := downsampled (Tick 300) base in
  let d15 := downsampled (Tick 900) d5 in
  let d30 := downsampled (Tick 1800) d15 in
  let d1H := downsampled (Tick 3600) d30 in
  let d2H := downsampled (Tick 7200) d1H in
  let d4H := downsampled (Tick 14400) d2H in
  let d1D := downsampled (Tick 86400) d4H in
  let d3D := downsampled (Days 3) d1D in
  let d1W := downsampled Week d3D in
  exists k5 k15 k30 k1H k2H k4H k1D k3D k1W : nat,
    (map date d5 = stamps_from (Tick 300) 0 (S k5)
     /\ 300 * Z.of_nat k5 = ceil_to 300 (60 * Z.of_nat n))
    /\ (map date d15 = stamps_from (Tick 900) 0 (S k15)
        /\ 900 * Z.of_nat k15 = ceil_to 900 (300 * Z.of_nat k5))
    /\ (map date d30 = stamps_from (Tick 1800) 0 (S k30)
        /\ 1800 * Z.of_nat k30 = ceil_to 1800 (900 * Z.of_nat k15))
    /\ (map date d1H = stamps_from (Tick 3600) 0 (S k1H)
        /\ 3600 * Z.of_nat k1H = ceil_to 3600 (1800 * Z.of_nat k30))
    /\ (map date d2H = stamps_from (Tick 7200) 0 (S k2H)
        /\ 7200 * Z.of_nat k2H = ceil_to 7200 (3600 * Z.of_nat k1H))
    /\ (map date d4H = stamps_from (Tick 14400) 0 (S k4H)
        /\ 14400 * Z.of_nat k4H = ceil_to 14400 (7200 * Z.of_nat k2H))
    /\ (map date d1D = stamps_from (Tick 86400) 0 (S k1D)
        /\ 86400 * Z.of_nat k1D = ceil_to 86400 (14400 * Z.of_nat k4H))
    /\ (map date d3D = stamps_from (Tick (3 * day)) 0 (S k3D)
        /\ bin_label_right (Days 3) 0 (day * Z.of_nat k1D)
           = 3 * day * Z.of_nat k3D)
    /\ (map date d1W = stamps_from (Tick (7 * day)) day (S k1W)
        /\ bin_label_right Week 0 (3 * day * Z.of_nat k3D)
           = day + 7 * day * Z.of_nat k1W).
Proof.
  intro H1. cbv zeta.
  destruct (tick_rung 300 60 _ _ H1 ltac:(lia)) as (k5 & H5 & E5).
  destruct (tick_rung 900 300 _ _ H5 ltac:(lia)) as (k15 & H15 & E15).
  destruct (tick_rung 1800 900 _ _ H15 ltac:(lia)) as (k30 & H30 & E30).
  destruct (tick_rung 3600 1800 _ _ H30 ltac:(lia)) as (k1H & H1H & E1H).
  destruct (tick_rung 7200 3600 _ _ H1H ltac:(lia)) as (k2H & H2H & E2H).
  destruct (tick_rung 14400 7200 _ _ H2H ltac:(lia)) as (k4H & H4H & E4H).
  destruct (tick_rung 86400 14400 _ _ H4H ltac:(lia)) as (k1D & H1D & E1D).
  destruct (downsampled_progression (Days 3) (3 * day) day _ _ H1D
              ltac:(unfold day; lia)
              (fun t => days_label_step 3 t ltac:(lia)))
    as (k3D & H3D & E3D).
  change (bin_label_right (Days 3) 0 0) with 0 in H3D, E3D.
  destruct (downsampled_progression Week (7 * day) (3 * day) _ _ H3D
              ltac:(unfold day; lia) (fun t => week_label_step 0 t))
    as (k1W & H1W & E1W).
  change (bin_label_right Week 0 0) with day in H1W, E1W.
  exists k5, k15, k30, k1H, k2H, k4H, k1D, k3D, k1W.
  repeat split; try assumption; lia.
Qed.

(** ** C6: the resampling ladder *)




(** ** C1: the ordering of every candle of the family *)




(** ** C5: the lengths of the Series of a base Series of 120 days *)

(** The daily and the weekly frame of a base frame of 172800 one-minute
    candles that starts on the start date. *)
Lemma family_counts (base : DataFrame float64) (n : nat) :
  map date base = stamps_from (Tick 60) 0 (S n) -> Z.of_nat n = 172799 ->
  exists d w,
    lookup "1D" (resampled_family base) = Some (Some d)
    /\ Z.of_nat (List.length d) = 121
    /\ lookup "1W" (resampled_family base) = Some (Some w)
    /\ Z.of_nat (List.length w) = 18.
Proof.
  intros H1 N1.
  destruct (ladder_stamps base n H1)
    as (k5 & k15 & k30 & k1H & k2H & k4H & k1D & k3D & k1W
        & (H5 & E5) & (H15 & E15) & (H30 & E30) & (H1H & E1H) & (H2H & E2H)
        & (H4H & E4H) & (H1D & E1D) & (H3D & E3D) & (H1W & E1W)).
  rewrite N1 in E5.
  rewrite (ceil_to_multiple 300 34560) in E5 by lia.
  assert (N5 : Z.of_nat k5 = 34560) by lia. rewrite N5 in E15.
  rewrite (ceil_to_multiple 900 11520) in E15 by lia.
  assert (N15 : Z.of_nat k15 = 11520) by lia. rewrite N15 in E30.
  rewrite (ceil_to_multiple 1800 5760) in E30 by lia.
  assert (N30 : Z.of_nat k30 = 5760) by lia. rewrite N30 in E1H.
  rewrite (ceil_to_multiple 3600 2880) in E1H by lia.
  assert (N1H : Z.of_nat k1H = 2880) by lia. rewrite N1H in E2H.
  rewrite (ceil_to_multiple 7200 1440) in E2H by lia.
  assert (N2H : Z.of_nat k2H = 1440) by lia. rewrite N2H in E4H.
  rewrite (ceil_to_multiple 14400 720) in E4H by lia.
  assert (N4H : Z.of_nat k4H = 720) by lia. rewrite N4H in E1D.
  rewrite (ceil_to_multiple 86400 120) in E1D by lia.
  assert (N1D : Z.of_nat k1D = 120) by lia. rewrite N1D in E3D.
  assert (L3D : bin_label_right (Days 3) 0 (day * 120) = 10368000)
    by reflexivity.
  rewrite L3D in E3D.
  assert (N3D : Z.of_nat k3D = 40) by (unfold day in E3D; lia).
  rewrite N3D in E1W.
  assert (L1W : bin_label_right Week 0 (3 * day * 40) = 10368000)
    by reflexivity.
  rewrite L1W in E1W.
  assert (N1W : Z.of_nat k1W = 17) by (unfold day in E1W; lia).
  eexists; eexists.
  split; [reflexivity|]. split; [rewrite (dates_length _ _ _ _ H1D); lia|].
  split; [reflexivity|]. rewrite (dates_length _ _ _ _ H1W); lia.
Qed.

Lemma minutes_of_120_days :
  date_range (120 * MINUTES_IN_1DAY) (Tick 60)
  = stamps_from (Tick 60) 0 (S (Z.to_nat 172799)).
Proof.
  unfold date_range, MINUTES_IN_1DAY. cbn [first_stamp]. f_equal; lia.
Qed.

(** C5, as the code has it.  A base Series of [120 * 1440] one-minute
    candles from the start date on is resampled into 121 daily candles and
    18 weekly ones, not 120 and 17. *)
Lemma daily_series_has_121_candles :
  let base := map (fun t => Candle t (Fin 1) (Fin 1) (Fin 1) (Fin 1))
                  (date_range (120 * MINUTES_IN_1DAY) (Tick 60)) in
  exists family d w,
    resample_timeframes (mkRandomOHLC 120 100000 1) base empty_resampled_data
    = Ok family
    /\ lookup "1D" family = Some (Some d)
    /\ Z.of_nat (List.length d) = 121 /\ Z.of_nat (List.length d) <> 120
    /\ lookup "1W" family = Some (Some w)
    /\ Z.of_nat (List.length w) = 18 /\ Z.of_nat (List.length w) <> 17.
Proof.
  intro base.
  assert (Hd : map date base = stamps_from (Tick 60) 0 (S (Z.to_nat 172799))).
  { unfold base. rewrite map_map, <- minutes_of_120_days. apply map_id. }
  destruct (family_counts base _ Hd ltac:(lia)) as (d & w & L1 & N1 & L2 & N2).
  exists (resampled_family base), d, w.
  split; [apply resample_timeframes_family|].
  split; [exact L1|]. split; [exact N1|]. split; [lia|].
  split; [exact L2|]. split; [exact N2 | lia].
Qed.

(** C5, amended.  With [total_days = 120], the walk of
    [total_days * SECONDS_IN_1DAY] second ticks comes back as a base Series
    of [120 * 1440] one-minute candles, one per minute from the start date
    on.  Resampling a Series stamped so gives a daily Series of 121 candles
    and a weekly Series of 18: the bins are closed on the right, so the
    first candle, at midnight, is a bin of its own.  The numbers 120 and 17
    are those of the table [__create_bars_table], of which the resampling
    reads the keys only. *)
Theorem series_lengths_120 (self : RandomOHLC) (sp vol : Q)
    (rs : RandomState) (base : DataFrame float64) :
  total_days self = 120 -> (0 <= vol)%Q ->
  map date base = date_range (total_days self * MINUTES_IN_1DAY) (Tick 60) ->
  (exists walk rs',
      generate_random_df_ (total_days self * SECONDS_IN_1DAY) "1S" sp vol rs
      = Ok (walk, rs')
      /\ Z.of_nat (List.length walk) = 120 * 1440
      /\ map date walk = map date base)
  /\ (exists family d w,
        resample_timeframes self base empty_resampled_data = Ok family
        /\ lookup "1min" family = Some (Some base)
        /\ lookup "1D" family = Some (Some d)
        /\ Z.of_nat (List.length d) = 121
        /\ lookup "1W" family = Some (Some w)
        /\ Z.of_nat (List.length w) = 18)
  /\ lookup "1D" (create_bars_table self) = Some 120
  /\ lookup "1W" (create_bars_table self) = Some 17.
Proof.
  intros Hself Hvol Hd. rewrite Hself in *.
  rewrite minutes_of_120_days in Hd.
  split; [|split].
  - change (120 * SECONDS_IN_1DAY) with 10368000.
    destruct (generate_random_df_ok 10368000 "1S" (Tick 1) sp vol rs eq_refl
                ltac:(lia) Hvol) as (walk & rs' & Hw).
    exists walk, rs'. split; [exact Hw|].
    apply generate_random_df_inv in Hw.
    destruct Hw as (off & prices & Hoff & Hn & Hlen & ->).
    injection Hoff as <-.
    destruct (base_frame_dates 10368000 prices Hn Hlen) as (k & Hk & Ek).
    change (floor_to 60 (10368000 - 1)) with 10367940 in Ek.
    assert (Nk : k = Z.to_nat 172799) by lia. subst k.
    split; [rewrite (dates_length _ _ _ _ Hk); lia|].
    now rewrite Hk, Hd.
  - destruct (family_counts base _ Hd ltac:(lia))
      as (d & w & L1 & N1 & L2 & N2).
    exists (resampled_family base), d, w.
    split; [apply resample_timeframes_family|]. split; [reflexivity|].
    repeat split; assumption.
  - unfold create_bars_table. rewrite Hself. split; reflexivity.
Qed.

Lemma series_lengths_120_witness :
  let base := map (fun t => Candle t (Fin 2) (Fin 3) (Fin 1) (Fin 2))
                  (date_range (120 * MINUTES_IN_1DAY) (Tick 60)) in
  exists family d w,
    resample_timeframes (mkRandomOHLC 120 100000 1) base empty_resampled_data
    = Ok family
    /\ lookup "1min" family = Some (Some base)
    /\ lookup "1D" family = Some (Some d)
    /\ Z.of_nat (List.length d) = 121
    /\ lookup "1W" family = Some (Some w)
    /\ Z.of_nat (List.length w) = 18.
Proof.
  intro base.
  refine (proj1 (proj2 (series_lengths_120 (mkRandomOHLC 120 100000 1)
                          100000 1
                          (mkRandomState (fun _ => 7) (fun _ => 0%Q)
                             (fun _ _ => 1%Q) 0)
                          base eq_refl _ _))).
  - discriminate.
  - unfold base. rewrite map_map. apply map_id.
Defined.

(** ** Further properties of the family *)

(** X14. On a base Series of [total_days] days of one-minute candles from
    the start date on, [resample_timeframes] makes, from "5min" to "1D",
    Series that are one candle longer than the bars table of
    [__create_bars_table] counts for their timeframe: the first candle, at
    midnight of the start date, is a bin of its own. *)
Theorem series_one_longer_than_bars_table (self : RandomOHLC)
    (base : DataFrame float64) (n : nat) :
  1 <= total_days self ->
  map date base = stamps_from (Tick 60) 0 (S n) ->
  Z.of_nat (S n) = total_days self * MINUTES_IN_1DAY ->
  exists family,
    resample_timeframes self base empty_resampled_data = Ok family
    /\ lookup "1min" family = Some (Some base)
    /\ forall tf bars,
         In tf ["5min"; "15min"; "30min"; "1H"; "2H"; "4H"; "1D"]%string ->
         lookup tf (create_bars_table self) = Some bars ->
         exists df, lookup tf family = Some (Some df)
                    /\ Z.of_nat (List.length df) = bars + 1.
Proof.
  intros Hn Hbase Hlen. unfold MINUTES_IN_1DAY in Hlen.
  assert (Nk : Z.of_nat n = 1440 * total_days self - 1) by lia.
  exists (resampled_family base).
  split; [apply resample_timeframes_family|]. split; [reflexivity|].
  intros tf bars Htf Hbars.
  pose proof (family_counts_of_days base n (total_days self) Hbase Nk) as Hfam.
  unfold create_bars_table in Hbars.
  unfold MINUTES_IN_1DAY, HOURS_IN_1DAY in Hbars.
  cbn [In] in Htf.
  destruct Htf as [<- | [<- | [<- | [<- | [<- | [<- | [<- | []]]]]]]];
    cbn in Hbars; injection Hbars as <-.
  + destruct (Hfam "5min"%string 288) as (d & L & N); [cbn; tauto|].
    exists d. split; [exact L | Z.to_euclidean_division_equations; lia].
  + destruct (Hfam "15min"%string 96) as (d & L & N); [cbn; tauto|].
    exists d. split; [exact L | Z.to_euclidean_division_equations; lia].
  + destruct (Hfam "30min"%string 48) as (d & L & N); [cbn; tauto|].
    exists d. split; [exact L | Z.to_euclidean_division_equations; lia].
  + destruct (Hfam "1H"%string 24) as (d & L & N); [cbn; tauto|].
    exists d. split; [exact L | Z.to_euclidean_division_equations; lia].
  + destruct (Hfam "2H"%string 12) as (d & L & N); [cbn; tauto|].
    exists d. split; [exact L | Z.to_euclidean_division_equations; lia].
  + destruct (Hfam "4H"%string 6) as (d & L & N); [cbn; tauto|].
    exists d. split; [exact L | Z.to_euclidean_division_equations; lia].
  + destruct (Hfam "1D"%string 1) as (d & L & N); [cbn; tauto|].
    exists d. split; [exact L | Z.to_euclidean_division_equations; lia].
Qed.

Lemma series_one_longer_than_bars_table_witness :
  let base := map (fun t => Candle t (Fin 2) (Fin 3) (Fin 1) (Fin 2))
                  (stamps_from (Tick 60) 0 (S (Z.to_nat 2879))) in
  exists family,
    resample_timeframes (mkRandomOHLC 2 100000 1) base empty_resampled_data
    = Ok family
    /\ lookup "1min" family = Some (Some base)
    /\ forall tf bars,
         In tf ["5min"; "15min"; "30min"; "1H"; "2H"; "4H"; "1D"]%string ->
         lookup tf (create_bars_table (mkRandomOHLC 2 100000 1)) = Some bars ->
         exists df, lookup tf family = Some (Some df)
                    /\ Z.of_nat (List.length df) = bars + 1.
Proof.
  intro base.
  apply (series_one_longer_than_bars_table (mkRandomOHLC 2 100000 1) base
           (Z.to_nat 2879)).
  - cbn [total_days]. lia.
  - unfold base. rewrite map_map. apply map_id.
  - cbn [total_days]. unfold MINUTES_IN_1DAY. lia.
Defined.

(** X17. Every Series of the dict that [resample_timeframes] fills from a
    base Series stamped minute by minute from the start date on is in
    strict time order: no timestamp occurs twice and none comes before an
    earlier one. *)
Theorem every_series_is_in_time_order (self : RandomOHLC)
    (base : DataFrame float64) (n : nat) (family : frames)
    (tf : string) (df : DataFrame float64) :
  map date base = stamps_from (Tick 60) 0 (S n) ->
  resample_timeframes self base empty_resampled_data = Ok family ->
  lookup tf family = Some (Some df) ->
  increasing (map date df).
Proof.
  intros Hbase Hfam Hl.
  rewrite resample_timeframes_family in Hfam. injection Hfam as <-.
  revert tf df Hl. apply family_forall_widths.
  - rewrite Hbase. apply stamps_from_increasing. lia.
  - intros off d Hw Hinc.
    rewrite downsampled_dates. apply dedup_adjacent_increasing.
    apply nondecreasing_map.
    + intros t t' Ht. now apply bin_label_right_monotone.
    + now apply increasing_nondecreasing.
Qed.

Lemma every_series_is_in_time_order_witness :
  let base := [Candle 0 (Fin 1) (Fin 2) (Fin 1) (Fin 2);
               Candle 60 (Fin 2) (Fin 3) (Fin 1) (Fin 1);
               Candle 120 (Fin 1) (Fin 1) (Fin 1) (Fin 1)] in
  exists df,
    lookup "5min" (resampled_family base) = Some (Some df)
    /\ increasing (map date df).
Proof.
  intro base. eexists. split; [reflexivity|].
  apply (every_series_is_in_time_order (mkRandomOHLC 1 5 1) base 2
           (resampled_family base) "5min"); reflexivity.
Defined.

(** X23. From the dict that [resample_timeframes] fills on a base Series of
    [total_days] days of one-minute candles, [create_half_dataframes]
    returns, whatever is excluded; the halves are those of the timeframes
    that are not excluded, in order, and a player is shown
    [total_days * 720] one-minute candles and [(total_days + 1) // 2] daily
    ones. *)
Theorem halves_of_the_family (self : RandomOHLC) (base : DataFrame float64)
    (n : nat) (exclusions : list string) :
  1 <= total_days self ->
  map date base = stamps_from (Tick 60) 0 (S n) ->
  Z.of_nat (S n) = total_days self * MINUTES_IN_1DAY ->
  exists resampled_data half_dataframes,
    resample_timeframes self base empty_resampled_data = Ok resampled_data
    /\ create_half_dataframes resampled_data exclusions = Ok half_dataframes
    /\ map fst half_dataframes
       = filter (fun tf => negb (excluded tf exclusions)) timeframes
    /\ (excluded "1min" exclusions = false ->
        exists half, lookup "1min" half_dataframes = Some half
                     /\ Z.of_nat (List.length half) = total_days self * 720)
    /\ (excluded "1D" exclusions = false ->
        exists half, lookup "1D" half_dataframes = Some half
                     /\ Z.of_nat (List.length half)
                        = (total_days self + 1) / 2).
Proof.
  intros Hn Hbase Hlen. unfold MINUTES_IN_1DAY in Hlen.
  assert (Nk : Z.of_nat n = 1440 * total_days self - 1) by lia.
  destruct (create_half_dataframes_ok (resampled_family base) exclusions)
    as (halves & Hh).
  { intros tf Hin. unfold resampled_family in Hin. cbn [In] in Hin.
    repeat (destruct Hin as [Hin | Hin]; [discriminate|]). exact Hin. }
  exists (resampled_family base), halves.
  split; [apply resample_timeframes_family|]. split; [exact Hh|].
  destruct (create_half_dataframes_inv _ _ _ Hh) as (Hkeys & _ & Hl).
  refine (conj Hkeys (conj _ _)).
  - intro Hex. eexists. split; [apply (Hl _ base Hex); reflexivity|].
    rewrite firstn_length_le by (apply Nat.Div0.div_le_upper_bound; lia).
    rewrite Nat2Z.inj_div, (dates_length _ _ _ _ Hbase).
    change (Z.of_nat 2) with 2. Z.to_euclidean_division_equations. lia.
  - intro Hex.
    destruct (family_counts_of_days base n (total_days self) Hbase Nk
                "1D"%string 1) as (d & Ld & Nd); [cbn; tauto|].
    eexists. split; [apply (Hl _ d Hex Ld)|].
    rewrite firstn_length_le by (apply Nat.Div0.div_le_upper_bound; lia).
    rewrite Nat2Z.inj_div, Nd. change (Z.of_nat 2) with 2. f_equal. lia.
Qed.

Lemma halves_of_the_family_witness :
  let base := map (fun t => Candle t (Fin 2) (Fin 3) (Fin 1) (Fin 2))
                  (stamps_from (Tick 60) 0 (S (Z.to_nat 172799))) in
  exists resampled_data half_dataframes,
    resample_timeframes (mkRandomOHLC 120 100000 1) base empty_resampled_data
    = Ok resampled_data
    /\ create_half_dataframes resampled_data ["1min"; "5min"]%string
       = Ok half_dataframes
    /\ map fst half_dataframes
       = filter (fun tf => negb (excluded tf ["1min"; "5min"]%string))
                timeframes.
Proof.
  intro base.
  destruct (halves_of_the_family (mkRandomOHLC 120 100000 1) base
              (Z.to_nat 172799) ["1min"; "5min"]%string)
    as (rd & hd & H1 & H2 & H3 & _).
  - cbn [total_days]. lia.
  - unfold base. rewrite map_map. apply map_id.
  - cbn [total_days]. unfold MINUTES_IN_1DAY. lia.
  - exists rd, hd. repeat split; assumption.
Defined.

(** ** The pipeline as a whole *)

Lemma create_realistic_ohlc_never_returns (VP VMIN VMAX : Z)
    (self : RandomOHLC) (df df' : DataFrame Q) (rs rs' : RandomState) :
  create_realistic_ohlc VP VMIN VMAX self df rs <> Ok (df', rs').
Proof.
  unfold create_realistic_ohlc, bind.
  destruct (create_volatile_periods VP VMIN VMAX self df rs)
    as [[df1 rs1]|e]; [|discriminate].
  rewrite connect_open_close_candles_raises. discriminate.
Qed.

(** With constants the injector can draw from, the injector returns and the
    connector raises. *)
Lemma create_realistic_ohlc_raises (VP VMIN VMAX : Z) (self : RandomOHLC)
    (df : DataFrame Q) (rs : RandomState) :
  1 < VP -> 1 <= VMIN < VMAX -> (0 <= volatility self)%Q ->
  create_realistic_ohlc VP VMIN VMAX self df rs = Raise ValueError.
Proof.
  intros HVP HV Hv. unfold create_realistic_ohlc, create_volatile_periods, bind.
  destruct (volatile_ranges_ok VP VMIN VMAX (List.length df) rs HVP HV)
    as (ranges & rs1 & -> & Hall).
  destruct (splices_ok self ranges Hv df rs1 Hall) as (df1 & rs2 & ->).
  now rewrite connect_open_close_candles_raises.
Qed.

(** X1. [random_case] never returns.  Whatever the number of days, the
    random source and the constants of the injector, no dict comes back;
    and for a number of days of at least one, with constants the injector
    can draw from, the exception is the [ValueError] that the corrector
    raises inside [create_realistic_ohlc], once the walk is generated and
    the volatile periods are injected. *)
Theorem random_case_never_returns (VP VMIN VMAX : Z) (num_days : Z)
    (rs : RandomState) :
  (forall family rs', random_case VP VMIN VMAX num_days rs <> Ok (family, rs'))
  /\ (1 < VP -> 1 <= VMIN < VMAX -> 1 <= num_days ->
      random_case VP VMIN VMAX num_days rs = Raise ValueError).
Proof.
  unfold random_case, bind, uniform.
  set (v := (1 + (2 - 1) * Qfrac (unif rs (drawn rs)))%Q).
  assert (Hv : (0 <= v)%Q).
  { unfold v, Qfrac. pose proof (Qfloor_le (unif rs (drawn rs))). lra. }
  cbn [total_days start_price volatility]. unfold SECONDS_IN_1DAY. split.
  - intros family rs'. unfold generate, bind.
    destruct (generate_random_df_ _ _ _ _ _) as [[df rs1]|e]; [|discriminate].
    destruct (create_realistic_ohlc VP VMIN VMAX _ df rs1)
      as [[df1 rs2]|e] eqn:E; [|discriminate].
    now apply create_realistic_ohlc_never_returns in E.
  - intros HVP HV Hn. unfold generate, bind.
    destruct (generate_random_df_ok (num_days * 86400) "1S" (Tick 1) 100000 v
                (advance 1 rs) eq_refl ltac:(lia) Hv) as (df & rs1 & ->).
    now rewrite create_realistic_ohlc_raises.
Qed.

Lemma random_case_never_returns_witness :
  random_case 3 1 4 120
    (mkRandomState (fun _ => 7) (fun _ => 0%Q) (fun _ _ => 1%Q) 0)
  = Raise ValueError.
Proof.
  apply (proj2 (random_case_never_returns 3 1 4 120
                  (mkRandomState (fun _ => 7) (fun _ => 0%Q)
                     (fun _ _ => 1%Q) 0))); lia.
Defined.
